(** * wikimcp: the Wiki.js MCP server, embedded and verified

    The repository is one TypeScript program, [index.ts], kept in four
    revisions: three in [src/index.ts] (A, B and C, in file order) and
    one without a name ([Unnamed] below).  Each revision registers a
    [CallTool] handler that dispatches on the tool name to four page
    operations; every operation validates its argument bag, awaits
    GraphQL requests and builds a text result.

    The embedding keeps what the handlers compute on:
    - JavaScript values as an inductive type, with truthiness, [typeof],
      the [in] operator, property access and [ToString];
    - awaited GraphQL requests as the nodes of a program tree, with
      [throw] and [try]/[catch];
    - one module per revision, holding that revision's functions under
      their source names: all four branches and the dispatcher for
      every revision.

    Strings are byte strings; the tests the program makes on them (a
    leading "/", two ASCII letters, containment of an ASCII text) read
    the same bytes as the UTF-16 code units of the source.  Writes to the
    error stream ([console.error]) are not part of any result; what is
    kept of them is the evaluation of a template literal in their
    argument, where it can throw. *)

From Stdlib Require Import String Ascii List ZArith Bool Lia DecimalString.
Import ListNotations.
Open Scope string_scope.

Set Implicit Arguments.

(* ------------------------------------------------------------------ *)
(** * Strings *)

Module Str.

(** The line feed of the template literals. *)
Definition nl : string := String (ascii_of_nat 10) "".

(** The double quote inside a message text. *)
Definition dq : string := String (ascii_of_nat 34) "".

(** [s.startsWith(p)] *)
Fixpoint startsWith (s p : string) {struct p} : bool :=
  match p with
  | "" => true
  | String c p' =>
      match s with
      | "" => false
      | String d s' => Ascii.eqb c d && startsWith s' p'
      end
  end.

(** [s.substring(1)] *)
Definition substring1 (s : string) : string :=
  match s with
  | "" => ""
  | String _ rest => rest
  end.

(** [s.substring(0, n)] *)
Fixpoint take (n : nat) (s : string) : string :=
  match n, s with
  | S n', String c rest => String c (take n' rest)
  | _, _ => ""
  end.

(** [s.includes(sub)]: [sub] occurs in [s] at some offset. *)
Fixpoint includes (s sub : string) : bool :=
  startsWith s sub ||
  match s with
  | "" => false
  | String _ rest => includes rest sub
  end.

(** [l.includes(x)] on an array of strings. *)
Definition mem (x : string) (l : list string) : bool :=
  existsb (String.eqb x) l.

(** The decimal text of an integer.  The engine prints a number this
    way as long as it is an integer of magnitude at most 2^53; the loop
    counters, which [of_nat] prints, never pass 6. *)
Definition of_Z (z : Z) : string := NilZero.string_of_int (Z.to_int z).
Definition of_nat (n : nat) : string := of_Z (Z.of_nat n).

(** ASCII letter test of the character class [[a-z]] under the [i] flag. *)
Definition is_letter (c : ascii) : bool :=
  let n := nat_of_ascii c in
  ((97 <=? n)%nat && (n <=? 122)%nat) || ((65 <=? n)%nat && (n <=? 90)%nat).

End Str.

(* ------------------------------------------------------------------ *)
(** * JavaScript values *)

(** The values a JSON argument bag or a GraphQL response can hold, and
    [undefined].  Numbers are the integers: page ids and limits are
    declared [Int] by the schema; [JNum n] is the number the JSON reader
    makes of the literal [n], and how the engine prints it is left to the
    runtime (see [Number_toString]).  An object is its list of own
    properties in insertion order; no property of a JSON value is a
    function. *)
#[warnings="-register-all"]
Inductive value : Type :=
| JUndefined
| JNull
| JBool (b : bool)
| JNum (n : Z)
| JStr (s : string)
| JArr (items : list value)
| JObj (fields : list (string * value)).

Module Js.

(** ToBoolean. *)
Definition truthy (v : value) : bool :=
  match v with
  | JUndefined | JNull => false
  | JBool b => b
  | JNum n => negb (Z.eqb n 0)
  | JStr s => negb (String.eqb s "")
  | JArr _ | JObj _ => true
  end.

(** [typeof v] *)
Definition typeof (v : value) : string :=
  match v with
  | JUndefined => "undefined"
  | JNull | JArr _ | JObj _ => "object"
  | JBool _ => "boolean"
  | JNum _ => "number"
  | JStr _ => "string"
  end.

Fixpoint assoc (k : string) (fields : list (string * value)) : option value :=
  match fields with
  | [] => None
  | (k', v) :: rest => if String.eqb k k' then Some v else assoc k rest
  end.

(** [k in v], for the property names the program asks about; the
    source evaluates it only behind [typeof v === "object" && v !== null]. *)
Definition has (k : string) (v : value) : bool :=
  match v with
  | JObj fields => match assoc k fields with Some _ => true | None => false end
  | _ => false
  end.

(** [v.k] for a value that is neither [undefined] nor [null]: an own
    property of an object, [undefined] otherwise (none of the names the
    program reads is a prototype property of a primitive or an array). *)
Definition get (v : value) (k : string) : value :=
  match v with
  | JObj fields => match assoc k fields with Some x => x | None => JUndefined end
  | _ => JUndefined
  end.

(** [{...o, k: x}]: an existing key keeps its place, a new one goes last. *)
Fixpoint set_field (k : string) (x : value) (fields : list (string * value))
  : list (string * value) :=
  match fields with
  | [] => [(k, x)]
  | (k', v) :: rest =>
      if String.eqb k k' then (k', x) :: rest else (k', v) :: set_field k x rest
  end.

(** [a || b] *)
Definition or (a b : value) : value := if truthy a then a else b.

(** Whether ToPrimitive succeeds on [v], as ToString and [new Date]
    apply it.  An object is converted by its [toString] method: the one
    of [Object.prototype], unless the object has an own property of that
    name, which in a JSON value is not a function, and then the [valueOf]
    that is left returns the object itself and the conversion throws.
    An array is converted by joining the conversions of its items. *)
Fixpoint printable (v : value) : bool :=
  match v with
  | JObj fields =>
      match assoc "toString" fields with
      | Some _ => false
      | None => true
      end
  | JArr items => forallb printable items
  | _ => true
  end.

End Js.

(* ------------------------------------------------------------------ *)
(** * Exceptions, requests and handler programs *)

(** What a [throw] or a rejected promise carries: an [Error] instance
    with its [name], [message] and [stack].  The program throws
    [new Error(...)] only, the engine throws TypeErrors, and the client
    library rejects with its [ClientError] or with the error of the
    transport; so the other arm of each [error instanceof Error ? ... :
    ...] below is never taken. *)
Inductive thrown : Type :=
| ErrorObj (name message stack : string).

(** [error instanceof Error ? error.message : String(error)] *)
Definition error_text (e : thrown) : string :=
  match e with
  | ErrorObj _ message _ => message
  end.

(** [error instanceof Error ? error.stack : "No stack trace available"] *)
Definition error_stack (e : thrown) : string :=
  match e with
  | ErrorObj _ _ stack => stack
  end.

(** [error instanceof Error ? error.name : "Unknown error type"] *)
Definition error_name (e : thrown) : string :=
  match e with
  | ErrorObj name _ _ => name
  end.

(** The five GraphQL documents. *)
Inductive Query : Type :=
| LIST_PAGES_QUERY
| GET_PAGE_BY_ID_QUERY
| GET_PAGE_BY_PATH_QUERY
| CREATE_PAGE_MUTATION
| UPDATE_PAGE_MUTATION.

Definition Query_eqb (a b : Query) : bool :=
  match a, b with
  | LIST_PAGES_QUERY, LIST_PAGES_QUERY
  | GET_PAGE_BY_ID_QUERY, GET_PAGE_BY_ID_QUERY
  | GET_PAGE_BY_PATH_QUERY, GET_PAGE_BY_PATH_QUERY
  | CREATE_PAGE_MUTATION, CREATE_PAGE_MUTATION
  | UPDATE_PAGE_MUTATION, UPDATE_PAGE_MUTATION => true
  | _, _ => false
  end.

(** One call [graphqlClient.request(document, variables)]. *)
Record GqlRequest : Type := mkReq {
  document : Query;
  variables : list (string * value)
}.

(** How the awaited promise settles. *)
Inductive Outcome : Type :=
| Resolved (data : value)
| Rejected (e : thrown).

(** An async function body: it returns, throws, or awaits a request and
    goes on with the outcome. *)
Inductive Prog (A : Type) : Type :=
| Ret (a : A)
| Throw (e : thrown)
| Await (r : GqlRequest) (k : Outcome -> Prog A).

Arguments Throw {A} e.

Fixpoint bind {A B} (p : Prog A) (f : A -> Prog B) : Prog B :=
  match p with
  | Ret a => f a
  | Throw e => Throw e
  | Await r k => Await r (fun o => bind (k o) f)
  end.

(** [try { p } catch (e) { h e }] *)
Fixpoint try_catch {A} (p : Prog A) (h : thrown -> Prog A) : Prog A :=
  match p with
  | Ret a => Ret a
  | Throw e => h e
  | Await r k => Await r (fun o => try_catch (k o) h)
  end.

(** [await graphqlClient.request(q, vars)] *)
Definition request (q : Query) (vars : list (string * value)) : Prog value :=
  Await (mkReq q vars)
        (fun o => match o with
                  | Resolved data => Ret data
                  | Rejected e => Throw e
                  end).

Declare Scope prog_scope.
Delimit Scope prog_scope with prog.
Notation "x <- p ;; q" := (bind p (fun x => q))
  (at level 61, p at next level, right associativity) : prog_scope.
Notation "' pat <- p ;; q" := (bind p (fun x => match x with pat => q end))
  (at level 61, pat pattern, p at next level, right associativity) : prog_scope.
Open Scope prog_scope.

(** ** Running a program against a server *)

(** The exchanges of one call, oldest first. *)
Definition Trace : Type := list (GqlRequest * Outcome).

(** The wiki server and the transport, seen from the handler: what a
    request settles to, given the exchanges made so far in the call. *)
Definition Server : Type := Trace -> GqlRequest -> Outcome.

(** How an async function settles. *)
Inductive Settled (A : Type) : Type :=
| Fulfilled (a : A)
| Threw (e : thrown).

Arguments Threw {A} e.

(** [run srv hist p]: the exchanges [p] makes after [hist], and how it
    settles. *)
Fixpoint run {A} (srv : Server) (hist : Trace) (p : Prog A)
  : Trace * Settled A :=
  match p with
  | Ret a => ([], Fulfilled a)
  | Throw e => ([], Threw e)
  | Await r k =>
      let o := srv hist r in
      let '(t, res) := run srv (hist ++ [(r, o)])%list (k o) in
      ((r, o) :: t, res)
  end.

(** The value a settled call was fulfilled with, [d] if it threw. *)
Definition fulfilled_or {A} (d : A) (s : Settled A) : A :=
  match s with
  | Fulfilled a => a
  | Threw _ => d
  end.

(** The requests of a trace that use document [q]. *)
Definition calls_of (q : Query) (t : Trace) : list GqlRequest :=
  filter (fun r => Query_eqb (document r) q) (map fst t).

(** ** Blocks that append to a text while they run *)

(** A block of statements around a mutable text ([debugInfo]): it
    starts from the text so far and ends, by returning or by throwing,
    with the text as it is then.  A [catch] goes on from the text at the
    moment of the throw. *)
Definition Logged (A : Type) : Type := string -> Prog (Settled A * string).

Definition lret {A} (a : A) : Logged A := fun s => Ret (Fulfilled a, s).

Definition lbind {A B} (m : Logged A) (f : A -> Logged B) : Logged B :=
  fun s =>
    bind (m s)
         (fun rs => match rs with
                    | (Fulfilled a, s') => f a s'
                    | (Threw e, s') => Ret (Threw e, s')
                    end).

(** [debugInfo += text] *)
Definition log (text : string) : Logged unit :=
  fun s => Ret (Fulfilled tt, s ++ text).

(** A statement that leaves the text alone; its throw is kept with the
    text of that moment. *)
Definition llift {A} (p : Prog A) : Logged A :=
  fun s =>
    try_catch (bind p (fun a => Ret (Fulfilled a, s)))
              (fun e => Ret (Threw e, s)).

(** [try { m } catch (e) { h e }] around the text. *)
Definition ltry {A} (m : Logged A) (h : thrown -> Logged A) : Logged A :=
  fun s =>
    bind (m s)
         (fun rs => match rs with
                    | (Fulfilled a, s') => Ret (Fulfilled a, s')
                    | (Threw e, s') => h e s'
                    end).

(** The block as a statement of the enclosing function, started from
    the text [s]: the value and the text, or the throw that left it. *)
Definition lrun {A} (m : Logged A) (s : string) : Prog (A * string) :=
  bind (m s)
       (fun rs => match rs with
                  | (Fulfilled a, s') => Ret (a, s')
                  | (Threw e, _) => Throw e
                  end).

Notation "x <~ m ;; k" := (lbind m (fun x => k))
  (at level 61, m at next level, right associativity) : prog_scope.
Notation "m ~> k" := (lbind m (fun _ => k))
  (at level 61, right associativity) : prog_scope.

(* ------------------------------------------------------------------ *)
(** * Results, environment and the parts all revisions share *)

(** [{ type: "text", text }] *)
Record ContentBlock : Type := mkBlock {
  type_ : string;
  text : string
}.

(** What a tool call resolves with. *)
Record ToolCallResult : Type := mkResult {
  content : list ContentBlock;
  isError : bool
}.

(** [{ content: [{ type: "text", text: t }], isError: e }] *)
Definition text_result (t : string) (e : bool) : ToolCallResult :=
  mkResult [mkBlock "text" t] e.

(** The text of the first content block. *)
Definition first_text (r : ToolCallResult) : string :=
  match content r with
  | [] => ""
  | b :: _ => text b
  end.

(** [request.params] of a CallTool request. *)
Record CallToolParams : Type := mkParams {
  name : string;
  arguments : value
}.

(** What the program takes from outside the repository: the two
    environment settings, and the library and engine functions whose
    output it only splices into texts. *)
Class Runtime : Type := {
  (** [JSON.stringify(v, null, indent)], as interpolated in a template;
      [JSON.stringify(v)] is indent 0 *)
  JSON_stringify : nat -> value -> string;
  (** the text of a number: the decimal digits of an integer within
      2^53, whatever the engine prints beyond *)
  Number_toString : Z -> string;
  Number_toString_safe :
    forall n, (- 2 ^ 53 <= n <= 2 ^ 53)%Z -> Number_toString n = Str.of_Z n;
  (** [new Date(v).toLocaleString()], once [v] is converted *)
  Date_toLocaleString : value -> string;
  (** the text of a [gql] document *)
  gql : Query -> string;
  (** the [stack] text of an error created with this name and message *)
  stack_trace : string -> string -> string;
  WIKI_API_URL : string;
  WIKI_API_TOKEN : string
}.

(** [new Error(msg)] *)
Definition Error {rt : Runtime} (msg : string) : thrown :=
  ErrorObj "Error" msg (stack_trace "Error" msg).

(** The [TypeError] the engine throws, with message [msg]. *)
Definition TypeError {rt : Runtime} (msg : string) : thrown :=
  ErrorObj "TypeError" msg (stack_trace "TypeError" msg).

(** The text ToString gives for a value it converts. *)
Fixpoint to_string {rt : Runtime} (v : value) : string :=
  match v with
  | JUndefined => "undefined"
  | JNull => "null"
  | JBool true => "true"
  | JBool false => "false"
  | JNum n => Number_toString n
  | JStr s => s
  | JArr items =>
      String.concat ","
        (map (fun e => match e with
                       | JUndefined | JNull => ""
                       | _ => to_string e
                       end) items)
  | JObj _ => "[object Object]"
  end.

Definition cannot_convert : string := "Cannot convert object to primitive value".

(** ToString, as a template literal applies it to a substitution: the
    text, or the engine's TypeError. *)
Definition ToString {rt : Runtime} (v : value) : Prog string :=
  if Js.printable v then Ret (to_string v) else Throw (TypeError cannot_convert).

(** [new Date(v).toLocaleString()]: the constructor converts [v] to a
    primitive first, and throws where that conversion does. *)
Definition new_Date_toLocaleString {rt : Runtime} (v : value) : Prog string :=
  if Js.printable v then Ret (Date_toLocaleString v)
  else Throw (TypeError cannot_convert).

Definition is_undefined (v : value) : bool :=
  match v with JUndefined => true | _ => false end.

Definition is_null (v : value) : bool :=
  match v with JNull => true | _ => false end.

(** [typeof v === "object" && v !== null] *)
Definition is_object (v : value) : bool :=
  String.eqb (Js.typeof v) "object" && negb (is_null v).

(** [k in v && typeof v.k === ty] *)
Definition has_typed (v : value) (k ty : string) : bool :=
  Js.has k v && String.eqb (Js.typeof (Js.get v k)) ty.

Definition isListPagesArgs (args : value) : bool :=
  is_object args.

Definition isGetPageArgs (args : value) : bool :=
  is_object args &&
  (has_typed args "id" "number" || has_typed args "path" "string").

Definition isCreatePageArgs (args : value) : bool :=
  is_object args &&
  has_typed args "path" "string" &&
  has_typed args "title" "string" &&
  has_typed args "content" "string".

Definition isUpdatePageArgs (args : value) : bool :=
  is_object args &&
  (has_typed args "id" "number" || has_typed args "path" "string").

(** [d && d.pages && d.pages.field] as a condition.  The guards make
    each property read safe, so [Js.get] is applied to non-nullish
    values only. *)
Definition found (d : value) (field : string) : bool :=
  Js.truthy d && Js.truthy (Js.get d "pages") &&
  Js.truthy (Js.get (Js.get d "pages") field).

(** [d.pages.field], read after [found d field]. *)
Definition payload (d : value) (field : string) : value :=
  Js.get (Js.get d "pages") field.

(** An unguarded property read [v.k]: it throws on [undefined] and
    [null], with the message of the V8 engine. *)
Definition member {rt : Runtime} (v : value) (k : string) : Prog value :=
  match v with
  | JUndefined =>
      Throw (TypeError ("Cannot read properties of undefined (reading '" ++ k ++ "')"))
  | JNull =>
      Throw (TypeError ("Cannot read properties of null (reading '" ++ k ++ "')"))
  | _ => Ret (Js.get v k)
  end.

(** A string method called on [v], named [what] in the source: it
    throws unless [v] is a string. *)
Definition string_receiver {rt : Runtime} (v : value) (what : string)
  : Prog string :=
  match v with
  | JStr s => Ret s
  | JUndefined =>
      Throw (TypeError ("Cannot read properties of undefined (reading 'startsWith')"))
  | JNull =>
      Throw (TypeError ("Cannot read properties of null (reading 'startsWith')"))
  | _ => Throw (TypeError (what ++ " is not a function"))
  end.

(** The message the update handler treats as a success. *)
Definition quirk_signature : string :=
  "Cannot read properties of undefined (reading 'map')".

(** The variables of the update mutation; the same object literal in
    every revision. *)
Definition updateParams (pageId args : value) : list (string * value) :=
  [("id", pageId);
   ("title", Js.get args "title");
   ("content", Js.get args "content");
   ("editor", Js.get args "editor");
   ("isPublished", Js.get args "isPublished");
   ("description", JUndefined)].

(** The variables of the create mutation in revisions B, C and the
    unnamed one, which put [path] first. *)
Definition requestParams (normalizedPath : string) (args : value)
  : list (string * value) :=
  [("path", JStr normalizedPath);
   ("title", Js.get args "title");
   ("content", Js.get args "content");
   ("editor", Js.or (Js.get args "editor") (JStr "markdown"));
   ("isPublished",
    if negb (is_undefined (Js.get args "isPublished"))
    then Js.get args "isPublished" else JBool true);
   ("description", JStr "")].

Section Shared.

Context {rt : Runtime}.

Definition debugLog (title : string) (data : value) : string :=
  Str.nl ++ "===== DEBUG: " ++ title ++ " =====" ++ Str.nl ++
  JSON_stringify 2 data ++ Str.nl ++
  "===== END DEBUG: " ++ title ++ " =====" ++ Str.nl.

(** The object every handler logs from its own [catch]. *)
Definition error_report (error : thrown) : value :=
  JObj [("message", JStr (error_text error));
        ("stack", JStr (error_stack error));
        ("name", JStr (error_name error))].

(** The callback of [pages.map] in the list handler. *)
Definition page_entry (page : value) : Prog string :=
  title <- member page "title";;
  title <- ToString title;;
  id <- ToString (Js.get page "id");;
  path <- ToString (Js.get page "path");;
  updated <- (if Js.truthy (Js.get page "updatedAt")
              then
                date <- new_Date_toLocaleString (Js.get page "updatedAt");;
                Ret (Str.nl ++ "  Last Updated: " ++ date)
              else Ret "");;
  Ret ("- " ++ title ++ " (ID: " ++ id ++ ", Path: " ++ path ++ ")" ++ updated).

Fixpoint map_entries (items : list value) : Prog (list string) :=
  match items with
  | [] => Ret []
  | page :: rest =>
      e <- page_entry page;;
      es <- map_entries rest;;
      Ret (e :: es)
  end.

(** [pages.map(callback)] on whatever [pages] is. *)
Definition pages_map (pages : value) : Prog (list string) :=
  match pages with
  | JArr items => map_entries items
  | JUndefined =>
      Throw (TypeError "Cannot read properties of undefined (reading 'map')")
  | JNull =>
      Throw (TypeError "Cannot read properties of null (reading 'map')")
  | _ => Throw (TypeError "pages.map is not a function")
  end.

(** [pages.length > 0], evaluated after [pages.map] succeeded. *)
Definition nonempty (pages : value) : bool :=
  match pages with
  | JArr (_ :: _) => true
  | _ => false
  end.

(** The [wiki_list_pages] branch; its text is the same in every revision. *)
Definition wiki_list_pages (args : value) : Prog ToolCallResult :=
  if negb (isListPagesArgs args)
  then Throw (Error "Invalid arguments for wiki_list_pages")
  else
    let orderBy := Js.or (Js.get args "orderBy") (JStr "TITLE") in
    let limit := Js.or (Js.get args "limit") (JNum 10) in
    data <- request LIST_PAGES_QUERY [("orderBy", orderBy); ("limit", limit)];;
    typedData_pages <- member data "pages";;
    pages <- member typedData_pages "list";;
    lines <- pages_map pages;;
    let pageList := String.concat (Str.nl ++ Str.nl) lines in
    Ret (text_result (if nonempty pages then pageList else "No pages found") false).

(** The [CallTool] handler around the four branches of a revision. *)
Section Dispatch.

Variables list_pages get_page create_page update_page
  : value -> Prog ToolCallResult.

(** The [try] block of the handler. *)
Definition dispatch_body (params : CallToolParams) : Prog ToolCallResult :=
  let args := arguments params in
  if negb (Js.truthy args) then Throw (Error "No arguments provided")
  else if String.eqb (name params) "wiki_list_pages" then list_pages args
  else if String.eqb (name params) "wiki_get_page" then get_page args
  else if String.eqb (name params) "wiki_create_page" then create_page args
  else if String.eqb (name params) "wiki_update_page" then update_page args
  else Ret (text_result ("Unknown tool: " ++ name params) true).

(** Its [catch] block. *)
Definition dispatch_catch (error : thrown) : ToolCallResult :=
  text_result ("Error: " ++ error_text error) true.

Definition dispatch (params : CallToolParams) : Prog ToolCallResult :=
  try_catch (dispatch_body params) (fun error => Ret (dispatch_catch error)).

End Dispatch.

(** [message.includes(quirk_signature)] on whatever [message] is,
    evaluated when [message] is truthy. *)
Definition message_includes (message : value) : Prog bool :=
  match message with
  | JStr s => Ret (Str.includes s quirk_signature)
  | JArr items =>
      Ret (existsb (fun e => match e with
                             | JStr s => String.eqb s quirk_signature
                             | _ => false
                             end) items)
  | _ => Throw (TypeError "result.responseResult.message.includes is not a function")
  end.

(** [Bearer ${WIKI_API_TOKEN.substring(0, 5)}...] and the endpoint, as
    logged under "API CONFIGURATION". *)
Definition api_configuration (extra : list (string * value)) : value :=
  JObj ([("url", JStr (WIKI_API_URL ++ "/graphql"));
         ("authHeader", JStr ("Bearer " ++ Str.take 5 WIKI_API_TOKEN ++ "..."))]
        ++ extra)%list.

(** Whether the three fields of a returned page that a success text
    prints can be converted. *)
Definition details_printable (page : value) : bool :=
  Js.printable (Js.get page "title") &&
  Js.printable (Js.get page "id") &&
  Js.printable (Js.get page "path").

(** The end of [wiki_get_page] in revisions A, B and C, after its
    [try] block: [if (!page) return ...; return ...], the same text in
    the three. *)
Definition page_result (args page : value) (debugInfo : string)
  : Prog ToolCallResult :=
  if negb (Js.truthy page)
  then
    what <- (if Js.truthy (Js.get args "id")
             then id <- ToString (Js.get args "id");; Ret ("ID: " ++ id)
             else path <- ToString (Js.get args "path");; Ret ("path: " ++ path));;
    Ret (text_result
           ("Page not found for " ++ what ++ Str.nl ++ Str.nl ++ debugInfo) true)
  else
    title <- ToString (Js.get page "title");;
    content <- ToString (Js.get page "content");;
    Ret (text_result
           ("# " ++ title ++ Str.nl ++ Str.nl ++
            content ++ Str.nl ++ Str.nl ++ debugInfo) false).

(** Whether the two fields of a page that the get handler prints can
    be converted. *)
Definition page_printable (page : value) : bool :=
  Js.printable (Js.get page "title") && Js.printable (Js.get page "content").

(** The text about a returned page, when its fields can be converted. *)
Definition details_text (page : value) : string :=
  "Title: " ++ to_string (Js.get page "title") ++ Str.nl ++
  "ID: " ++ to_string (Js.get page "id") ++ Str.nl ++
  "Path: " ++ to_string (Js.get page "path").

(** [Title: ${page.title}\nID: ${page.id}\nPath: ${page.path}], the
    part of a success text about the page returned. *)
Definition page_details (page : value) : Prog string :=
  title <- ToString (Js.get page "title");;
  id <- ToString (Js.get page "id");;
  path <- ToString (Js.get page "path");;
  Ret ("Title: " ++ title ++ Str.nl ++ "ID: " ++ id ++ Str.nl ++ "Path: " ++ path).

(** How revisions A and C read the response of the update mutation. *)
Definition update_outcome (data : value) (debugInfo : string)
  : Prog ToolCallResult :=
  let unexpected :=
    Ret (text_result
           ("Page was updated successfully, but the response format was unexpected." ++
            Str.nl ++ Str.nl ++ debugInfo) false) in
  if found data "update"
  then
    let result := payload data "update" in
    let responseResult := Js.get result "responseResult" in
    if Js.truthy responseResult
    then
      if Js.truthy (Js.get responseResult "succeeded")
      then
        if Js.truthy (Js.get result "page")
        then
          details <- page_details (Js.get result "page");;
          Ret (text_result
                 ("Page updated successfully:" ++ Str.nl ++ details ++
                  Str.nl ++ Str.nl ++ debugInfo) false)
        else
          Ret (text_result
                 ("Page updated successfully, but no page details were returned." ++
                  Str.nl ++ Str.nl ++ debugInfo) false)
      else
        let message := Js.get responseResult "message" in
        quirk <- (if Js.truthy message then message_includes message else Ret false);;
        if quirk
        then
          text <- ToString message;;
          Ret (text_result
                 ("Page was likely updated successfully despite error: " ++
                  text ++ Str.nl ++
                  "This is a known issue with the Wiki.js API." ++
                  Str.nl ++ Str.nl ++ debugInfo) false)
        else
          text <- ToString (Js.or message (JStr "Unknown error"));;
          Ret (text_result
                 ("Failed to update page: " ++ text ++
                  Str.nl ++ Str.nl ++ debugInfo) true)
    else unexpected
  else unexpected.

(** The second half of [wiki_update_page] in revisions A and C, from
    [if (!pageId)] to the end of the [try] block. *)
Definition update_with_id (args pageId : value) (debugInfo : string)
  : Prog ToolCallResult :=
  if negb (Js.truthy pageId)
  then Throw (Error "Could not determine page ID")
  else
    let debugInfo :=
      debugInfo ++
      debugLog "UPDATE PAGE REQUEST PARAMETERS" (JObj (updateParams pageId args)) ++
      debugLog "UPDATE PAGE GRAPHQL MUTATION" (JStr (gql UPDATE_PAGE_MUTATION)) in
    data <- request UPDATE_PAGE_MUTATION (updateParams pageId args);;
    let debugInfo :=
      debugInfo ++ debugLog "UPDATE PAGE RESPONSE" data ++
      debugLog "API CONFIGURATION" (api_configuration []) in
    update_outcome data debugInfo.

(** The [catch] of [wiki_update_page] in revisions A and C. *)
Definition update_failed (error : thrown) : ToolCallResult :=
  let errorDebugInfo := debugLog "UPDATE PAGE ERROR" (error_report error) in
  text_result
    ("Error updating page: " ++ error_text error ++
     Str.nl ++ Str.nl ++ errorDebugInfo) true.

End Shared.

(* ------------------------------------------------------------------ *)
(** * Revision A: path variations with language prefixes *)

Module RevA.

Definition normalizePath (path : string) : string :=
  if Str.startsWith path "/" then Str.substring1 path else path.

(** [normalizedPath.match(/^[a-z]{2}\//i)] as a condition. *)
Definition hasLangPrefix (normalizedPath : string) : bool :=
  match normalizedPath with
  | String a (String b (String c _)) =>
      Str.is_letter a && Str.is_letter b && Ascii.eqb c "/"
  | _ => false
  end.

Definition generatePathVariations (path : string) : list string :=
  let originalPath := path in
  let normalizedPath := normalizePath originalPath in
  let variations :=
    if negb (hasLangPrefix normalizedPath)
    then ["ja/" ++ normalizedPath; "/ja/" ++ normalizedPath]
    else [normalizedPath] in
  let variations :=
    if negb (Str.mem normalizedPath variations)
    then (variations ++ [normalizedPath])%list
    else variations in
  let variations :=
    if negb (Str.startsWith originalPath "/") &&
       negb (Str.mem ("/" ++ originalPath) variations)
    then (variations ++ [("/" ++ originalPath)%string])%list
    else variations in
  let variations :=
    if negb (hasLangPrefix normalizedPath)
    then (variations ++ [("en/" ++ normalizedPath)%string;
                          ("/en/" ++ normalizedPath)%string])%list
    else variations in
  variations.

Section Handlers.

Context {rt : Runtime}.

(** [{ variations: pathVariations }] and the like. *)
Definition strings (l : list string) : value := JArr (map JStr l).

(** The [if (args.id)] branch of [wiki_get_page]: the page (or
    [undefined]) and the debug text. *)
Definition get_by_id (id : value) : Prog (value * string) :=
  let debugInfo :=
    debugLog "GET PAGE BY ID" (JObj [("id", id)]) ++
    debugLog "GET PAGE BY ID QUERY" (JStr (gql GET_PAGE_BY_ID_QUERY)) in
  data <- request GET_PAGE_BY_ID_QUERY [("id", id)];;
  let debugInfo := debugInfo ++ debugLog "GET PAGE BY ID RESPONSE" data in
  if found data "single"
  then
    let page := payload data "single" in
    Ret (page,
         debugInfo ++ debugLog "PAGE FOUND BY ID"
                        (JObj [("id", id); ("title", Js.get page "title")]))
  else
    Ret (JUndefined,
         debugInfo ++ debugLog "PAGE NOT FOUND BY ID"
                        (JObj [("id", id); ("response", data)])).

(** The [for] loop of [wiki_get_page] from index [i] on; [Some page]
    stands for the [break]. *)
Fixpoint get_loop (i : nat) (pathVariations : list string) (debugInfo : string)
  : Prog (value * string) :=
  match pathVariations with
  | [] => Ret (JUndefined, debugInfo)
  | currentPath :: rest =>
      let attempt := Str.of_nat (i + 1) in
      let debugInfo :=
        debugInfo ++ debugLog ("GET PAGE BY PATH - ATTEMPT " ++ attempt)
                       (JObj [("path", JStr currentPath)]) in
      r <- try_catch
             (data <- request GET_PAGE_BY_PATH_QUERY [("path", JStr currentPath)];;
              let debugInfo :=
                debugInfo ++
                debugLog ("GET PAGE BY PATH RESPONSE - ATTEMPT " ++ attempt) data in
              if found data "singleByPath"
              then
                let page := payload data "singleByPath" in
                Ret (Some page,
                     debugInfo ++ debugLog "PAGE FOUND BY PATH"
                                    (JObj [("path", JStr currentPath);
                                           ("title", Js.get page "title")]))
              else
                Ret (None,
                     debugInfo ++
                     debugLog ("PAGE NOT FOUND BY PATH - ATTEMPT " ++ attempt)
                       (JObj [("path", JStr currentPath); ("response", data)])))
             (fun pathError =>
                Ret (None,
                     debugInfo ++
                     debugLog ("GET PAGE BY PATH ERROR - ATTEMPT " ++ attempt)
                       (JObj [("path", JStr currentPath);
                              ("error", JStr (error_text pathError))])));;
      match r with
      | (Some page, debugInfo) => Ret (page, debugInfo)
      | (None, debugInfo) => get_loop (S i) rest debugInfo
      end
  end.

(** The [else if (args.path)] branch of [wiki_get_page]. *)
Definition get_by_path (path : value) : Prog (value * string) :=
  originalPath <- string_receiver path "path.startsWith";;
  let pathVariations := generatePathVariations originalPath in
  let debugInfo :=
    debugLog "GET PAGE BY PATH - PATH VARIATIONS"
      (JObj [("variations", strings pathVariations)]) ++
    debugLog "GET PAGE BY PATH QUERY" (JStr (gql GET_PAGE_BY_PATH_QUERY)) in
  '(page, debugInfo) <- get_loop 0 pathVariations debugInfo;;
  if negb (Js.truthy page)
  then
    Ret (page,
         debugInfo ++ debugLog "GET PAGE BY PATH - ALL ATTEMPTS FAILED"
                        (JObj [("originalPath", JStr originalPath);
                               ("triedVariations", strings pathVariations)]))
  else Ret (page, debugInfo).

Definition wiki_get_page (args : value) : Prog ToolCallResult :=
  if negb (isGetPageArgs args)
  then Throw (Error "Invalid arguments for wiki_get_page")
  else
    r <- try_catch
           (pd <- (if Js.truthy (Js.get args "id")
                   then get_by_id (Js.get args "id")
                   else if Js.truthy (Js.get args "path")
                   then get_by_path (Js.get args "path")
                   else Throw (Error "Either id or path must be provided"));;
            Ret (inr pd))
           (fun error =>
              let errorDebugInfo := debugLog "GET PAGE ERROR" (error_report error) in
              Ret (inl (text_result
                          ("Error fetching page: " ++ error_text error ++
                           Str.nl ++ Str.nl ++ errorDebugInfo) true)));;
    match r with
    | inl result => Ret result
    | inr (page, debugInfo) => page_result args page debugInfo
    end.

(** The request parameters of the create mutation but [path]. *)
Definition baseParams (args : value) : list (string * value) :=
  [("title", Js.get args "title");
   ("content", Js.get args "content");
   ("editor", Js.or (Js.get args "editor") (JStr "markdown"));
   ("isPublished",
    if negb (is_undefined (Js.get args "isPublished"))
    then Js.get args "isPublished" else JBool true);
   ("description", JStr "")].

(** The [catch] of one attempt of the loop below; [debugInfo] is the
    text at the moment of the throw. *)
Definition create_attempt_failed (attempt currentPath debugInfo : string)
    (attemptError : thrown) : Prog (ToolCallResult + string) :=
  Ret (inr (debugInfo ++
            debugLog ("CREATE PAGE ERROR - ATTEMPT " ++ attempt)
              (JObj [("path", JStr currentPath);
                     ("error", JStr (error_text attemptError));
                     ("stack", JStr (error_stack attemptError))]))).

(** The [for] loop of [wiki_create_page] from index [i] on: [inl] is
    the [return] on success, [inr] the debug text after exhaustion.  The
    [try] of an attempt can throw at two places, and its [catch] goes on
    from the text as it is there: at the request, before the response is
    logged, and at the success text, after it. *)
Fixpoint create_loop (i : nat) (pathVariations : list string)
    (base : list (string * value)) (debugInfo : string)
  : Prog (ToolCallResult + string) :=
  match pathVariations with
  | [] => Ret (inr debugInfo)
  | currentPath :: rest =>
      let attempt := Str.of_nat (i + 1) in
      let requestParams := Js.set_field "path" (JStr currentPath) base in
      let debugInfo :=
        debugInfo ++
        debugLog ("CREATE PAGE REQUEST PARAMETERS - ATTEMPT " ++ attempt)
          (JObj requestParams) in
      r <- try_catch
             (data <- request CREATE_PAGE_MUTATION requestParams;;
              let debugInfo :=
                debugInfo ++
                debugLog ("CREATE PAGE RESPONSE - ATTEMPT " ++ attempt) data in
              try_catch
                (if found data "create"
                 then
                   let result := payload data "create" in
                   let responseResult := Js.get result "responseResult" in
                   if Js.truthy responseResult &&
                      Js.truthy (Js.get responseResult "succeeded") &&
                      Js.truthy (Js.get result "page")
                   then
                     details <- page_details (Js.get result "page");;
                     Ret (inl (text_result
                                 ("Page created successfully:" ++ Str.nl ++ details ++
                                  Str.nl ++ Str.nl ++ debugInfo) false))
                   else if Js.truthy responseResult
                   then
                     Ret (inr (debugInfo ++
                               debugLog ("CREATE PAGE FAILED - ATTEMPT " ++ attempt)
                                 responseResult))
                   else Ret (inr debugInfo)
                 else Ret (inr debugInfo))
                (create_attempt_failed attempt currentPath debugInfo))
             (create_attempt_failed attempt currentPath debugInfo);;
      match r with
      | inl result => Ret (inl result)
      | inr debugInfo => create_loop (S i) rest base debugInfo
      end
  end.

Definition create_failed_text : string :=
  "Failed to create page after multiple attempts. Wiki.js may require specific language prefixes in paths (e.g., "
  ++ Str.dq ++ "/ja/home" ++ Str.dq ++
  "). Please check the debug information for details.".

Definition wiki_create_page (args : value) : Prog ToolCallResult :=
  if negb (isCreatePageArgs args)
  then Throw (Error "Invalid arguments for wiki_create_page")
  else
    try_catch
      (originalPath <- string_receiver (Js.get args "path") "path.startsWith";;
       let pathVariations := generatePathVariations originalPath in
       let debugInfo :=
         debugLog "CREATE PAGE - PATH VARIATIONS"
           (JObj [("variations", strings pathVariations)]) ++
         debugLog "CREATE PAGE GRAPHQL MUTATION" (JStr (gql CREATE_PAGE_MUTATION)) in
       r <- create_loop 0 pathVariations (baseParams args) debugInfo;;
       match r with
       | inl result => Ret result
       | inr debugInfo =>
           let debugInfo :=
             debugInfo ++
             debugLog "API CONFIGURATION"
               (api_configuration [("pathVariations", strings pathVariations)]) in
           Ret (text_result
                  (create_failed_text ++ Str.nl ++ Str.nl ++ debugInfo) true)
       end)
      (fun error =>
         let errorDebugInfo := debugLog "CREATE PAGE ERROR" (error_report error) in
         Ret (text_result
                ("Error creating page: " ++ error_text error ++
                 Str.nl ++ Str.nl ++ errorDebugInfo) true)).

(** The [for] loop of [wiki_update_page] from index [i] on: the page
    found ([null] if none) and the debug text. *)
Fixpoint resolve_loop (i : nat) (pathVariations : list string)
    (debugInfo : string) : Prog (value * string) :=
  match pathVariations with
  | [] => Ret (JNull, debugInfo)
  | currentPath :: rest =>
      let attempt := Str.of_nat (i + 1) in
      let debugInfo :=
        debugInfo ++
        debugLog ("UPDATE PAGE - FETCHING BY PATH - ATTEMPT " ++ attempt)
          (JObj [("path", JStr currentPath)]) in
      r <- try_catch
             (data <- request GET_PAGE_BY_PATH_QUERY [("path", JStr currentPath)];;
              let debugInfo :=
                debugInfo ++
                debugLog ("GET PAGE BY PATH RESPONSE - ATTEMPT " ++ attempt) data in
              if found data "singleByPath"
              then
                let page := payload data "singleByPath" in
                let pageId := Js.get page "id" in
                Ret (Some page,
                     debugInfo ++ debugLog "PAGE FOUND BY PATH"
                                    (JObj [("id", pageId);
                                           ("path", JStr currentPath)]))
              else
                Ret (None,
                     debugInfo ++
                     debugLog ("PAGE NOT FOUND BY PATH - ATTEMPT " ++ attempt)
                       (JObj [("path", JStr currentPath); ("response", data)])))
             (fun pathError =>
                Ret (None,
                     debugInfo ++
                     debugLog ("GET PAGE BY PATH ERROR - ATTEMPT " ++ attempt)
                       (JObj [("path", JStr currentPath);
                              ("error", JStr (error_text pathError))])));;
      match r with
      | (Some page, debugInfo) => Ret (page, debugInfo)
      | (None, debugInfo) => resolve_loop (S i) rest debugInfo
      end
  end.

(** The first half of [wiki_update_page]: [inl] is the early
    [return], [inr] carries [pageId] and the debug text. *)
Definition resolve_page_id (args : value)
  : Prog (ToolCallResult + value * string) :=
  let pageId := Js.get args "id" in
  if negb (Js.truthy pageId) && Js.truthy (Js.get args "path")
  then
    originalPath <- string_receiver (Js.get args "path") "path.startsWith";;
    let pathVariations := generatePathVariations originalPath in
    let debugInfo :=
      debugLog "UPDATE PAGE - PATH VARIATIONS"
        (JObj [("variations", strings pathVariations)]) ++
      debugLog "GET PAGE BY PATH QUERY" (JStr (gql GET_PAGE_BY_PATH_QUERY)) in
    '(page, debugInfo) <- resolve_loop 0 pathVariations debugInfo;;
    if negb (Js.truthy page)
    then
      let debugInfo :=
        debugInfo ++
        debugLog "UPDATE PAGE - ALL PATH ATTEMPTS FAILED"
          (JObj [("originalPath", JStr originalPath);
                 ("triedVariations", strings pathVariations)]) in
      Ret (inl (text_result
                  ("Page not found for path: " ++ originalPath ++
                   Str.nl ++ Str.nl ++ debugInfo) true))
    else Ret (inr (Js.get page "id", debugInfo))
  else Ret (inr (pageId, "")).

Definition wiki_update_page (args : value) : Prog ToolCallResult :=
  if negb (isUpdatePageArgs args)
  then Throw (Error "Invalid arguments for wiki_update_page")
  else
    try_catch
      (r <- resolve_page_id args;;
       match r with
       | inl result => Ret result
       | inr (pageId, debugInfo) =>
           update_with_id args pageId debugInfo
       end)
      (fun error => Ret (update_failed error)).

(** The [try] block of the handler registered for
    [CallToolRequestSchema], and the handler. *)
Definition CallTool_try : CallToolParams -> Prog ToolCallResult :=
  dispatch_body wiki_list_pages wiki_get_page wiki_create_page wiki_update_page.

Definition CallTool : CallToolParams -> Prog ToolCallResult :=
  dispatch wiki_list_pages wiki_get_page wiki_create_page wiki_update_page.

End Handlers.

End RevA.

(* ------------------------------------------------------------------ *)
(** * Revision B: one normalized path, no fallback *)

Module RevB.

Definition normalizePath (path : string) : string :=
  if Str.startsWith path "/" then Str.substring1 path else path.

Section Handlers.

Context {rt : Runtime}.

(** The [else if (args.path)] branch of [wiki_get_page]. *)
Definition get_by_path (path : value) : Prog (value * string) :=
  path <- string_receiver path "path.startsWith";;
  let normalizedPath := normalizePath path in
  let debugInfo :=
    debugLog "GET PAGE BY PATH" (JObj [("path", JStr normalizedPath)]) ++
    debugLog "GET PAGE BY PATH QUERY" (JStr (gql GET_PAGE_BY_PATH_QUERY)) in
  data <- request GET_PAGE_BY_PATH_QUERY [("path", JStr normalizedPath)];;
  let debugInfo := debugInfo ++ debugLog "GET PAGE BY PATH RESPONSE" data in
  if found data "singleByPath"
  then
    let page := payload data "singleByPath" in
    Ret (page,
         debugInfo ++ debugLog "PAGE FOUND BY PATH"
                        (JObj [("path", JStr normalizedPath);
                               ("title", Js.get page "title")]))
  else
    Ret (JUndefined,
         debugInfo ++ debugLog "PAGE NOT FOUND BY PATH"
                        (JObj [("path", JStr normalizedPath); ("response", data)])).

Definition wiki_get_page (args : value) : Prog ToolCallResult :=
  if negb (isGetPageArgs args)
  then Throw (Error "Invalid arguments for wiki_get_page")
  else
    r <- try_catch
           (pd <- (if Js.truthy (Js.get args "id")
                   (* the id branch has the text of revision A *)
                   then RevA.get_by_id (Js.get args "id")
                   else if Js.truthy (Js.get args "path")
                   then get_by_path (Js.get args "path")
                   else Throw (Error "Either id or path must be provided"));;
            Ret (inr pd))
           (fun error =>
              let errorDebugInfo := debugLog "GET PAGE ERROR" (error_report error) in
              Ret (inl (text_result
                          ("Error fetching page: " ++ error_text error ++
                           Str.nl ++ Str.nl ++ errorDebugInfo) true)));;
    match r with
    | inl result => Ret result
    | inr (page, debugInfo) => page_result args page debugInfo
    end.

Definition wiki_create_page (args : value) : Prog ToolCallResult :=
  if negb (isCreatePageArgs args)
  then Throw (Error "Invalid arguments for wiki_create_page")
  else
    try_catch
      (path <- string_receiver (Js.get args "path") "path.startsWith";;
       let normalizedPath := normalizePath path in
       let params := requestParams normalizedPath args in
       let debugInfo :=
         debugLog "CREATE PAGE REQUEST PARAMETERS" (JObj params) ++
         debugLog "CREATE PAGE GRAPHQL MUTATION" (JStr (gql CREATE_PAGE_MUTATION)) in
       data <- request CREATE_PAGE_MUTATION params;;
       let debugInfo :=
         debugInfo ++ debugLog "CREATE PAGE RESPONSE" data ++
         debugLog "API CONFIGURATION" (api_configuration []) in
       let unexpected :=
         Ret (text_result
                ("Page may have been created, but the response format was unexpected." ++
                 Str.nl ++ Str.nl ++ debugInfo) false) in
       if found data "create"
       then
         let result := payload data "create" in
         let responseResult := Js.get result "responseResult" in
         if Js.truthy responseResult &&
            negb (Js.truthy (Js.get responseResult "succeeded"))
         then
           text <- ToString (Js.or (Js.get responseResult "message")
                                   (JStr "Unknown error"));;
           Ret (text_result
                  ("Failed to create page: " ++ text ++
                   Str.nl ++ Str.nl ++ debugInfo) true)
         else if Js.truthy (Js.get result "page")
         then
           details <- page_details (Js.get result "page");;
           Ret (text_result
                  ("Page created successfully:" ++ Str.nl ++ details ++
                   Str.nl ++ Str.nl ++ debugInfo) false)
         else unexpected
       else unexpected)
      (fun error =>
         let errorDebugInfo := debugLog "CREATE PAGE ERROR" (error_report error) in
         Ret (text_result
                ("Error creating page: " ++ error_text error ++
                 Str.nl ++ Str.nl ++ errorDebugInfo) true)).

(** The first half of [wiki_update_page]: [inl] is the early [return],
    [inr] carries [pageId] and the debug text. *)
Definition resolve_page_id (args : value)
  : Prog (ToolCallResult + value * string) :=
  let pageId := Js.get args "id" in
  if negb (Js.truthy pageId) && Js.truthy (Js.get args "path")
  then
    path <- string_receiver (Js.get args "path") "path.startsWith";;
    let normalizedPath := normalizePath path in
    let debugInfo :=
      debugLog "UPDATE PAGE - FETCHING BY PATH" (JObj [("path", JStr normalizedPath)]) ++
      debugLog "GET PAGE BY PATH QUERY" (JStr (gql GET_PAGE_BY_PATH_QUERY)) in
    data <- request GET_PAGE_BY_PATH_QUERY [("path", JStr normalizedPath)];;
    let debugInfo := debugInfo ++ debugLog "GET PAGE BY PATH RESPONSE" data in
    if found data "singleByPath"
    then
      let page := payload data "singleByPath" in
      let pageId := Js.get page "id" in
      Ret (inr (pageId,
                debugInfo ++ debugLog "PAGE FOUND BY PATH"
                               (JObj [("id", pageId); ("path", JStr normalizedPath)])))
    else
      let debugInfo :=
        debugInfo ++ debugLog "PAGE NOT FOUND BY PATH"
                       (JObj [("path", JStr normalizedPath); ("response", data)]) in
      Ret (inl (text_result
                  ("Page not found for path: " ++ normalizedPath ++
                   Str.nl ++ Str.nl ++ debugInfo) true))
  else Ret (inr (pageId, "")).

(** How revision B reads the response of the update mutation. *)
Definition update_outcome (data : value) (debugInfo : string)
  : Prog ToolCallResult :=
  let unexpected :=
    Ret (text_result
           ("Page was updated successfully, but the response format was unexpected." ++
            Str.nl ++ Str.nl ++ debugInfo) false) in
  if found data "update"
  then
    let result := payload data "update" in
    let responseResult := Js.get result "responseResult" in
    if Js.truthy responseResult &&
       negb (Js.truthy (Js.get responseResult "succeeded"))
    then
      text <- ToString (Js.or (Js.get responseResult "message")
                              (JStr "Unknown error"));;
      Ret (text_result
             ("Failed to update page: " ++ text ++
              Str.nl ++ Str.nl ++ debugInfo) true)
    else if Js.truthy (Js.get result "page")
    then
      details <- page_details (Js.get result "page");;
      Ret (text_result
             ("Page updated successfully:" ++ Str.nl ++ details ++
              Str.nl ++ Str.nl ++ debugInfo) false)
    else unexpected
  else unexpected.

Definition wiki_update_page (args : value) : Prog ToolCallResult :=
  if negb (isUpdatePageArgs args)
  then Throw (Error "Invalid arguments for wiki_update_page")
  else
    try_catch
      (r <- resolve_page_id args;;
       match r with
       | inl result => Ret result
       | inr (pageId, debugInfo) =>
           if negb (Js.truthy pageId)
           then Throw (Error "Could not determine page ID")
           else
             let debugInfo :=
               debugInfo ++
               debugLog "UPDATE PAGE REQUEST PARAMETERS"
                 (JObj (updateParams pageId args)) ++
               debugLog "UPDATE PAGE GRAPHQL MUTATION"
                 (JStr (gql UPDATE_PAGE_MUTATION)) in
             data <- request UPDATE_PAGE_MUTATION (updateParams pageId args);;
             let debugInfo :=
               debugInfo ++ debugLog "UPDATE PAGE RESPONSE" data ++
               debugLog "API CONFIGURATION" (api_configuration []) in
             update_outcome data debugInfo
       end)
      (fun error => Ret (update_failed error)).

(** The [try] block of the handler registered for
    [CallToolRequestSchema], and the handler. *)
Definition CallTool_try : CallToolParams -> Prog ToolCallResult :=
  dispatch_body wiki_list_pages wiki_get_page wiki_create_page wiki_update_page.

Definition CallTool : CallToolParams -> Prog ToolCallResult :=
  dispatch wiki_list_pages wiki_get_page wiki_create_page wiki_update_page.

End Handlers.

End RevB.

(* ------------------------------------------------------------------ *)
(** * Revision C: one retry with the leading slash restored *)

Module RevC.

Definition normalizePath (path : string) : string :=
  if Str.startsWith path "/" then Str.substring1 path else path.

Section Handlers.

Context {rt : Runtime}.

(** The [catch] of one attempt of [wiki_create_page]; [debugInfo] is
    the text at the moment of the throw. *)
Definition create_attempt_failed (tag debugInfo : string) (attemptError : thrown)
  : Prog (ToolCallResult + string) :=
  Ret (inr (debugInfo ++
            debugLog ("CREATE PAGE ERROR (" ++ tag ++ ")")
              (JObj [("error", JStr (error_text attemptError));
                     ("stack", JStr (error_stack attemptError))]))).

(** One [try]/[catch] of [wiki_create_page]; [tag] is "ATTEMPT 1" or
    "ATTEMPT 2" and [response_title] the title its response is
    logged under.  [inl] is the [return] on success.  The [try] can
    throw at the request, before the response is logged, and at the
    success text, after it; the [catch] goes on from the text as it is
    there. *)
Definition create_attempt (tag response_title : string)
    (params : list (string * value)) (debugInfo : string)
  : Prog (ToolCallResult + string) :=
  try_catch
    (data <- request CREATE_PAGE_MUTATION params;;
     let debugInfo := debugInfo ++ debugLog response_title data in
     try_catch
       (if found data "create"
        then
          let result := payload data "create" in
          let responseResult := Js.get result "responseResult" in
          if Js.truthy responseResult &&
             negb (Js.truthy (Js.get responseResult "succeeded"))
          then
            Ret (inr (debugInfo ++
                      debugLog ("CREATE PAGE FAILED (" ++ tag ++ ")") responseResult))
          else if Js.truthy (Js.get result "page")
          then
            details <- page_details (Js.get result "page");;
            Ret (inl (text_result
                        ("Page created successfully:" ++ Str.nl ++ details ++
                         Str.nl ++ Str.nl ++ debugInfo) false))
          else Ret (inr debugInfo)
        else Ret (inr debugInfo))
       (create_attempt_failed tag debugInfo))
    (create_attempt_failed tag debugInfo).

Definition create_failed_text : string :=
  "Failed to create page after multiple attempts. Please check the debug information for details.".

Definition wiki_create_page (args : value) : Prog ToolCallResult :=
  if negb (isCreatePageArgs args)
  then Throw (Error "Invalid arguments for wiki_create_page")
  else
    try_catch
      (originalPath <- string_receiver (Js.get args "path") "path.startsWith";;
       let normalizedPath := normalizePath originalPath in
       let params := requestParams normalizedPath args in
       let debugInfo :=
         debugLog "CREATE PAGE REQUEST PARAMETERS (ATTEMPT 1)" (JObj params) ++
         debugLog "CREATE PAGE GRAPHQL MUTATION" (JStr (gql CREATE_PAGE_MUTATION)) in
       r <- create_attempt "ATTEMPT 1" "CREATE PAGE RESPONSE" params debugInfo;;
       match r with
       | inl result => Ret result
       | inr debugInfo =>
           r2 <- (if negb (Str.startsWith originalPath "/")
                  then
                    let pathWithSlash := "/" ++ originalPath in
                    let params := Js.set_field "path" (JStr pathWithSlash) params in
                    let debugInfo :=
                      debugInfo ++
                      debugLog "CREATE PAGE REQUEST PARAMETERS (ATTEMPT 2)"
                        (JObj params) in
                    create_attempt "ATTEMPT 2" "CREATE PAGE RESPONSE (ATTEMPT 2)"
                      params debugInfo
                  else Ret (inr debugInfo));;
           match r2 with
           | inl result => Ret result
           | inr debugInfo =>
               let debugInfo :=
                 debugInfo ++
                 debugLog "API CONFIGURATION" (api_configuration []) in
               Ret (text_result
                      (create_failed_text ++ Str.nl ++ Str.nl ++ debugInfo) true)
           end
       end)
      (fun error =>
         let errorDebugInfo := debugLog "CREATE PAGE ERROR" (error_report error) in
         Ret (text_result
                ("Error creating page: " ++ error_text error ++
                 Str.nl ++ Str.nl ++ errorDebugInfo) true)).

(** The first half of [wiki_update_page]: [inl] is the early
    [return], [inr] carries [pageId] and the debug text. *)
Definition resolve_page_id (args : value)
  : Prog (ToolCallResult + value * string) :=
  let pageId := Js.get args "id" in
  if negb (Js.truthy pageId) && Js.truthy (Js.get args "path")
  then
    path <- string_receiver (Js.get args "path") "path.startsWith";;
    let normalizedPath := normalizePath path in
    let debugInfo :=
      debugLog "UPDATE PAGE - FETCHING BY PATH" (JObj [("path", JStr normalizedPath)]) ++
      debugLog "GET PAGE BY PATH QUERY" (JStr (gql GET_PAGE_BY_PATH_QUERY)) in
    data <- request GET_PAGE_BY_PATH_QUERY [("path", JStr normalizedPath)];;
    let debugInfo := debugInfo ++ debugLog "GET PAGE BY PATH RESPONSE" data in
    if found data "singleByPath"
    then
      let page := payload data "singleByPath" in
      let pageId := Js.get page "id" in
      Ret (inr (pageId,
                debugInfo ++ debugLog "PAGE FOUND BY PATH"
                               (JObj [("id", pageId); ("path", JStr normalizedPath)])))
    else
      let debugInfo :=
        debugInfo ++ debugLog "PAGE NOT FOUND BY PATH"
                       (JObj [("path", JStr normalizedPath); ("response", data)]) in
      Ret (inl (text_result
                  ("Page not found for path: " ++ normalizedPath ++
                   Str.nl ++ Str.nl ++ debugInfo) true))
  else Ret (inr (pageId, "")).

Definition wiki_update_page (args : value) : Prog ToolCallResult :=
  if negb (isUpdatePageArgs args)
  then Throw (Error "Invalid arguments for wiki_update_page")
  else
    try_catch
      (r <- resolve_page_id args;;
       match r with
       | inl result => Ret result
       | inr (pageId, debugInfo) =>
           update_with_id args pageId debugInfo
       end)
      (fun error => Ret (update_failed error)).

(** The inner [try] block of the path branch of [wiki_get_page]: the
    page found, or [undefined]. *)
Definition get_try (originalPath normalizedPath : string) : Logged value :=
  data <~ llift (request GET_PAGE_BY_PATH_QUERY [("path", JStr normalizedPath)]);;
  log (debugLog "GET PAGE BY PATH RESPONSE" data) ~>
  if found data "singleByPath"
  then
    let page := payload data "singleByPath" in
    log (debugLog "PAGE FOUND BY PATH"
           (JObj [("path", JStr normalizedPath); ("title", Js.get page "title")])) ~>
    lret page
  else
    log (debugLog "PAGE NOT FOUND BY PATH (NORMALIZED)"
           (JObj [("path", JStr normalizedPath); ("response", data)])) ~>
    if negb (Str.startsWith originalPath "/")
    then
      let pathWithSlash := "/" ++ originalPath in
      log (debugLog "GET PAGE BY PATH - ATTEMPT 2" (JObj [("path", JStr pathWithSlash)])) ~>
      data2 <~ llift (request GET_PAGE_BY_PATH_QUERY [("path", JStr pathWithSlash)]);;
      log (debugLog "GET PAGE BY PATH RESPONSE (WITH SLASH)" data2) ~>
      if found data2 "singleByPath"
      then
        let page := payload data2 "singleByPath" in
        log (debugLog "PAGE FOUND BY PATH (WITH SLASH)"
               (JObj [("path", JStr pathWithSlash); ("title", Js.get page "title")])) ~>
        lret page
      else
        log (debugLog "PAGE NOT FOUND BY PATH (WITH SLASH)"
               (JObj [("path", JStr pathWithSlash); ("response", data2)])) ~>
        lret JUndefined
    else lret JUndefined.

(** Its [catch] block. *)
Definition get_catch (originalPath normalizedPath : string) (pathError : thrown)
  : Logged value :=
  log (debugLog "GET PAGE BY PATH ERROR"
         (JObj [("path", JStr normalizedPath);
                ("error", JStr (error_text pathError))])) ~>
  if negb (Str.startsWith originalPath "/")
  then
    ltry
      (let pathWithSlash := "/" ++ originalPath in
       log (debugLog "GET PAGE BY PATH - FALLBACK ATTEMPT"
              (JObj [("path", JStr pathWithSlash)])) ~>
       data2 <~ llift (request GET_PAGE_BY_PATH_QUERY [("path", JStr pathWithSlash)]);;
       log (debugLog "GET PAGE BY PATH RESPONSE (FALLBACK)" data2) ~>
       if found data2 "singleByPath"
       then
         let page := payload data2 "singleByPath" in
         log (debugLog "PAGE FOUND BY PATH (FALLBACK)"
                (JObj [("path", JStr pathWithSlash); ("title", Js.get page "title")])) ~>
         lret page
       else lret JUndefined)
      (fun fallbackError =>
         log (debugLog "GET PAGE BY PATH FALLBACK ERROR"
                (JObj [("path", JStr ("/" ++ originalPath));
                       ("error", JStr (error_text fallbackError))])) ~>
         lret JUndefined)
  else lret JUndefined.

(** The [else if (args.path)] branch of [wiki_get_page]. *)
Definition get_by_path (path : value) : Prog (value * string) :=
  originalPath <- string_receiver path "path.startsWith";;
  let normalizedPath := normalizePath originalPath in
  let debugInfo :=
    debugLog "GET PAGE BY PATH - ATTEMPT 1" (JObj [("path", JStr normalizedPath)]) ++
    debugLog "GET PAGE BY PATH QUERY" (JStr (gql GET_PAGE_BY_PATH_QUERY)) in
  lrun (ltry (get_try originalPath normalizedPath)
             (get_catch originalPath normalizedPath))
       debugInfo.

Definition wiki_get_page (args : value) : Prog ToolCallResult :=
  if negb (isGetPageArgs args)
  then Throw (Error "Invalid arguments for wiki_get_page")
  else
    r <- try_catch
           (pd <- (if Js.truthy (Js.get args "id")
                   (* the id branch has the text of revision A *)
                   then RevA.get_by_id (Js.get args "id")
                   else if Js.truthy (Js.get args "path")
                   then get_by_path (Js.get args "path")
                   else Throw (Error "Either id or path must be provided"));;
            Ret (inr pd))
           (fun error =>
              let errorDebugInfo := debugLog "GET PAGE ERROR" (error_report error) in
              Ret (inl (text_result
                          ("Error fetching page: " ++ error_text error ++
                           Str.nl ++ Str.nl ++ errorDebugInfo) true)));;
    match r with
    | inl result => Ret result
    | inr (page, debugInfo) => page_result args page debugInfo
    end.

(** The [try] block of the handler registered for
    [CallToolRequestSchema], and the handler. *)
Definition CallTool_try : CallToolParams -> Prog ToolCallResult :=
  dispatch_body wiki_list_pages wiki_get_page wiki_create_page wiki_update_page.

Definition CallTool : CallToolParams -> Prog ToolCallResult :=
  dispatch wiki_list_pages wiki_get_page wiki_create_page wiki_update_page.

End Handlers.

End RevC.

(* ------------------------------------------------------------------ *)
(** * The unnamed revision: a leading slash is added, no debug text *)

Module Unnamed.

Definition normalizePath (path : string) : string :=
  if Str.startsWith path "/" then path else "/" ++ path.

Section Handlers.

Context {rt : Runtime}.

Definition wiki_get_page (args : value) : Prog ToolCallResult :=
  if negb (isGetPageArgs args)
  then Throw (Error "Invalid arguments for wiki_get_page")
  else
    r <- try_catch
           (page <- (if Js.truthy (Js.get args "id")
                     then
                       data <- request GET_PAGE_BY_ID_QUERY [("id", Js.get args "id")];;
                       typedData_pages <- member data "pages";;
                       member typedData_pages "single"
                     else if Js.truthy (Js.get args "path")
                     then
                       path <- string_receiver (Js.get args "path") "path.startsWith";;
                       let normalizedPath := normalizePath path in
                       data <- request GET_PAGE_BY_PATH_QUERY
                                 [("path", JStr normalizedPath)];;
                       typedData_pages <- member data "pages";;
                       member typedData_pages "singleByPath"
                     else Throw (Error "Either id or path must be provided"));;
            Ret (inr page))
           (fun error =>
              Ret (inl (text_result
                          ("Error fetching page: " ++ error_text error) true)));;
    match r with
    | inl result => Ret result
    | inr page =>
        if negb (Js.truthy page)
        then
          what <- (if Js.truthy (Js.get args "id")
                   then id <- ToString (Js.get args "id");; Ret ("ID: " ++ id)
                   else path <- ToString (Js.get args "path");; Ret ("path: " ++ path));;
          Ret (text_result ("Page not found for " ++ what) true)
        else
          title <- ToString (Js.get page "title");;
          content <- ToString (Js.get page "content");;
          Ret (text_result ("# " ++ title ++ Str.nl ++ Str.nl ++ content) false)
    end.

Definition wiki_create_page (args : value) : Prog ToolCallResult :=
  if negb (isCreatePageArgs args)
  then Throw (Error "Invalid arguments for wiki_create_page")
  else
    try_catch
      (path <- string_receiver (Js.get args "path") "path.startsWith";;
       let normalizedPath := normalizePath path in
       data <- request CREATE_PAGE_MUTATION
                 (requestParams normalizedPath args);;
       let unexpected :=
         Ret (text_result
                ("Page may have been created, but the response format was unexpected: " ++
                 JSON_stringify 0 data) false) in
       if found data "create"
       then
         let result := payload data "create" in
         let responseResult := Js.get result "responseResult" in
         if Js.truthy responseResult &&
            negb (Js.truthy (Js.get responseResult "succeeded"))
         then
           text <- ToString (Js.or (Js.get responseResult "message")
                                   (JStr "Unknown error"));;
           Ret (text_result ("Failed to create page: " ++ text) true)
         else if Js.truthy (Js.get result "page")
         then
           details <- page_details (Js.get result "page");;
           Ret (text_result
                  ("Page created successfully:" ++ Str.nl ++ details) false)
         else unexpected
       else unexpected)
      (fun error =>
         Ret (text_result ("Error creating page: " ++ error_text error) true)).

(** The first half of [wiki_update_page]: [inl] is the early
    [return], [inr] carries [pageId]. *)
Definition resolve_page_id (args : value) : Prog (ToolCallResult + value) :=
  let pageId := Js.get args "id" in
  if negb (Js.truthy pageId) && Js.truthy (Js.get args "path")
  then
    path <- string_receiver (Js.get args "path") "path.startsWith";;
    let normalizedPath := normalizePath path in
    data <- request GET_PAGE_BY_PATH_QUERY [("path", JStr normalizedPath)];;
    if found data "singleByPath"
    then
      let page := payload data "singleByPath" in
      Ret (inr (Js.get page "id"))
    else
      Ret (inl (text_result ("Page not found for path: " ++ normalizedPath) true))
  else Ret (inr pageId).

Definition wiki_update_page (args : value) : Prog ToolCallResult :=
  if negb (isUpdatePageArgs args)
  then Throw (Error "Invalid arguments for wiki_update_page")
  else
    try_catch
      (r <- resolve_page_id args;;
       match r with
       | inl result => Ret result
       | inr pageId =>
           if negb (Js.truthy pageId)
           then Throw (Error "Could not determine page ID")
           else
             (* console.error(`Updating page with ID: ${pageId}`) *)
             _ <- ToString pageId;;
             data <- request UPDATE_PAGE_MUTATION (updateParams pageId args);;
             let unexpected :=
               Ret (text_result
                      ("Page was updated successfully, but the response format was unexpected: " ++
                       JSON_stringify 0 data) false) in
             if found data "update"
             then
               let result := payload data "update" in
               let responseResult := Js.get result "responseResult" in
               if Js.truthy responseResult &&
                  negb (Js.truthy (Js.get responseResult "succeeded"))
               then
                 text <- ToString (Js.or (Js.get responseResult "message")
                                         (JStr "Unknown error"));;
                 Ret (text_result ("Failed to update page: " ++ text) true)
               else if Js.truthy (Js.get result "page")
               then
                 details <- page_details (Js.get result "page");;
                 Ret (text_result
                        ("Page updated successfully:" ++ Str.nl ++ details) false)
               else unexpected
             else unexpected
       end)
      (fun error =>
         Ret (text_result ("Error updating page: " ++ error_text error) true)).

(** The [try] block of the handler registered for
    [CallToolRequestSchema], and the handler. *)
Definition CallTool_try : CallToolParams -> Prog ToolCallResult :=
  dispatch_body wiki_list_pages wiki_get_page wiki_create_page wiki_update_page.

Definition CallTool : CallToolParams -> Prog ToolCallResult :=
  dispatch wiki_list_pages wiki_get_page wiki_create_page wiki_update_page.

End Handlers.

End Unnamed.

(* ------------------------------------------------------------------ *)
(** * The listing, as the handler's output is described *)

Section Listing.

Context {rt : Runtime}.

(** One page of the listing: title, numeric id, path and, when
    [updatedAt] is there, the locale-formatted time of the last update
    on a line of its own. *)
Definition listing_entry (page : value) : string :=
  "- " ++ to_string (Js.get page "title") ++
  " (ID: " ++ to_string (Js.get page "id") ++
  ", Path: " ++ to_string (Js.get page "path") ++ ")" ++
  (if Js.truthy (Js.get page "updatedAt")
   then Str.nl ++ "  Last Updated: " ++ Date_toLocaleString (Js.get page "updatedAt")
   else "").

(** The whole listing: the entries, a blank line between two. *)
Definition listing (pages : list value) : string :=
  match pages with
  | [] => "No pages found"
  | _ => String.concat (Str.nl ++ Str.nl) (map listing_entry pages)
  end.

(** The request the list handler makes for an argument bag. *)
Definition list_request (args : value) : GqlRequest :=
  mkReq LIST_PAGES_QUERY
    [("orderBy", Js.or (Js.get args "orderBy") (JStr "TITLE"));
     ("limit", Js.or (Js.get args "limit") (JNum 10))].

End Listing.

(** A page record, as a response carries it: an object. *)
Definition is_record (page : value) : Prop :=
  exists fields, page = JObj fields.

(** The fields an entry of the listing prints can be converted: the
    title, the id, the path and, when it is there, [updatedAt]. *)
Definition entry_printable (page : value) : bool :=
  Js.printable (Js.get page "title") &&
  Js.printable (Js.get page "id") &&
  Js.printable (Js.get page "path") &&
  (negb (Js.truthy (Js.get page "updatedAt")) ||
   Js.printable (Js.get page "updatedAt")).

(** A page record whose entry can be printed; the records of the wiki,
    with a string title and path, a numeric id and a date text, are. *)
Definition listed_record (page : value) : Prop :=
  is_record page /\ entry_printable page = true.

(* ------------------------------------------------------------------ *)
(** * Attempts on path variants *)

(** The lookup by path for one variant. *)
Definition lookup_by_path (path : string) : GqlRequest :=
  mkReq GET_PAGE_BY_PATH_QUERY [("path", JStr path)].

(** The page a lookup by path found, if it found one. *)
Definition page_of (o : Outcome) : option value :=
  match o with
  | Resolved data =>
      if found data "singleByPath" then Some (payload data "singleByPath") else None
  | Rejected _ => None
  end.

Definition page_hit (o : Outcome) : bool :=
  match page_of o with Some _ => true | None => false end.

(** The page of the first exchange of a trace that found one. *)
Fixpoint hit_page (t : Trace) : option value :=
  match t with
  | [] => None
  | (_, o) :: rest =>
      match page_of o with
      | Some page => Some page
      | None => hit_page rest
      end
  end.

(** [Attempts mk hit variants t]: the trace [t] tries the variants in
    order, one request [mk v] each, and ends with the first one whose
    outcome is a [hit], or when the variants are exhausted. *)
Inductive Attempts (mk : string -> GqlRequest) (hit : Outcome -> bool)
  : list string -> Trace -> Prop :=
| Attempts_nil : Attempts mk hit [] []
| Attempts_hit v rest o :
    hit o = true -> Attempts mk hit (v :: rest) [(mk v, o)]
| Attempts_miss v rest o t :
    hit o = false -> Attempts mk hit rest t ->
    Attempts mk hit (v :: rest) ((mk v, o) :: t).

(** The prefixes a variation puts in front of the normalized path. *)
Definition variation_prefixes : list string :=
  [""; "/"; "ja/"; "/ja/"; "en/"; "/en/"].

(** The create mutation of revision A for one variant. *)
Definition A_create_request {rt : Runtime} (args : value) (path : string) : GqlRequest :=
  mkReq CREATE_PAGE_MUTATION
    (Js.set_field "path" (JStr path) (RevA.baseParams args)).

(** When the loop of revision A takes a create response for a success
    and returns: the response says so, carries a page, and the text
    about that page can be built. *)
Definition A_create_hit (o : Outcome) : bool :=
  match o with
  | Resolved data =>
      found data "create" &&
      (let result := payload data "create" in
       Js.truthy (Js.get result "responseResult") &&
       Js.truthy (Js.get (Js.get result "responseResult") "succeeded") &&
       Js.truthy (Js.get result "page") &&
       details_printable (Js.get result "page"))
  | Rejected _ => false
  end.

(** When an attempt of revision C takes a create response for a success
    and returns. *)
Definition C_create_hit (o : Outcome) : bool :=
  match o with
  | Resolved data =>
      found data "create" &&
      (let result := payload data "create" in
       negb (Js.truthy (Js.get result "responseResult") &&
             negb (Js.truthy (Js.get (Js.get result "responseResult") "succeeded"))) &&
       Js.truthy (Js.get result "page") &&
       details_printable (Js.get result "page"))
  | Rejected _ => false
  end.

(** The create mutation of revisions B, C and the unnamed one for the
    path sent. *)
Definition create_request (args : value) (path : string) : GqlRequest :=
  mkReq CREATE_PAGE_MUTATION (requestParams path args).

(** The create response carries a [responseResult] whose [succeeded]
    is falsy. *)
Definition create_refused (data : value) : bool :=
  found data "create" &&
  Js.truthy (Js.get (payload data "create") "responseResult") &&
  negb (Js.truthy (Js.get (Js.get (payload data "create") "responseResult")
                     "succeeded")).

(** The create response is no refusal and carries a page whose details
    cannot be printed: the success text cannot be built. *)
Definition create_unprintable (data : value) : bool :=
  found data "create" &&
  negb (Js.truthy (Js.get (payload data "create") "responseResult") &&
        negb (Js.truthy (Js.get (Js.get (payload data "create") "responseResult")
                           "succeeded"))) &&
  Js.truthy (Js.get (payload data "create") "page") &&
  negb (details_printable (Js.get (payload data "create") "page")).

(** The paths revision C sends a create mutation for. *)
Definition C_create_paths (path : string) : list string :=
  if Str.startsWith path "/" then [RevC.normalizePath path]
  else [RevC.normalizePath path; "/" ++ path].

(** The exchanges of a get by path in revision C: the normalized path
    first; for a path given without a leading slash and not found that
    way, the path with a slash in front; and that one once more when the
    first lookup resolved and the second was rejected, because the
    [catch] that takes the rejection makes its own fallback attempt. *)
Definition C_get_lookups (srv : Server) (hist : Trace) (path : string) : Trace :=
  let first := lookup_by_path (RevC.normalizePath path) in
  let second := lookup_by_path ("/" ++ path) in
  let t1 := [(first, srv hist first)] in
  if page_hit (srv hist first) || Str.startsWith path "/" then t1
  else
    let t2 := (t1 ++ [(second, srv (hist ++ t1)%list second)])%list in
    match srv hist first, srv (hist ++ t1)%list second with
    | Resolved _, Rejected _ =>
        (t2 ++ [(second, srv (hist ++ t2)%list second)])%list
    | _, _ => t2
    end.

(* ------------------------------------------------------------------ *)
(** * The update mutation and its response *)

(** The update mutation for a page id. *)
Definition update_request (pageId args : value) : GqlRequest :=
  mkReq UPDATE_PAGE_MUTATION (updateParams pageId args).

(** [responseResult] of an update response. *)
Definition update_responseResult (data : value) : value :=
  Js.get (payload data "update") "responseResult".

(** The response carries a [responseResult] whose [succeeded] is falsy. *)
Definition update_refused (data : value) : bool :=
  found data "update" &&
  Js.truthy (update_responseResult data) &&
  negb (Js.truthy (Js.get (update_responseResult data) "succeeded")).

(** When revisions A and C report a refused update as a success:
    [message && message.includes(signature)] holds -- for a string, the
    signature occurs in it; for an array, it is one of the items -- and
    the success text, which prints the message, can be built.  Every
    other message, a missing one included, leaves the refusal an error. *)
Definition quirk_success (message : value) : bool :=
  match message with
  | JStr s => Str.includes s quirk_signature
  | JArr items =>
      existsb (fun e => match e with
                        | JStr s => String.eqb s quirk_signature
                        | _ => false
                        end) items &&
      Js.printable (JArr items)
  | _ => false
  end.

(** How the [message] of a refused update decides the error flag. *)
Definition quirk_rule (data : value) (result : ToolCallResult) : Prop :=
  update_refused data = true ->
  isError result =
    negb (quirk_success (Js.get (update_responseResult data) "message")).

(** The response reports a success and carries a page: the case in
    which revisions A and C print the details of the page. *)
Definition update_prints_page (data : value) : bool :=
  found data "update" &&
  Js.truthy (update_responseResult data) &&
  Js.truthy (Js.get (update_responseResult data) "succeeded") &&
  Js.truthy (Js.get (payload data "update") "page").

(** The error flag revisions A and C give an update response: a
    refusal is an error unless the rule on its message makes it a
    success; anything else is a success, unless the details of the page
    it carries cannot be printed. *)
Definition update_flag (data : value) : bool :=
  if update_refused data
  then negb (quirk_success (Js.get (update_responseResult data) "message"))
  else update_prints_page data &&
       negb (details_printable (Js.get (payload data "update") "page")).

(** The update response is no refusal and carries a page whose details
    cannot be printed: the success text of revision B and of the unnamed
    revision cannot be built. *)
Definition update_unprintable (data : value) : bool :=
  found data "update" &&
  negb (Js.truthy (update_responseResult data) &&
        negb (Js.truthy (Js.get (update_responseResult data) "succeeded"))) &&
  Js.truthy (Js.get (payload data "update") "page") &&
  negb (details_printable (Js.get (payload data "update") "page")).

(** An update by path, as the exchanges of the call show it: lookups
    on the [variations], in order and stopping at the first page found,
    come first and none of them is a mutation; then nothing at all if no
    page was found or the page has a falsy id, with an error result, and
    otherwise exactly one update mutation, for the id of that page.  When
    every lookup resolved and none found a page, the text starts with
    [not_found]. *)
Definition resolves_then_updates (args : value) (variations : list string)
    (not_found : string) (t : Trace) (result : ToolCallResult) : Prop :=
  exists lookups rest,
    t = (lookups ++ rest)%list /\
    lookups <> [] /\
    Attempts lookup_by_path page_hit variations lookups /\
    calls_of UPDATE_PAGE_MUTATION lookups = [] /\
    match hit_page lookups with
    | None =>
        rest = [] /\ isError result = true /\
        (Forall (fun x => exists data, snd x = Resolved data) lookups ->
         Str.startsWith (first_text result) not_found = true)
    | Some page =>
        if Js.truthy (Js.get page "id")
        then exists o, rest = [(update_request (Js.get page "id") args, o)]
        else rest = [] /\ isError result = true
    end.

(** The same for the unnamed revision, which prints the id in a
    template before it sends the mutation: a page found with a truthy id
    that cannot be converted to text ends the call there, with an error
    result and no mutation. *)
Definition resolves_prints_updates (args : value) (variations : list string)
    (not_found : string) (t : Trace) (result : ToolCallResult) : Prop :=
  exists lookups rest,
    t = (lookups ++ rest)%list /\
    lookups <> [] /\
    Attempts lookup_by_path page_hit variations lookups /\
    calls_of UPDATE_PAGE_MUTATION lookups = [] /\
    match hit_page lookups with
    | None =>
        rest = [] /\ isError result = true /\
        (Forall (fun x => exists data, snd x = Resolved data) lookups ->
         Str.startsWith (first_text result) not_found = true)
    | Some page =>
        if Js.truthy (Js.get page "id") && Js.printable (Js.get page "id")
        then exists o, rest = [(update_request (Js.get page "id") args, o)]
        else rest = [] /\ isError result = true
    end.

(* ------------------------------------------------------------------ *)
(** * Properties of programs *)

(** [AllRets P p]: every value [p] returns satisfies [P]; [p] may throw. *)
Inductive AllRets {A} (P : A -> Prop) : Prog A -> Prop :=
| AllRets_ret a : P a -> AllRets P (Ret a)
| AllRets_throw e : AllRets P (Throw e)
| AllRets_await r k : (forall o, AllRets P (k o)) -> AllRets P (Await r k).

(** [NoThrow p]: [p] returns on every path. *)
Inductive NoThrow {A} : Prog A -> Prop :=
| NoThrow_ret a : NoThrow (Ret a)
| NoThrow_await r k : (forall o, NoThrow (k o)) -> NoThrow (Await r k).

(** [OnlyThrows e p]: [p] throws nothing but [e]. *)
Inductive OnlyThrows {A} (e : thrown) : Prog A -> Prop :=
| OnlyThrows_ret a : OnlyThrows e (Ret a)
| OnlyThrows_throw : OnlyThrows e (Throw e)
| OnlyThrows_await r k : (forall o, OnlyThrows e (k o)) -> OnlyThrows e (Await r k).

(** A result that is one text block. *)
Definition text_only (r : ToolCallResult) : Prop :=
  exists t e, r = text_result t e.

(** An early [return], if any, is one text block. *)
Definition inl_text {B} (x : ToolCallResult + B) : Prop :=
  match x with
  | inl r => text_only r
  | inr _ => True
  end.

(** [OnlyAsks P p]: every request [p] awaits satisfies [P]. *)
Inductive OnlyAsks {A} (P : GqlRequest -> Prop) : Prog A -> Prop :=
| OnlyAsks_ret a : OnlyAsks P (Ret a)
| OnlyAsks_throw e : OnlyAsks P (Throw e)
| OnlyAsks_await r k : P r -> (forall o, OnlyAsks P (k o)) -> OnlyAsks P (Await r k).


(* ------------------------------------------------------------------ *)
(** * A runtime and servers to evaluate the handlers on *)

(** A runtime for examples: integers are printed in decimal, a date
    text is shown as it is, and [JSON.stringify] gives the type of the
    value. *)
Definition sample_runtime : Runtime := {|
  JSON_stringify := fun _ v => Js.typeof v;
  Number_toString := Str.of_Z;
  Number_toString_safe := fun n _ => eq_refl;
  Date_toLocaleString :=
    fun v => match v with JStr s => s | _ => "Invalid Date" end;
  gql := fun _ => "";
  stack_trace := fun name message => name ++ ": " ++ message;
  WIKI_API_URL := "https://wiki.example";
  WIKI_API_TOKEN := "0123456789"
|}.

(** A server that cannot be reached. *)
Definition offline : Server :=
  fun _ _ => Rejected (ErrorObj "TypeError" "fetch failed" "").

(** A server that resolves every request with [data]. *)
Definition answering (data : value) : Server := fun _ _ => Resolved data.

(* ------------------------------------------------------------------ *)
(** * Facts about strings *)

Module StrFacts.
Import Str.

Lemma startsWith_app (p s : string) : startsWith (p ++ s) p = true.
Proof.
  induction p as [|c p IH]; simpl; [reflexivity|].
  now rewrite Ascii.eqb_refl.
Qed.

Lemma startsWith_refl (s : string) : startsWith s s = true.
Proof. induction s as [|c s IH]; simpl; [reflexivity|]. now rewrite Ascii.eqb_refl. Qed.

Lemma startsWith_app_l (p a b : string) :
  startsWith a p = true -> startsWith (a ++ b) p = true.
Proof.
  revert a; induction p as [|c p IH]; intros a H; simpl in *; [reflexivity|].
  destruct a as [|d a]; [discriminate|]. simpl.
  apply andb_true_iff in H. destruct H as [-> H]. now apply IH.
Qed.

Lemma startsWith_inv (p s : string) :
  startsWith s p = true -> exists t, s = p ++ t.
Proof.
  revert s; induction p as [|c p IH]; intros s H; simpl in *.
  - now exists s.
  - destruct s as [|d s]; [discriminate|].
    apply andb_true_iff in H. destruct H as [E H].
    apply Ascii.eqb_eq in E. subst d.
    destruct (IH _ H) as [t ->]. now exists t.
Qed.

Lemma includes_app_l (a b sub : string) :
  includes a sub = true -> includes (a ++ b) sub = true.
Proof.
  induction a as [|c a IH]; simpl; intros H.
  - rewrite orb_false_r in H.
    destruct sub; [|discriminate].
    destruct b; reflexivity.
  - apply orb_true_iff in H. destruct H as [H|H].
    + change (String c (a ++ b)) with (String c a ++ b).
      now rewrite (startsWith_app_l _ _ b H).
    + rewrite (IH H). apply orb_true_r.
Qed.




End StrFacts.

(* ------------------------------------------------------------------ *)
(** * Facts about running programs *)

Section RunFacts.

Variable srv : Server.

Lemma run_bind {A B} (p : Prog A) (f : A -> Prog B) (hist : Trace) :
  run srv hist (bind p f) =
  match run srv hist p with
  | (t, Fulfilled a) =>
      let '(t', res) := run srv (hist ++ t)%list (f a) in ((t ++ t')%list, res)
  | (t, Threw e) => (t, Threw e)
  end.
Proof.
  revert hist. induction p as [a | e | r k IH]; intros hist; simpl.
  - rewrite app_nil_r. now destruct (run srv hist (f a)).
  - reflexivity.
  - rewrite IH. destruct (run srv _ (k _)) as [t [a | e]]; [|reflexivity].
    rewrite <- app_assoc. simpl.
    now destruct (run srv _ (f a)).
Qed.

Lemma run_try_catch {A} (p : Prog A) (h : thrown -> Prog A) (hist : Trace) :
  run srv hist (try_catch p h) =
  match run srv hist p with
  | (t, Fulfilled a) => (t, Fulfilled a)
  | (t, Threw e) =>
      let '(t', res) := run srv (hist ++ t)%list (h e) in ((t ++ t')%list, res)
  end.
Proof.
  revert hist. induction p as [a | e | r k IH]; intros hist; simpl.
  - reflexivity.
  - rewrite app_nil_r. now destruct (run srv hist (h e)).
  - rewrite IH. destruct (run srv _ (k _)) as [t [a | e]]; [reflexivity|].
    rewrite <- app_assoc. simpl.
    now destruct (run srv _ (h e)).
Qed.

Lemma run_request (q : Query) (vars : list (string * value)) (hist : Trace) :
  run srv hist (request q vars) =
  ([(mkReq q vars, srv hist (mkReq q vars))],
   match srv hist (mkReq q vars) with
   | Resolved data => Fulfilled data
   | Rejected e => Threw e
   end).
Proof.
  unfold request. simpl. now destruct (srv hist _).
Qed.

End RunFacts.

Lemma AllRets_bind {A B} (P : B -> Prop) (p : Prog A) (f : A -> Prog B) :
  (forall a, AllRets P (f a)) -> AllRets P (bind p f).
Proof.
  intros Hf. induction p as [a | e | r k IH]; simpl.
  - apply Hf.
  - constructor.
  - constructor. intros o. apply IH.
Qed.

Lemma AllRets_try_catch {A} (P : A -> Prop) (p : Prog A) (h : thrown -> Prog A) :
  AllRets P p -> (forall e, AllRets P (h e)) -> AllRets P (try_catch p h).
Proof.
  intros Hp Hh. induction Hp as [a Ha | e | r k _ IH]; simpl.
  - now constructor.
  - apply Hh.
  - constructor. exact IH.
Qed.

Lemma NoThrow_try_catch {A} (p : Prog A) (h : thrown -> Prog A) :
  (forall e, NoThrow (h e)) -> NoThrow (try_catch p h).
Proof.
  intros Hh. induction p as [a | e | r k IH]; simpl.
  - constructor.
  - apply Hh.
  - constructor. intros o. apply IH.
Qed.

Lemma AllRets_run {A} (P : A -> Prop) (p : Prog A) (srv : Server) (hist : Trace) :
  AllRets P p -> forall t a, run srv hist p = (t, Fulfilled a) -> P a.
Proof.
  intros Hp. revert hist.
  induction Hp as [a Ha | e | r k _ IH]; intros hist t a' E; simpl in E.
  - now inversion E; subst.
  - discriminate.
  - destruct (run srv _ (k _)) as [t' res] eqn:Ek.
    inversion E; subst. eapply IH, Ek.
Qed.

Lemma NoThrow_run {A} (p : Prog A) (srv : Server) (hist : Trace) :
  NoThrow p -> exists t a, run srv hist p = (t, Fulfilled a).
Proof.
  intros Hp. revert hist.
  induction Hp as [a | r k _ IH]; intros hist; simpl.
  - now exists [], a.
  - destruct (IH (srv hist r) (hist ++ [(r, srv hist r)])%list) as (t & a & E).
    rewrite E. now exists ((r, srv hist r) :: t), a.
Qed.

Lemma AllRets_bind_with {A B} (Q : A -> Prop) (P : B -> Prop)
    (p : Prog A) (f : A -> Prog B) :
  AllRets Q p -> (forall a, Q a -> AllRets P (f a)) -> AllRets P (bind p f).
Proof.
  intros Hp Hf. induction Hp as [a Ha | e | r k _ IH]; simpl.
  - now apply Hf.
  - constructor.
  - constructor. exact IH.
Qed.

Lemma text_only_intro (t : string) (e : bool) : text_only (text_result t e).
Proof. now exists t, e. Qed.

#[local] Hint Resolve text_only_intro : core.

(** Case splits and monadic steps of a goal [AllRets P p]. *)
Ltac all_rets_step :=
  match goal with
  | |- AllRets _ (Ret _) => apply AllRets_ret; simpl; auto
  | |- AllRets _ (Throw _) => apply AllRets_throw
  | |- AllRets _ (Await _ _) => apply AllRets_await; intros
  | |- AllRets _ (request _ _) => apply AllRets_await; intros
  | |- AllRets _ (try_catch _ _) => apply AllRets_try_catch; [|intros]
  | |- AllRets _ (if ?c then _ else _) => destruct c
  | |- AllRets _ (match ?x with _ => _ end) => destruct x
  | |- AllRets _ (let '(_, _) := ?x in _) => destruct x
  | |- AllRets _ (bind _ _) => apply AllRets_bind; intros
  end.

Ltac all_rets :=
  repeat first
    [ all_rets_step
    | progress unfold page_result, page_details, ToString, new_Date_toLocaleString,
        RevA.create_attempt_failed, RevC.create_attempt_failed ].

Section Resolves.

Context {rt : Runtime}.

Lemma list_pages_text (args : value) : AllRets text_only (wiki_list_pages args).
Proof. unfold wiki_list_pages. all_rets. Qed.

Lemma update_outcome_text (data : value) (debugInfo : string) :
  AllRets text_only (update_outcome data debugInfo).
Proof. unfold update_outcome. all_rets. Qed.

Lemma update_with_id_text (args pageId : value) (debugInfo : string) :
  AllRets text_only (update_with_id args pageId debugInfo).
Proof.
  unfold update_with_id. all_rets. apply update_outcome_text.
Qed.

Lemma A_get_text (args : value) : AllRets text_only (RevA.wiki_get_page args).
Proof.
  unfold RevA.wiki_get_page.
  destruct (negb _); [constructor|].
  eapply AllRets_bind_with with (Q := inl_text).
  - apply AllRets_try_catch; [|intros; all_rets].
    apply AllRets_bind. intros pd. all_rets.
  - intros [result | [page dbg]] H; all_rets.
Qed.

Lemma A_create_loop_text (vars : list string) :
  forall i base debugInfo,
    AllRets inl_text (RevA.create_loop i vars base debugInfo).
Proof.
  induction vars as [|v rest IH]; intros i base debugInfo;
    cbn [RevA.create_loop].
  - all_rets.
  - eapply AllRets_bind_with with (Q := inl_text).
    + all_rets.
    + intros [result | dbg] H; [now constructor | apply IH].
Qed.

Lemma A_create_text (args : value) : AllRets text_only (RevA.wiki_create_page args).
Proof.
  unfold RevA.wiki_create_page.
  destruct (negb _); [constructor|].
  apply AllRets_try_catch; [|intros; all_rets].
  apply AllRets_bind. intros originalPath.
  eapply AllRets_bind_with; [apply A_create_loop_text|].
  intros [result | dbg] H; all_rets.
Qed.

Lemma A_resolve_text (args : value) :
  AllRets inl_text (RevA.resolve_page_id args).
Proof. unfold RevA.resolve_page_id. all_rets. Qed.

Lemma A_update_text (args : value) : AllRets text_only (RevA.wiki_update_page args).
Proof.
  unfold RevA.wiki_update_page.
  destruct (negb _); [constructor|].
  apply AllRets_try_catch; [|intros; all_rets; unfold update_failed; auto].
  eapply AllRets_bind_with; [apply A_resolve_text|].
  intros [result | [pageId dbg]] H; [now constructor | apply update_with_id_text].
Qed.

Lemma U_get_text (args : value) : AllRets text_only (Unnamed.wiki_get_page args).
Proof.
  unfold Unnamed.wiki_get_page.
  destruct (negb _); [constructor|].
  eapply AllRets_bind_with with (Q := inl_text).
  - apply AllRets_try_catch; [|intros; all_rets].
    apply AllRets_bind. intros pd. all_rets.
  - intros [result | page] H; all_rets.
Qed.

Lemma U_create_text (args : value) :
  AllRets text_only (Unnamed.wiki_create_page args).
Proof. unfold Unnamed.wiki_create_page. all_rets. Qed.

Lemma U_update_text (args : value) :
  AllRets text_only (Unnamed.wiki_update_page args).
Proof.
  unfold Unnamed.wiki_update_page.
  destruct (negb _); [constructor|].
  apply AllRets_try_catch; [|intros; all_rets].
  eapply AllRets_bind_with with (Q := inl_text).
  - unfold Unnamed.resolve_page_id. all_rets.
  - intros [result | pageId] H; [now constructor | all_rets].
Qed.

End Resolves.

(* ------------------------------------------------------------------ *)
(** * The dispatcher *)

Section DispatchFacts.

Context {rt : Runtime}.
Variables l g c u : value -> Prog ToolCallResult.
Hypothesis l_text : forall a, AllRets text_only (l a).
Hypothesis g_text : forall a, AllRets text_only (g a).
Hypothesis c_text : forall a, AllRets text_only (c a).
Hypothesis u_text : forall a, AllRets text_only (u a).

Lemma dispatch_body_text (params : CallToolParams) :
  AllRets text_only (dispatch_body l g c u params).
Proof. unfold dispatch_body. all_rets; auto. Qed.

Lemma dispatch_resolves (srv : Server) (hist : Trace) (params : CallToolParams) :
  exists t result,
    run srv hist (dispatch l g c u params) = (t, Fulfilled result) /\
    text_only result.
Proof.
  assert (N : NoThrow (dispatch l g c u params)).
  { apply NoThrow_try_catch. intros e. constructor. }
  destruct (NoThrow_run srv hist N) as (t & result & E).
  exists t, result. split; [exact E|].
  eapply AllRets_run; [|exact E].
  apply AllRets_try_catch; [apply dispatch_body_text|].
  intros e. constructor. unfold dispatch_catch. auto.
Qed.

Lemma dispatch_converts (srv : Server) (hist : Trace) (params : CallToolParams)
    (t : Trace) (e : thrown) :
  run srv hist (dispatch_body l g c u params) = (t, Threw e) ->
  run srv hist (dispatch l g c u params) = (t, Fulfilled (dispatch_catch e)).
Proof.
  intros E. unfold dispatch. rewrite run_try_catch, E. simpl.
  now rewrite app_nil_r.
Qed.

Lemma dispatch_keeps (srv : Server) (hist : Trace) (params : CallToolParams)
    (t : Trace) (r : ToolCallResult) :
  run srv hist (dispatch_body l g c u params) = (t, Fulfilled r) ->
  run srv hist (dispatch l g c u params) = (t, Fulfilled r).
Proof.
  intros E. unfold dispatch. now rewrite run_try_catch, E.
Qed.

(** With an argument bag that is there, each tool name leads to its
    branch; so what a branch that is fulfilled does, the handler does. *)
Lemma dispatch_routes (args : value) :
  Js.truthy args = true ->
  dispatch_body l g c u (mkParams "wiki_list_pages" args) = l args /\
  dispatch_body l g c u (mkParams "wiki_get_page" args) = g args /\
  dispatch_body l g c u (mkParams "wiki_create_page" args) = c args /\
  dispatch_body l g c u (mkParams "wiki_update_page" args) = u args.
Proof.
  intros T. unfold dispatch_body. cbn [arguments name]. rewrite T.
  repeat split.
Qed.

Lemma dispatch_runs_branch (srv : Server) (hist : Trace) (args : value)
    (tool : string) (branch : value -> Prog ToolCallResult)
    (t : Trace) (r : ToolCallResult) :
  dispatch_body l g c u (mkParams tool args) = branch args ->
  run srv hist (branch args) = (t, Fulfilled r) ->
  run srv hist (dispatch l g c u (mkParams tool args)) = (t, Fulfilled r).
Proof.
  intros B E. apply dispatch_keeps. now rewrite B.
Qed.

End DispatchFacts.

(** C2. For every tool name and every argument bag, against every
    server, the CallTool handler of revision A and of the unnamed
    revision is fulfilled with a result whose content starts with a text
    block; and whenever its [try] block throws, the handler is fulfilled
    with the text result of the catch-all, flagged [isError]. *)
Theorem C2_call_tool_always_resolves
    (rt : Runtime) (srv : Server) (hist : Trace) (params : CallToolParams) :
  (exists t result block rest,
      run srv hist (RevA.CallTool params) = (t, Fulfilled result) /\
      content result = block :: rest /\ type_ block = "text") /\
  (forall t e,
      run srv hist (RevA.CallTool_try params) = (t, Threw e) ->
      run srv hist (RevA.CallTool params) =
        (t, Fulfilled (text_result ("Error: " ++ error_text e) true))) /\
  (exists t result block rest,
      run srv hist (Unnamed.CallTool params) = (t, Fulfilled result) /\
      content result = block :: rest /\ type_ block = "text") /\
  (forall t e,
      run srv hist (Unnamed.CallTool_try params) = (t, Threw e) ->
      run srv hist (Unnamed.CallTool params) =
        (t, Fulfilled (text_result ("Error: " ++ error_text e) true))).
Proof.
  repeat split.
  - destruct (dispatch_resolves wiki_list_pages RevA.wiki_get_page
                RevA.wiki_create_page RevA.wiki_update_page
                list_pages_text A_get_text A_create_text A_update_text
                srv hist params) as (t & result & E & (txt & err & ->)).
    now exists t, (text_result txt err), (mkBlock "text" txt), [].
  - intros t e E. now apply dispatch_converts.
  - destruct (dispatch_resolves wiki_list_pages Unnamed.wiki_get_page
                Unnamed.wiki_create_page Unnamed.wiki_update_page
                list_pages_text U_get_text U_create_text U_update_text
                srv hist params) as (t & result & E & (txt & err & ->)).
    now exists t, (text_result txt err), (mkBlock "text" txt), [].
  - intros t e E. now apply dispatch_converts.
Qed.

(** An unknown tool name with a [null] argument bag, server unreachable. *)
Lemma C2_call_tool_always_resolves_witness :
  exists t result block rest,
    run offline [] (RevA.CallTool (rt := sample_runtime) (mkParams "no_such_tool" JNull))
      = (t, Fulfilled result) /\
    content result = block :: rest /\ type_ block = "text".
Proof.
  exact (proj1 (C2_call_tool_always_resolves sample_runtime offline []
                  (mkParams "no_such_tool" JNull))).
Defined.

(* ------------------------------------------------------------------ *)
(** * Argument bags *)

Lemma get_inv (v x : value) (k : string) :
  Js.get v k = x -> x <> JUndefined ->
  exists fields, v = JObj fields /\ Js.assoc k fields = Some x.
Proof.
  intros E N. destruct v; simpl in E; try congruence.
  exists fields. split; [reflexivity|].
  destruct (Js.assoc k fields); congruence.
Qed.

Lemma has_of_get (v x : value) (k : string) :
  Js.get v k = x -> x <> JUndefined -> Js.has k v = true /\ is_object v = true.
Proof.
  intros E N. destruct (get_inv _ _ E N) as (fields & -> & A).
  simpl. now rewrite A.
Qed.

Lemma get_absent (v : value) (k : string) :
  Js.has k v = false -> Js.get v k = JUndefined.
Proof.
  destruct v; simpl; try reflexivity.
  destruct (Js.assoc k fields); [discriminate | reflexivity].
Qed.

Lemma numeric_id_valid (args : value) (n : Z) :
  Js.get args "id" = JNum n -> isGetPageArgs args = true.
Proof.
  intros E. destruct (has_of_get _ _ E) as [H O]; [discriminate|].
  unfold isGetPageArgs, has_typed. now rewrite O, H, E.
Qed.

Lemma string_path_valid (args : value) (p : string) :
  Js.get args "path" = JStr p -> isUpdatePageArgs args = true.
Proof.
  intros E. destruct (has_of_get _ _ E) as [H O]; [discriminate|].
  unfold isUpdatePageArgs, has_typed. rewrite O, H, E. simpl.
  apply orb_true_r.
Qed.

(* ------------------------------------------------------------------ *)
(** * The get handler and the id argument *)

(** C10. In revision A, an argument bag whose [id] is 0 and that has no
    [path] passes [isGetPageArgs], yet the handler makes no request at
    all and is fulfilled with the error result of its own [catch]. *)
Theorem C10_get_page_id_zero
    (rt : Runtime) (srv : Server) (hist : Trace) (args : value) :
  Js.get args "id" = JNum 0 ->
  Js.has "path" args = false ->
  isGetPageArgs args = true /\
  run srv hist (RevA.wiki_get_page args) =
    ([], Fulfilled
           (text_result
              ("Error fetching page: Either id or path must be provided" ++
               Str.nl ++ Str.nl ++
               debugLog "GET PAGE ERROR"
                 (error_report (Error "Either id or path must be provided")))
              true)).
Proof.
  intros Hid Hpath.
  pose proof (numeric_id_valid _ Hid) as V. split; [exact V|].
  unfold RevA.wiki_get_page. rewrite V, Hid, (get_absent _ _ Hpath).
  reflexivity.
Qed.

Lemma C10_get_page_id_zero_witness :
  isGetPageArgs (JObj [("id", JNum 0)]) = true /\
  run offline [] (RevA.wiki_get_page (rt := sample_runtime) (JObj [("id", JNum 0)])) =
    ([], Fulfilled
           (text_result
              ("Error fetching page: Either id or path must be provided" ++
               Str.nl ++ Str.nl ++
               debugLog (rt := sample_runtime) "GET PAGE ERROR"
                 (error_report (Error (rt := sample_runtime)
                                 "Either id or path must be provided")))
              true)).
Proof.
  apply (C10_get_page_id_zero sample_runtime offline [] (JObj [("id", JNum 0)]));
    reflexivity.
Defined.

(** One case split on the test a program is stuck on. *)
Ltac run_step :=
  match goal with
  | |- context [bind (if ?c then _ else _) _] => destruct c eqn:?
  | |- context [try_catch (if ?c then _ else _) _] => destruct c eqn:?
  | |- context [run _ _ (if ?c then _ else _)] => destruct c eqn:?
  | |- context [bind (match ?x with _ => _ end) _] => destruct x eqn:?
  | |- context [try_catch (match ?x with _ => _ end) _] => destruct x eqn:?
  | |- context [run _ _ (match ?x with _ => _ end)] => destruct x eqn:?
  end.

Ltac run_cases :=
  unfold member, string_receiver, page_result, page_details, ToString; cbn;
  repeat (run_step; unfold member, string_receiver, page_result, page_details, ToString; cbn);
  eauto.

(** C7, amended. When the [id] argument is a non-zero number, the get
    handler of every revision makes exactly one request, the lookup by
    that id, and none by path, whatever the server answers and however
    the call settles. *)
Theorem C7_get_page_by_nonzero_id
    (rt : Runtime) (srv : Server) (hist : Trace) (args : value) (n : Z) :
  Js.get args "id" = JNum n ->
  n <> 0%Z ->
  let lookup := mkReq GET_PAGE_BY_ID_QUERY [("id", JNum n)] in
  fst (run srv hist (RevA.wiki_get_page args)) = [(lookup, srv hist lookup)] /\
  fst (run srv hist (RevB.wiki_get_page args)) = [(lookup, srv hist lookup)] /\
  fst (run srv hist (RevC.wiki_get_page args)) = [(lookup, srv hist lookup)] /\
  fst (run srv hist (Unnamed.wiki_get_page args)) = [(lookup, srv hist lookup)].
Proof.
  intros Hid Hn lookup.
  pose proof (numeric_id_valid _ Hid) as V.
  assert (T : Js.truthy (JNum n) = true).
  { simpl. now destruct (Z.eqb_spec n 0). }
  repeat split.
  - unfold RevA.wiki_get_page, RevA.get_by_id. rewrite V, Hid, T.
    cbn. fold lookup. destruct (srv hist lookup) as [data | e]; run_cases.
  - unfold RevB.wiki_get_page, RevA.get_by_id. rewrite V, Hid, T.
    cbn. fold lookup. destruct (srv hist lookup) as [data | e]; run_cases.
  - unfold RevC.wiki_get_page, RevA.get_by_id. rewrite V, Hid, T.
    cbn. fold lookup. destruct (srv hist lookup) as [data | e]; run_cases.
  - unfold Unnamed.wiki_get_page. rewrite V, Hid, T.
    cbn. fold lookup. destruct (srv hist lookup) as [data | e]; run_cases.
Qed.

Lemma C7_get_page_by_nonzero_id_witness :
  fst (run offline [] (RevA.wiki_get_page (rt := sample_runtime) (JObj [("id", JNum 15)]))) =
    [(mkReq GET_PAGE_BY_ID_QUERY [("id", JNum 15)],
      offline [] (mkReq GET_PAGE_BY_ID_QUERY [("id", JNum 15)]))].
Proof.
  refine (proj1 (C7_get_page_by_nonzero_id sample_runtime offline []
                   (JObj [("id", JNum 15)]) (n := 15) _ _));
    [reflexivity | discriminate].
Defined.

(* ------------------------------------------------------------------ *)
(** * The list handler *)

Section ListFacts.

Context {rt : Runtime}.
Variable srv : Server.

Lemma map_entries_run (pages : list value) (hist : Trace) :
  Forall listed_record pages ->
  run srv hist (map_entries pages) = ([], Fulfilled (map listing_entry pages)).
Proof.
  induction 1 as [| page rest [[fields ->] P] _ IH]; [reflexivity|].
  cbn [map_entries map]. unfold page_entry, member, listing_entry.
  unfold entry_printable in P.
  apply andb_true_iff in P. destruct P as [P Pu].
  apply andb_true_iff in P. destruct P as [P Pp].
  apply andb_true_iff in P. destruct P as [Pt Pi].
  cbn [bind]. unfold ToString, new_Date_toLocaleString. rewrite Pt, Pi, Pp.
  cbn [bind].
  destruct (Js.truthy (Js.get (JObj fields) "updatedAt")); cbn [negb orb] in Pu.
  - rewrite Pu. cbn [bind]. rewrite run_bind, IH. reflexivity.
  - cbn [bind]. rewrite run_bind, IH. reflexivity.
Qed.

End ListFacts.

(** C8. When the listing request resolves with a list of page
    records whose printed fields can be converted to text, the list
    handler is fulfilled, not flagged as an error, with the text "No
    pages found" for the empty list and otherwise with one entry per
    page -- title, id, path and, when [updatedAt] is there, the
    locale-formatted last update -- entries separated by a blank line.
    A numeric id of magnitude at most 2^53 is printed in decimal. *)
Theorem C8_list_pages_text
    (rt : Runtime) (srv : Server) (hist : Trace) (args data : value)
    (pages : list value) :
  is_object args = true ->
  srv hist (list_request args) = Resolved data ->
  payload data "list" = JArr pages ->
  Forall listed_record pages ->
  run srv hist (wiki_list_pages args) =
    ([(list_request args, Resolved data)],
     Fulfilled (text_result (listing pages) false)) /\
  listing [] = "No pages found" /\
  (pages <> [] ->
   listing pages = String.concat (Str.nl ++ Str.nl) (map listing_entry pages)) /\
  (forall page n,
     In page pages -> Js.get page "id" = JNum n -> (- 2 ^ 53 <= n <= 2 ^ 53)%Z ->
     listing_entry page =
       "- " ++ to_string (Js.get page "title") ++
       " (ID: " ++ Str.of_Z n ++
       ", Path: " ++ to_string (Js.get page "path") ++ ")" ++
       (if Js.truthy (Js.get page "updatedAt")
        then Str.nl ++ "  Last Updated: " ++ Date_toLocaleString (Js.get page "updatedAt")
        else "")).
Proof.
  intros Hargs Hsrv Hlist Hrec.
  split; [|split; [reflexivity | split; [now destruct pages|]]];
    [|intros page n _ Hid Hn; unfold listing_entry; rewrite Hid; cbn [to_string];
      now rewrite Number_toString_safe].
  unfold payload in Hlist.
  destruct (get_inv _ _ Hlist) as (f2 & Hpages & _); [discriminate|].
  destruct (get_inv _ _ Hpages) as (f1 & -> & _); [discriminate|].
  rewrite Hpages in Hlist.
  unfold wiki_list_pages, isListPagesArgs. rewrite Hargs. cbn [negb].
  rewrite run_bind, run_request. fold (list_request args). rewrite Hsrv.
  unfold member at 1. cbn [bind]. rewrite Hpages.
  unfold member. cbn [bind]. rewrite Hlist. cbn [pages_map].
  rewrite run_bind, map_entries_run by exact Hrec.
  cbn. destruct pages; reflexivity.
Qed.

(** A server that lists one page, and one that lists none. *)
Lemma C8_list_pages_text_witness :
  let page := JObj [("id", JNum 7); ("path", JStr "home"); ("title", JStr "Home");
                    ("updatedAt", JStr "2024-01-01T00:00:00.000Z")] in
  let data := JObj [("pages", JObj [("list", JArr [page])])] in
  first_text
    match snd (run (answering data) [] (wiki_list_pages (rt := sample_runtime) (JObj []))) with
    | Fulfilled r => r
    | Threw _ => text_result "" true
    end
  = "- Home (ID: 7, Path: home)" ++ Str.nl ++ "  Last Updated: 2024-01-01T00:00:00.000Z".
Proof.
  intros page data.
  assert (R : listed_record page).
  { split; [eexists; reflexivity | reflexivity]. }
  rewrite (proj1 (C8_list_pages_text sample_runtime (answering data) []
                    (JObj []) (pages := [page])
                    eq_refl eq_refl eq_refl
                    (Forall_cons _ R (Forall_nil _)))).
  reflexivity.
Defined.

(* ------------------------------------------------------------------ *)
(** * Path normalization *)

(** The lookup key of the get handler is the normalized path. *)
Lemma B_get_by_path_key
    (rt : Runtime) (srv : Server) (hist : Trace) (p : string) :
  p <> "" ->
  map fst (fst (run srv hist (RevB.wiki_get_page (JObj [("path", JStr p)])))) =
    [lookup_by_path (RevB.normalizePath p)].
Proof.
  intros Hp. unfold RevB.wiki_get_page, RevB.get_by_path.
  assert (T : Js.truthy (JStr p) = true).
  { simpl. destruct (String.eqb_spec p ""); [contradiction | reflexivity]. }
  cbn -[Js.truthy RevB.normalizePath]. rewrite T.
  cbn -[RevB.normalizePath]. unfold lookup_by_path.
  destruct (srv hist _) as [data | e]; unfold page_result, ToString;
    cbn -[RevB.normalizePath];
    repeat (run_step; unfold page_result, ToString; cbn -[RevB.normalizePath]);
    reflexivity.
Qed.

Lemma U_get_by_path_key
    (rt : Runtime) (srv : Server) (hist : Trace) (p : string) :
  p <> "" ->
  map fst (fst (run srv hist (Unnamed.wiki_get_page (JObj [("path", JStr p)])))) =
    [lookup_by_path (Unnamed.normalizePath p)].
Proof.
  intros Hp. unfold Unnamed.wiki_get_page.
  assert (T : Js.truthy (JStr p) = true).
  { simpl. destruct (String.eqb_spec p ""); [contradiction | reflexivity]. }
  cbn -[Js.truthy Unnamed.normalizePath]. rewrite T.
  cbn -[Unnamed.normalizePath]. unfold lookup_by_path.
  destruct (srv hist _) as [data | e]; unfold member, ToString;
    cbn -[Unnamed.normalizePath];
    repeat (run_step; unfold member, ToString; cbn -[Unnamed.normalizePath]);
    reflexivity.
Qed.

(** C4, as stated, fails on the unnamed revision: its normalization
    puts a leading slash in front of "home" and keeps the one of "/home",
    and the get handler looks "/home" up. *)
Lemma C4_counterexample :
  Unnamed.normalizePath "home" = "/home" /\
  Unnamed.normalizePath "/home" = "/home" /\
  map fst (fst (run offline []
                  (Unnamed.wiki_get_page (rt := sample_runtime)
                     (JObj [("path", JStr "home")])))) =
    [lookup_by_path "/home"].
Proof. repeat split. Qed.

(** C4, amended. In revisions A, B and C normalization removes one
    leading slash and changes nothing else, and the get handler of
    revision B looks "home" up for both "/home" and "home".  In the
    unnamed revision normalization adds the leading slash when it is
    missing and changes nothing else, and the get handler looks "/home"
    up for both. *)
Theorem C4_normalizePath_by_revision
    (rt : Runtime) (srv : Server) (hist : Trace) (s : string) :
  RevB.normalizePath ("/" ++ s) = s /\
  (Str.startsWith s "/" = false -> RevB.normalizePath s = s) /\
  RevA.normalizePath s = RevB.normalizePath s /\
  RevC.normalizePath s = RevB.normalizePath s /\
  Unnamed.normalizePath ("/" ++ s) = "/" ++ s /\
  (Str.startsWith s "/" = false -> Unnamed.normalizePath s = "/" ++ s) /\
  map fst (fst (run srv hist (RevB.wiki_get_page (JObj [("path", JStr "/home")])))) =
    [lookup_by_path "home"] /\
  map fst (fst (run srv hist (RevB.wiki_get_page (JObj [("path", JStr "home")])))) =
    [lookup_by_path "home"] /\
  map fst (fst (run srv hist (Unnamed.wiki_get_page (JObj [("path", JStr "/home")])))) =
    [lookup_by_path "/home"] /\
  map fst (fst (run srv hist (Unnamed.wiki_get_page (JObj [("path", JStr "home")])))) =
    [lookup_by_path "/home"].
Proof.
  repeat split.
  - intros H. unfold RevB.normalizePath. now rewrite H.
  - intros H. unfold Unnamed.normalizePath. now rewrite H.
  - now rewrite B_get_by_path_key.
  - now rewrite B_get_by_path_key.
  - now rewrite U_get_by_path_key.
  - now rewrite U_get_by_path_key.
Qed.

Lemma C4_normalizePath_by_revision_witness :
  RevB.normalizePath "docs/a" = "docs/a" /\
  Unnamed.normalizePath "docs/a" = "/docs/a".
Proof.
  pose proof (C4_normalizePath_by_revision sample_runtime offline [] "docs/a")
    as (_ & B & _ & _ & _ & U & _).
  split; [apply B | apply U]; reflexivity.
Defined.

(** C7, as stated, fails for the id 0: with a path beside it the get
    handler of revision A makes no lookup by id and six lookups by path;
    alone, it makes no lookup at all.  Both argument bags pass
    [isGetPageArgs]. *)
Lemma C7_counterexample :
  let both := JObj [("id", JNum 0); ("path", JStr "home")] in
  let t := fst (run offline [] (RevA.wiki_get_page (rt := sample_runtime) both)) in
  isGetPageArgs both = true /\
  calls_of GET_PAGE_BY_ID_QUERY t = [] /\
  calls_of GET_PAGE_BY_PATH_QUERY t =
    map lookup_by_path ["ja/home"; "/ja/home"; "home"; "/home"; "en/home"; "/en/home"] /\
  isGetPageArgs (JObj [("id", JNum 0)]) = true /\
  fst (run offline [] (RevA.wiki_get_page (rt := sample_runtime) (JObj [("id", JNum 0)])))
    = [].
Proof. repeat split. Qed.

(* ------------------------------------------------------------------ *)
(** * The path variations of revision A *)

Module VariationFacts.
Import RevA.

Lemma length_append (a b : string) :
  String.length (a ++ b) = String.length a + String.length b.
Proof. induction a as [|c a IH]; simpl; congruence. Qed.

Lemma eqb_prepend (a n : string) : a <> "" -> String.eqb n (a ++ n) = false.
Proof.
  intros Ha. apply String.eqb_neq. intros E.
  apply (f_equal String.length) in E. rewrite length_append in E.
  destruct a; [congruence | simpl in E; lia].
Qed.

Lemma eqb_self (n : string) : String.eqb n n = true.
Proof. apply String.eqb_refl. Qed.

Lemma mem_single (n : string) : Str.mem n [n] = true.
Proof. unfold Str.mem. cbn [existsb]. now rewrite eqb_self. Qed.

Lemma mem_ja (n : string) : Str.mem n ["ja/" ++ n; "/ja/" ++ n] = false.
Proof.
  unfold Str.mem. cbn [existsb].
  now rewrite (@eqb_prepend "ja/" n), (@eqb_prepend "/ja/" n) by discriminate.
Qed.

(** With a language segment in front, the normalized path comes first. *)
Lemma with_prefix (p : string) :
  hasLangPrefix (normalizePath p) = true ->
  exists rest, generatePathVariations p = normalizePath p :: rest.
Proof.
  intros H. unfold generatePathVariations. rewrite H. cbn [negb].
  rewrite !mem_single. cbn [negb].
  destruct (negb (Str.startsWith p "/") && _); eexists; reflexivity.
Qed.

(** Without one, the two "ja" variants come before it. *)
Lemma without_prefix (p : string) :
  hasLangPrefix (normalizePath p) = false ->
  exists rest,
    generatePathVariations p =
      ("ja/" ++ normalizePath p) :: ("/ja/" ++ normalizePath p) ::
      normalizePath p :: rest.
Proof.
  intros H. unfold generatePathVariations. rewrite H. cbn [negb].
  rewrite !mem_ja. cbn [negb app].
  destruct (negb (Str.startsWith p "/") && _); eexists; reflexivity.
Qed.

Lemma normalized_in (p : string) :
  In (normalizePath p) (generatePathVariations p).
Proof.
  destruct (hasLangPrefix (normalizePath p)) eqn:H.
  - destruct (with_prefix p H) as [rest ->]. now left.
  - destruct (without_prefix p H) as [rest ->]. right. right. now left.
Qed.

(** A path with a leading slash and a language segment has one variant. *)
Lemma single_variation (p : string) :
  Str.startsWith p "/" = true ->
  hasLangPrefix (normalizePath p) = true ->
  generatePathVariations p = [normalizePath p].
Proof.
  intros S H. unfold generatePathVariations. rewrite H, S. cbn [negb].
  now rewrite !mem_single.
Qed.

End VariationFacts.

(* ------------------------------------------------------------------ *)
(** * Conversions to text *)

Section Conversions.

Context {rt : Runtime}.

Lemma ToString_text (v : value) :
  Js.printable v = true -> ToString v = Ret (to_string v).
Proof. intros P. unfold ToString. now rewrite P. Qed.

Lemma ToString_throws (v : value) :
  Js.printable v = false -> ToString v = Throw (TypeError cannot_convert).
Proof. intros P. unfold ToString. now rewrite P. Qed.

(** A template over the three fields of a page is their text or the
    one TypeError, whichever field fails first. *)
Lemma page_details_run (page : value) :
  page_details page =
  if details_printable page then Ret (details_text page)
  else Throw (TypeError cannot_convert).
Proof.
  unfold page_details, details_printable, details_text, ToString.
  destruct (Js.printable (Js.get page "title")); [|reflexivity].
  destruct (Js.printable (Js.get page "id")); [|reflexivity].
  destruct (Js.printable (Js.get page "path")); reflexivity.
Qed.

(** The end of the get handler: the page, the not-found text, or the
    TypeError of the field that cannot be converted. *)
Lemma page_result_run (args page : value) (dbg : string) :
  page_result args page dbg =
  if Js.truthy page
  then
    if page_printable page
    then
      Ret (text_result
             ("# " ++ to_string (Js.get page "title") ++ Str.nl ++ Str.nl ++
              to_string (Js.get page "content") ++ Str.nl ++ Str.nl ++ dbg) false)
    else Throw (TypeError cannot_convert)
  else if Js.truthy (Js.get args "id")
  then
    if Js.printable (Js.get args "id")
    then
      Ret (text_result
             ("Page not found for ID: " ++ to_string (Js.get args "id") ++
              Str.nl ++ Str.nl ++ dbg) true)
    else Throw (TypeError cannot_convert)
  else
    if Js.printable (Js.get args "path")
    then
      Ret (text_result
             ("Page not found for path: " ++ to_string (Js.get args "path") ++
              Str.nl ++ Str.nl ++ dbg) true)
    else Throw (TypeError cannot_convert).
Proof.
  unfold page_result, page_printable, ToString.
  destruct (Js.truthy page); cbn [negb].
  - destruct (Js.printable (Js.get page "title")); [|reflexivity].
    destruct (Js.printable (Js.get page "content")); reflexivity.
  - destruct (Js.truthy (Js.get args "id")).
    + destruct (Js.printable (Js.get args "id")); reflexivity.
    + destruct (Js.printable (Js.get args "path")); reflexivity.
Qed.

Lemma printable_string (s : string) : Js.printable (JStr s) = true.
Proof. reflexivity. Qed.

Lemma printable_number (n : Z) : Js.printable (JNum n) = true.
Proof. reflexivity. Qed.

(** Within 2^53 the text of a number is its decimal digits. *)
Lemma to_string_safe_integer (n : Z) :
  (- 2 ^ 53 <= n <= 2 ^ 53)%Z -> to_string (JNum n) = Str.of_Z n.
Proof. apply Number_toString_safe. Qed.

End Conversions.

(* ------------------------------------------------------------------ *)
(** * The loops of revision A *)

Section LoopFacts.

Context {rt : Runtime}.
Variable srv : Server.

Lemma page_hit_found (data : value) :
  found data "singleByPath" = true -> page_hit (Resolved data) = true.
Proof. intros F. unfold page_hit, page_of. now rewrite F. Qed.

Lemma page_hit_missing (data : value) :
  found data "singleByPath" = false -> page_hit (Resolved data) = false.
Proof. intros F. unfold page_hit, page_of. now rewrite F. Qed.

(** The loop of the get handler tries the variants in order and stops
    at the first page found. *)
Lemma A_get_loop_run (vars : list string) :
  forall i dbg hist, exists t page dbg',
    run srv hist (RevA.get_loop i vars dbg) = (t, Fulfilled (page, dbg')) /\
    Attempts lookup_by_path page_hit vars t /\
    page = match hit_page t with Some pg => pg | None => JUndefined end.
Proof.
  induction vars as [|v rest IH]; intros i dbg hist.
  - exists [], JUndefined, dbg. repeat split. constructor.
  - cbn [RevA.get_loop]. rewrite run_bind, run_try_catch, run_bind, run_request.
    fold (lookup_by_path v).
    destruct (srv hist (lookup_by_path v)) as [data | e] eqn:O.
    + destruct (found data "singleByPath") eqn:F; cbn [run app].
      * do 3 eexists. split; [reflexivity|]. split.
        -- apply Attempts_hit. now apply page_hit_found.
        -- cbn [hit_page page_of]. now rewrite F.
      * match goal with
        | |- context [run srv ?h (RevA.get_loop ?j rest ?d)] =>
            destruct (IH j d h) as (t & page & dbg' & E & A & P)
        end.
        rewrite E. do 3 eexists. split; [reflexivity|]. split.
        -- apply Attempts_miss; [now apply page_hit_missing | exact A].
        -- cbn [hit_page page_of app]. now rewrite F.
    + cbn [run app].
      match goal with
      | |- context [run srv ?h (RevA.get_loop ?j rest ?d)] =>
          destruct (IH j d h) as (t & page & dbg' & E & A & P)
      end.
      rewrite E. do 3 eexists. split; [reflexivity|]. split.
      * apply Attempts_miss; [reflexivity | exact A].
      * exact P.
Qed.

(** The loop of the update handler does the same; it leaves [null]
    when no variant finds a page. *)
Lemma A_resolve_loop_run (vars : list string) :
  forall i dbg hist, exists t page dbg',
    run srv hist (RevA.resolve_loop i vars dbg) = (t, Fulfilled (page, dbg')) /\
    Attempts lookup_by_path page_hit vars t /\
    page = match hit_page t with Some pg => pg | None => JNull end.
Proof.
  induction vars as [|v rest IH]; intros i dbg hist.
  - exists [], JNull, dbg. repeat split. constructor.
  - cbn [RevA.resolve_loop]. rewrite run_bind, run_try_catch, run_bind, run_request.
    fold (lookup_by_path v).
    destruct (srv hist (lookup_by_path v)) as [data | e] eqn:O.
    + destruct (found data "singleByPath") eqn:F; cbn [run app].
      * do 3 eexists. split; [reflexivity|]. split.
        -- apply Attempts_hit. now apply page_hit_found.
        -- cbn [hit_page page_of]. now rewrite F.
      * match goal with
        | |- context [run srv ?h (RevA.resolve_loop ?j rest ?d)] =>
            destruct (IH j d h) as (t & page & dbg' & E & A & P)
        end.
        rewrite E. do 3 eexists. split; [reflexivity|]. split.
        -- apply Attempts_miss; [now apply page_hit_missing | exact A].
        -- cbn [hit_page page_of app]. now rewrite F.
    + cbn [run app].
      match goal with
      | |- context [run srv ?h (RevA.resolve_loop ?j rest ?d)] =>
          destruct (IH j d h) as (t & page & dbg' & E & A & P)
      end.
      rewrite E. do 3 eexists. split; [reflexivity|]. split.
      * apply Attempts_miss; [reflexivity | exact A].
      * exact P.
Qed.

(** The loop of the create handler: one mutation per variant, until
    one is taken for a success. *)
Lemma A_create_loop_run (vars : list string) (base : list (string * value)) :
  forall i dbg hist, exists t r,
    run srv hist (RevA.create_loop i vars base dbg) = (t, Fulfilled r) /\
    Attempts (fun v => mkReq CREATE_PAGE_MUTATION (Js.set_field "path" (JStr v) base))
             A_create_hit vars t /\
    match r with
    | inl result =>
        isError result = false /\
        Exists (fun x => A_create_hit (snd x) = true) t
    | inr _ => Forall (fun x => A_create_hit (snd x) = false) t
    end.
Proof.
  induction vars as [|v rest IH]; intros i dbg hist.
  - exists [], (inr dbg). repeat split; constructor.
  - cbn [RevA.create_loop]. rewrite run_bind, run_try_catch, run_bind, run_request.
    set (req := mkReq CREATE_PAGE_MUTATION (Js.set_field "path" (JStr v) base)).
    assert (Miss : forall o d,
               A_create_hit o = false ->
               exists t r,
                 (let '(t', res) :=
                    run srv (hist ++ [(req, o)])%list
                      (RevA.create_loop (S i) rest base d) in
                  (([(req, o)] ++ t')%list, res)) = (t, Fulfilled r) /\
                 Attempts
                   (fun v => mkReq CREATE_PAGE_MUTATION
                               (Js.set_field "path" (JStr v) base))
                   A_create_hit (v :: rest) t /\
                 match r with
                 | inl result =>
                     isError result = false /\
                     Exists (fun x => A_create_hit (snd x) = true) t
                 | inr _ => Forall (fun x => A_create_hit (snd x) = false) t
                 end).
    { intros o d Ho.
      destruct (IH (S i) d (hist ++ [(req, o)])%list) as (t & r & E & A & P).
      rewrite E. do 2 eexists. split; [reflexivity|]. split.
      - apply Attempts_miss; [exact Ho | exact A].
      - destruct r; [|constructor; [exact Ho | exact P]].
        destruct P as [P1 P2]. split; [exact P1 | now apply Exists_cons_tl]. }
    destruct (srv hist req) as [data | e] eqn:O.
    + destruct (found data "create") eqn:F; cbn [run app].
      * destruct (Js.truthy (Js.get (payload data "create") "responseResult") &&
                  Js.truthy (Js.get (Js.get (payload data "create") "responseResult")
                               "succeeded") &&
                  Js.truthy (Js.get (payload data "create") "page")) eqn:G;
          cbn [run app].
        -- rewrite page_details_run.
           destruct (details_printable (Js.get (payload data "create") "page")) eqn:D;
             cbn [bind run app].
           ++ assert (Ho : A_create_hit (Resolved data) = true).
              { cbn [A_create_hit]. now rewrite F, G, D. }
              do 2 eexists. split; [reflexivity|]. split.
              ** now apply Attempts_hit.
              ** split; [reflexivity | now apply Exists_cons_hd].
           ++ apply Miss. cbn [A_create_hit]. now rewrite F, G, D.
        -- assert (Ho : A_create_hit (Resolved data) = false).
           { cbn [A_create_hit]. now rewrite F, G. }
           destruct (Js.truthy (Js.get (payload data "create") "responseResult"));
             cbn [run app]; apply Miss; exact Ho.
      * apply Miss. cbn [A_create_hit]. now rewrite F.
    + cbn [run app]. apply Miss. reflexivity.
Qed.

End LoopFacts.

(* ------------------------------------------------------------------ *)
(** * Lookups and creations by path in revision A *)

Section ByPath.

Context {rt : Runtime}.
Variable srv : Server.

Lemma truthy_string (p : string) : p <> "" -> Js.truthy (JStr p) = true.
Proof.
  intros Hp. simpl. destruct (String.eqb_spec p ""); [contradiction | reflexivity].
Qed.

Lemma A_get_by_path_run (hist : Trace) (args : value) (p : string) :
  Js.get args "path" = JStr p ->
  p <> "" ->
  Js.truthy (Js.get args "id") = false ->
  exists t s,
    run srv hist (RevA.wiki_get_page args) = (t, s) /\
    Attempts lookup_by_path page_hit (RevA.generatePathVariations p) t /\
    match hit_page t with
    | Some page =>
        if page_printable page
        then
          exists debug,
            s = Fulfilled
                  (text_result
                     ("# " ++ to_string (Js.get page "title") ++ Str.nl ++ Str.nl ++
                      to_string (Js.get page "content") ++ Str.nl ++ Str.nl ++ debug)
                     false)
        else s = Threw (TypeError cannot_convert)
    | None =>
        exists debug,
          s = Fulfilled
                (text_result
                   ("Page not found for path: " ++ p ++ Str.nl ++ Str.nl ++ debug) true)
    end.
Proof.
  intros Hpath Hp Hid.
  pose proof (string_path_valid _ Hpath) as V.
  change (isUpdatePageArgs args) with (isGetPageArgs args) in V.
  unfold RevA.wiki_get_page. rewrite V, Hid, Hpath, (truthy_string Hp).
  cbn [negb]. unfold RevA.get_by_path, string_receiver. cbn [bind].
  rewrite run_bind, run_try_catch, run_bind, run_bind.
  match goal with
  | |- context [run srv hist (RevA.get_loop ?i ?vars ?d)] =>
      destruct (A_get_loop_run srv vars i d hist) as (t & page & dbg & E & A & P)
  end.
  rewrite E.
  assert (T : Js.truthy page = match hit_page t with Some _ => true | None => false end).
  { clear E. rewrite P. clear P.
    induction A as [| v rest o H | v rest o t H A IH]; [reflexivity | |].
    - unfold page_hit in H. cbn [hit_page].
      destruct o as [data | e]; cbn [page_of] in *; [|discriminate].
      destruct (found data "singleByPath") eqn:F; [|discriminate].
      unfold found in F. apply andb_true_iff in F. now destruct F.
    - unfold page_hit in H. cbn [hit_page].
      destruct (page_of o); [discriminate | exact IH]. }
  destruct (hit_page t) as [pg |] eqn:Hh; subst page; rewrite T;
    cbn [negb run bind try_catch app fst snd]; rewrite page_result_run, T, ?Hid, ?Hpath;
    cbn [Js.printable].
  - destruct (page_printable pg) eqn:Pp; cbn [run app]; rewrite !app_nil_r;
      do 2 eexists; (split; [reflexivity|]); (split; [exact A|]);
      rewrite Hh, Pp; [eexists; reflexivity | reflexivity].
  - cbn [run app]. rewrite !app_nil_r.
    do 2 eexists. split; [reflexivity|]. split; [exact A|].
    rewrite Hh. eexists. reflexivity.
Qed.

Lemma A_create_run (hist : Trace) (args : value) (p : string) :
  Js.get args "path" = JStr p ->
  isCreatePageArgs args = true ->
  exists t result,
    run srv hist (RevA.wiki_create_page args) = (t, Fulfilled result) /\
    Attempts (A_create_request args) A_create_hit (RevA.generatePathVariations p) t /\
    (isError result = false /\
     Exists (fun x => A_create_hit (snd x) = true) t \/
     Forall (fun x => A_create_hit (snd x) = false) t /\
     isError result = true /\
     Str.startsWith (first_text result) RevA.create_failed_text = true).
Proof.
  intros Hpath V.
  unfold RevA.wiki_create_page. rewrite V, Hpath.
  cbn [negb string_receiver bind].
  rewrite run_try_catch, run_bind.
  match goal with
  | |- context [run srv hist (RevA.create_loop ?i ?vars ?b ?d)] =>
      destruct (A_create_loop_run srv vars b i d hist) as (t & r & E & A & P)
  end.
  rewrite E. destruct r as [result | dbg]; cbn [run]; rewrite app_nil_r.
  - do 2 eexists. split; [reflexivity|]. split; [exact A|]. now left.
  - do 2 eexists. split; [reflexivity|]. split; [exact A|]. right.
    split; [exact P|]. split; [reflexivity|].
    cbn [first_text text_result content text].
    apply StrFacts.startsWith_app.
Qed.

End ByPath.

(** C3, as stated, fails on revision A for a path without a language
    segment: for "home" the first lookup of the get handler asks for
    "ja/home", the normalized path "home" comes third, and a server that
    accepts every creation is asked to create "ja/home". *)
Lemma C3_counterexample :
  RevA.normalizePath "home" = "home" /\
  map fst (fst (run offline []
                  (RevA.wiki_get_page (rt := sample_runtime)
                     (JObj [("path", JStr "home")])))) =
    map lookup_by_path ["ja/home"; "/ja/home"; "home"; "/home"; "en/home"; "/en/home"] /\
  let args := JObj [("path", JStr "home"); ("title", JStr "T"); ("content", JStr "C")] in
  let created :=
    JObj [("pages",
           JObj [("create",
                  JObj [("responseResult", JObj [("succeeded", JBool true)]);
                        ("page", JObj [("id", JNum 1); ("path", JStr "ja/home");
                                       ("title", JStr "T")])])])] in
  map fst (fst (run (answering created) []
                  (RevA.wiki_create_page (rt := sample_runtime) args))) =
    [A_create_request (rt := sample_runtime) args "ja/home"].
Proof. repeat split. Qed.

(** C3, amended. In revision A the get handler (for a non-empty path
    and no truthy id) and the create handler issue their requests for
    the entries of [generatePathVariations] in list order, one each, and
    stop at the first success: for a lookup, a response with a page; for
    a creation, a response that reports success with a page whose title,
    id and path can be converted to text, which is when the loop
    returns.  The create call is always fulfilled; the get call is
    described by its requests alone, since it builds its result after
    the [try].  The normalized path is always an entry; it is the first
    one when it starts with a two-letter language segment, and otherwise
    follows the "ja/" and "/ja/" variants. *)
Theorem C3_path_variations_in_order
    (rt : Runtime) (srv : Server) (hist : Trace) (args : value) (p : string) :
  Js.get args "path" = JStr p ->
  let normalized := RevA.normalizePath p in
  let variations := RevA.generatePathVariations p in
  In normalized variations /\
  (RevA.hasLangPrefix normalized = true ->
   exists rest, variations = normalized :: rest) /\
  (RevA.hasLangPrefix normalized = false ->
   exists rest,
     variations = ("ja/" ++ normalized) :: ("/ja/" ++ normalized) :: normalized :: rest) /\
  (p <> "" -> Js.truthy (Js.get args "id") = false ->
   Attempts lookup_by_path page_hit variations
     (fst (run srv hist (RevA.wiki_get_page args)))) /\
  (isCreatePageArgs args = true ->
   exists t result,
     run srv hist (RevA.wiki_create_page args) = (t, Fulfilled result) /\
     Attempts (A_create_request args) A_create_hit variations t).
Proof.
  intros Hpath normalized variations. repeat split.
  - apply VariationFacts.normalized_in.
  - apply VariationFacts.with_prefix.
  - apply VariationFacts.without_prefix.
  - intros Hp Hid.
    destruct (A_get_by_path_run srv hist _ Hpath Hp Hid) as (t & s & E & A & _).
    rewrite E. exact A.
  - intros V.
    destruct (A_create_run srv hist _ Hpath V) as (t & result & E & A & _).
    now exists t, result.
Qed.

Lemma C3_path_variations_in_order_witness :
  Attempts lookup_by_path page_hit (RevA.generatePathVariations "en/guide")
    (fst (run offline [] (RevA.wiki_get_page (rt := sample_runtime)
                            (JObj [("path", JStr "en/guide")])))).
Proof.
  refine (proj1 (proj2 (proj2 (proj2
            (C3_path_variations_in_order sample_runtime offline []
               (JObj [("path", JStr "en/guide")]) (p := "en/guide") eq_refl)))) _ _);
    [discriminate | reflexivity].
Defined.

(* ------------------------------------------------------------------ *)
(** * What a program asks for *)

Lemma OnlyAsks_bind {A B} (P : GqlRequest -> Prop) (p : Prog A) (f : A -> Prog B) :
  OnlyAsks P p -> (forall a, OnlyAsks P (f a)) -> OnlyAsks P (bind p f).
Proof.
  intros Hp Hf. induction Hp as [a | e | r k Hr _ IH]; simpl.
  - apply Hf.
  - constructor.
  - constructor; [exact Hr | exact IH].
Qed.

Lemma OnlyAsks_try_catch {A} (P : GqlRequest -> Prop) (p : Prog A)
    (h : thrown -> Prog A) :
  OnlyAsks P p -> (forall e, OnlyAsks P (h e)) -> OnlyAsks P (try_catch p h).
Proof.
  intros Hp Hh. induction Hp as [a | e | r k Hr _ IH]; simpl.
  - constructor.
  - apply Hh.
  - constructor; [exact Hr | exact IH].
Qed.

Lemma OnlyAsks_run {A} (P : GqlRequest -> Prop) (p : Prog A)
    (srv : Server) (hist : Trace) :
  OnlyAsks P p -> Forall (fun x => P (fst x)) (fst (run srv hist p)).
Proof.
  intros Hp. revert hist.
  induction Hp as [a | e | r k Hr _ IH]; intros hist; simpl; try constructor.
  specialize (IH (srv hist r) (hist ++ [(r, srv hist r)])%list).
  destruct (run srv _ (k _)) as [t res]. simpl in *.
  constructor; [exact Hr | exact IH].
Qed.

Ltac only_asks_step :=
  match goal with
  | |- OnlyAsks _ (Ret _) => apply OnlyAsks_ret
  | |- OnlyAsks _ (Throw _) => apply OnlyAsks_throw
  | |- OnlyAsks _ (request _ _) => apply OnlyAsks_await; [reflexivity | intros]
  | |- OnlyAsks _ (Await _ _) => apply OnlyAsks_await; [reflexivity | intros]
  | |- OnlyAsks _ (try_catch _ _) => apply OnlyAsks_try_catch; [|intros]
  | |- OnlyAsks _ (bind _ _) => apply OnlyAsks_bind; [|intros]
  | |- OnlyAsks _ (if ?c then _ else _) => destruct c
  | |- OnlyAsks _ (match ?x with _ => _ end) => destruct x
  end.

Ltac only_asks :=
  repeat first
    [ only_asks_step
    | progress unfold page_result, page_details, ToString, new_Date_toLocaleString,
        RevA.create_attempt_failed, RevC.create_attempt_failed ].

Lemma run_try_catch_bind {A B} (srv : Server) (hist : Trace)
    (p : Prog A) (f : A -> Prog B) (h : thrown -> Prog B) :
  run srv hist (try_catch (bind p f) h) =
  match run srv hist p with
  | (t, Fulfilled a) =>
      let '(t', res) := run srv (hist ++ t)%list (try_catch (f a) h) in
      ((t ++ t')%list, res)
  | (t, Threw e) =>
      let '(t', res) := run srv (hist ++ t)%list (h e) in ((t ++ t')%list, res)
  end.
Proof.
  revert hist. induction p as [a | e | r k IH]; intros hist; simpl.
  - rewrite app_nil_r. now destruct (run srv hist (try_catch (f a) h)).
  - rewrite app_nil_r. now destruct (run srv hist (h e)).
  - rewrite IH. destruct (run srv _ (k _)) as [t [a | e]];
      rewrite <- app_assoc; simpl.
    + now destruct (run srv _ (try_catch (f a) h)).
    + now destruct (run srv _ (h e)).
Qed.

(* ------------------------------------------------------------------ *)
(** * The update handler of revisions A and C *)

Section UpdateFacts.

Context {rt : Runtime}.
Variable srv : Server.

Lemma update_outcome_run (data : value) (dbg : string) (hist : Trace) :
  exists result,
    run srv hist (try_catch (update_outcome data dbg)
                    (fun error => Ret (update_failed error)))
      = ([], Fulfilled result) /\
    isError result = update_flag data.
Proof.
  unfold update_flag, update_prints_page, update_refused, update_responseResult,
    update_outcome.
  destruct (found data "update"); cbn [andb];
    [|eexists; split; reflexivity].
  destruct (Js.truthy (Js.get (payload data "update") "responseResult"));
    cbn [andb]; [|eexists; split; reflexivity].
  destruct (Js.truthy (Js.get (Js.get (payload data "update") "responseResult")
                         "succeeded")); cbn [negb andb].
  - destruct (Js.truthy (Js.get (payload data "update") "page"));
      [|eexists; split; reflexivity].
    rewrite page_details_run.
    destruct (details_printable (Js.get (payload data "update") "page"));
      eexists; split; reflexivity.
  - unfold Js.or, ToString.
    destruct (Js.get (Js.get (payload data "update") "responseResult") "message")
      as [| | b | n | s | items | fields] eqn:M;
      cbn [Js.truthy quirk_success message_includes bind try_catch negb].
    + eexists. split; reflexivity.
    + eexists. split; reflexivity.
    + destruct b; eexists; split; reflexivity.
    + destruct (negb (n =? 0)%Z); eexists; split; reflexivity.
    + destruct (negb (s =? "")) eqn:Es.
      * destruct (Str.includes s quirk_signature) eqn:I;
          eexists; split; reflexivity.
      * apply negb_false_iff, String.eqb_eq in Es. subst s.
        eexists. split; reflexivity.
    + destruct (existsb _ items); cbn [andb];
        destruct (Js.printable (JArr items)); eexists; split; reflexivity.
    + eexists. split; reflexivity.
Qed.

(** The second half of the handler, inside its [try]: no request and
    an error when [pageId] is falsy, else exactly one update mutation. *)
Lemma update_with_id_run (args pageId : value) (dbg : string) (hist : Trace) :
  exists t result,
    run srv hist (try_catch (update_with_id args pageId dbg)
                    (fun error => Ret (update_failed error)))
      = (t, Fulfilled result) /\
    ((Js.truthy pageId = false /\ t = [] /\ isError result = true) \/
     (Js.truthy pageId = true /\
      t = [(update_request pageId args, srv hist (update_request pageId args))] /\
      match srv hist (update_request pageId args) with
      | Resolved data => isError result = update_flag data
      | Rejected e => result = update_failed e
      end)).
Proof.
  unfold update_with_id. destruct (Js.truthy pageId); cbn [negb].
  - cbn [bind request try_catch run]. fold (update_request pageId args).
    destruct (srv hist (update_request pageId args)) as [data | e] eqn:O;
      cbn [bind try_catch].
    + match goal with
      | |- context [run srv ?h (try_catch (update_outcome data ?d) _)] =>
          destruct (update_outcome_run data d h) as (result & E & Q)
      end.
      rewrite E. do 2 eexists. split; [reflexivity|]. right.
      split; [reflexivity|]. split; [reflexivity | exact Q].
    + cbn. do 2 eexists. split; [reflexivity|]. right.
      split; [reflexivity|]. split; reflexivity.
  - do 2 eexists. split; [reflexivity|]. left. repeat split.
Qed.

End UpdateFacts.

Section UpdateHandlers.

Context {rt : Runtime}.
Variable srv : Server.

(** The shape shared by the update handlers of revisions A and C:
    whatever the first half asks for, the second half adds at most one
    update mutation. *)
Lemma update_handler_run (args : value)
    (resolve : Prog (ToolCallResult + value * string)) (hist : Trace) :
  exists t2 result,
    run srv hist
      (try_catch
         (r <- resolve;;
          match r with
          | inl result => Ret result
          | inr (pageId, debugInfo) => update_with_id args pageId debugInfo
          end)
         (fun error => Ret (update_failed error)))
      = ((fst (run srv hist resolve) ++ t2)%list, Fulfilled result) /\
    match snd (run srv hist resolve) with
    | Fulfilled (inl r) => t2 = [] /\ result = r
    | Fulfilled (inr (pageId, _)) =>
        (Js.truthy pageId = false /\ t2 = [] /\ isError result = true) \/
        (Js.truthy pageId = true /\
         exists o, t2 = [(update_request pageId args, o)] /\
                   match o with
                   | Resolved data => isError result = update_flag data
                   | Rejected e => result = update_failed e
                   end)
    | Threw e => t2 = [] /\ result = update_failed e
    end.
Proof.
  rewrite run_try_catch_bind.
  destruct (run srv hist resolve) as [t1 [[r | [pageId dbg]] | e]]; cbn [fst snd].
  - cbn. now exists [], r.
  - destruct (update_with_id_run srv args pageId dbg (hist ++ t1)%list)
      as (t2 & result & E & H).
    rewrite E. exists t2, result. split; [reflexivity|].
    destruct H as [H | (T & -> & H)]; [now left | right].
    split; [exact T|]. eexists. split; [reflexivity | exact H].
  - cbn. now exists [], (update_failed e).
Qed.







(** With a truthy [id] the first half asks nothing, and the one
    request of the call is the update mutation for that id. *)
Lemma update_by_id_run (args : value) (hist : Trace) :
  Js.truthy (Js.get args "id") = true ->
  let req := update_request (Js.get args "id") args in
  exists result,
    run srv hist
      (try_catch (update_with_id args (Js.get args "id") "")
         (fun error => Ret (update_failed error)))
      = ([(req, srv hist req)], Fulfilled result) /\
    match srv hist req with
    | Resolved data => isError result = update_flag data
    | Rejected e => result = update_failed e
    end.
Proof.
  intros T req.
  destruct (update_with_id_run srv args (Js.get args "id") "" hist)
    as (t & result & E & [(F & _) | (_ & -> & H)]); [congruence|].
  exists result. split; [exact E | exact H].
Qed.

Lemma A_update_by_id (args : value) (hist : Trace) :
  isUpdatePageArgs args = true ->
  Js.truthy (Js.get args "id") = true ->
  run srv hist (RevA.wiki_update_page args) =
  run srv hist
    (try_catch (update_with_id args (Js.get args "id") "")
       (fun error => Ret (update_failed error))).
Proof.
  intros V T. unfold RevA.wiki_update_page, RevA.resolve_page_id.
  rewrite V, T. reflexivity.
Qed.

Lemma C_update_by_id (args : value) (hist : Trace) :
  isUpdatePageArgs args = true ->
  Js.truthy (Js.get args "id") = true ->
  run srv hist (RevC.wiki_update_page args) =
  run srv hist
    (try_catch (update_with_id args (Js.get args "id") "")
       (fun error => Ret (update_failed error))).
Proof.
  intros V T. unfold RevC.wiki_update_page, RevC.resolve_page_id.
  rewrite V, T. reflexivity.
Qed.

End UpdateHandlers.






(* ------------------------------------------------------------------ *)
(** * Updating by path *)

Section UpdateByPath.

Context {rt : Runtime}.
Variable srv : Server.

Lemma Attempts_lookups (hit : Outcome -> bool) (vars : list string) (t : Trace) :
  Attempts lookup_by_path hit vars t -> calls_of UPDATE_PAGE_MUTATION t = [].
Proof. induction 1; [reflexivity | reflexivity | exact IHAttempts]. Qed.

Lemma Attempts_nonempty (mk : string -> GqlRequest) (hit : Outcome -> bool)
    (vars : list string) (t : Trace) :
  Attempts mk hit vars t -> vars <> [] -> t <> [].
Proof. destruct 1; [congruence | discriminate | discriminate]. Qed.

Lemma variations_nonempty (p : string) : RevA.generatePathVariations p <> [].
Proof.
  destruct (RevA.hasLangPrefix (RevA.normalizePath p)) eqn:H.
  - destruct (VariationFacts.with_prefix p H) as [rest ->]. discriminate.
  - destruct (VariationFacts.without_prefix p H) as [rest ->]. discriminate.
Qed.

Lemma hit_page_truthy (t : Trace) (page : value) :
  hit_page t = Some page -> Js.truthy page = true.
Proof.
  induction t as [| [r o] t IH]; cbn [hit_page]; [discriminate|].
  destruct (page_of o) as [pg|] eqn:P; [|exact IH].
  intros [= <-]. destruct o as [data | e]; cbn [page_of] in P; [|discriminate].
  destruct (found data "singleByPath") eqn:F; [|discriminate].
  injection P as <-. unfold found in F.
  apply andb_true_iff in F. now destruct F.
Qed.

(** The first half of the update handler of revision A, for a path and
    no truthy id. *)
Lemma A_resolve_by_path (hist : Trace) (args : value) (p : string) :
  Js.get args "path" = JStr p ->
  p <> "" ->
  Js.truthy (Js.get args "id") = false ->
  exists t1 r,
    run srv hist (RevA.resolve_page_id args) = (t1, Fulfilled r) /\
    Attempts lookup_by_path page_hit (RevA.generatePathVariations p) t1 /\
    match hit_page t1 with
    | None =>
        exists dbg,
          r = inl (text_result
                     ("Page not found for path: " ++ p ++ Str.nl ++ Str.nl ++ dbg)
                     true)
    | Some page => exists dbg, r = inr (Js.get page "id", dbg)
    end.
Proof.
  intros Hpath Hp Hid.
  unfold RevA.resolve_page_id. rewrite Hid, Hpath, (truthy_string Hp).
  cbn [negb andb string_receiver bind]. rewrite run_bind.
  match goal with
  | |- context [run srv hist (RevA.resolve_loop ?i ?vars ?d)] =>
      destruct (A_resolve_loop_run srv vars i d hist) as (t & page & dbg & E & A & P)
  end.
  rewrite E.
  destruct (hit_page t) as [pg|] eqn:Hp'.
  - subst page. rewrite (hit_page_truthy _ Hp').
    cbn. rewrite app_nil_r. do 2 eexists. split; [reflexivity|].
    split; [exact A|]. rewrite Hp'. eexists. reflexivity.
  - subst page. cbn. rewrite app_nil_r. do 2 eexists. split; [reflexivity|].
    split; [exact A|]. rewrite Hp'. eexists. reflexivity.
Qed.

Lemma startsWith_app3 (a b c : string) : Str.startsWith (a ++ b ++ c) (a ++ b) = true.
Proof.
  replace (a ++ b ++ c) with ((a ++ b) ++ c).
  - apply StrFacts.startsWith_app.
  - induction a as [|x a IH]; simpl; congruence.
Qed.

Lemma A_update_by_path (hist : Trace) (args : value) (p : string) :
  Js.get args "path" = JStr p ->
  p <> "" ->
  Js.has "id" args = false ->
  exists t result,
    run srv hist (RevA.wiki_update_page args) = (t, Fulfilled result) /\
    resolves_then_updates args (RevA.generatePathVariations p)
      ("Page not found for path: " ++ p) t result /\
    (hit_page t = None ->
     Str.startsWith (first_text result) ("Page not found for path: " ++ p) = true).
Proof.
  intros Hpath Hp Hno.
  assert (Hid : Js.truthy (Js.get args "id") = false).
  { now rewrite (get_absent _ _ Hno). }
  unfold RevA.wiki_update_page. rewrite (string_path_valid _ Hpath). cbn [negb].
  destruct (update_handler_run srv args (RevA.resolve_page_id args) hist)
    as (t2 & result & E & H).
  destruct (A_resolve_by_path hist _ Hpath Hp Hid) as (t1 & r & E1 & A & R).
  rewrite E1 in E, H. cbn [fst snd] in E, H. rewrite E.
  exists (t1 ++ t2)%list, result. split; [reflexivity|].
  pose proof (Attempts_nonempty A (variations_nonempty p)) as Ne.
  pose proof (Attempts_lookups A) as Lk.
  destruct (hit_page t1) as [page|] eqn:Hp'.
  - destruct R as [dbg ->]. split.
    + exists t1, t2. repeat (split; [assumption || reflexivity|]).
      rewrite Hp'.
      destruct H as [(T & -> & Err) | (T & o & -> & _)]; rewrite T.
      * now split.
      * now exists o.
    + intros N. exfalso. clear - Hp' N.
      induction t1 as [| [r o] t1 IH]; cbn [hit_page app] in *; [discriminate|].
      destruct (page_of o); [discriminate | now apply IH].
  - destruct R as [dbg ->]. destruct H as [-> ->]. rewrite app_nil_r.
    assert (S : Str.startsWith
                  (first_text
                     (text_result
                        ("Page not found for path: " ++ p ++ Str.nl ++ Str.nl ++ dbg)
                        true))
                  ("Page not found for path: " ++ p) = true).
    { cbn [first_text text_result content text].
      apply (startsWith_app3 "Page not found for path: " p). }
    split; [|intros _; exact S].
    exists t1, []. rewrite app_nil_r.
    repeat (split; [assumption || reflexivity|]).
    rewrite Hp'. repeat split. intros _. exact S.
Qed.

End UpdateByPath.

Section UnnamedUpdate.

Context {rt : Runtime}.
Variable srv : Server.

Lemma single_lookup_miss (v : string) (o : Outcome) :
  page_hit o = false ->
  Attempts lookup_by_path page_hit [v] [(lookup_by_path v, o)].
Proof. intros H. apply Attempts_miss; [exact H | constructor]. Qed.

(** The update handler of the unnamed revision, for a path and no id. *)
Lemma U_update_by_path (hist : Trace) (args : value) (p : string) :
  Js.get args "path" = JStr p ->
  p <> "" ->
  Js.has "id" args = false ->
  exists t result,
    run srv hist (Unnamed.wiki_update_page args) = (t, Fulfilled result) /\
    resolves_prints_updates args [Unnamed.normalizePath p]
      ("Page not found for path: " ++ Unnamed.normalizePath p) t result.
Proof.
  intros Hpath Hp Hno.
  unfold Unnamed.wiki_update_page, Unnamed.resolve_page_id.
  rewrite (string_path_valid _ Hpath), (get_absent _ _ Hno), Hpath, (truthy_string Hp).
  cbn [negb andb Js.truthy string_receiver bind].
  rewrite run_try_catch_bind, run_bind, run_request.
  fold (lookup_by_path (Unnamed.normalizePath p)).
  set (lookup := lookup_by_path (Unnamed.normalizePath p)).
  destruct (srv hist lookup) as [data | e] eqn:O.
  - destruct (found data "singleByPath") eqn:F; cbn [run app].
    + destruct (Js.truthy (Js.get (payload data "singleByPath") "id")) eqn:T;
        cbn [negb].
      * unfold ToString at 1.
        destruct (Js.printable (Js.get (payload data "singleByPath") "id")) eqn:Pi;
          cbn [bind].
        -- rewrite run_try_catch_bind, run_request.
           fold (update_request (Js.get (payload data "singleByPath") "id") args).
           set (upd := update_request (Js.get (payload data "singleByPath") "id") args).
           destruct (srv (hist ++ [(lookup, Resolved data)])%list upd) as [d | e2];
             unfold page_details, ToString; cbn;
             repeat match goal with
                    | |- context [if ?c then _ else _] => destruct c; cbn
                    end;
             (do 2 eexists; split; [reflexivity|];
              eexists [(lookup, Resolved data)], [(upd, _)];
              split; [reflexivity|]; split; [discriminate|];
              split; [apply Attempts_hit; now apply page_hit_found|];
              split; [reflexivity|];
              cbn [hit_page page_of]; rewrite F, T, Pi; now eexists).
        -- cbn. do 2 eexists. split; [reflexivity|].
           exists [(lookup, Resolved data)], [].
           split; [reflexivity|]. split; [discriminate|].
           split; [apply Attempts_hit; now apply page_hit_found|].
           split; [reflexivity|].
           cbn [hit_page page_of]. rewrite F, T, Pi. now split.
      * cbn. do 2 eexists. split; [reflexivity|].
        exists [(lookup, Resolved data)], [].
        split; [reflexivity|]. split; [discriminate|].
        split; [apply Attempts_hit; now apply page_hit_found|].
        split; [reflexivity|].
        cbn [hit_page page_of]. rewrite F, T. now split.
    + cbn. do 2 eexists. split; [reflexivity|].
      exists [(lookup, Resolved data)], [].
      split; [reflexivity|]. split; [discriminate|].
      split; [apply single_lookup_miss; now apply page_hit_missing|].
      split; [reflexivity|].
      cbn [hit_page page_of]. rewrite F. repeat split.
      intros _. cbn [first_text text_result content text].
      apply StrFacts.startsWith_refl.
  - cbn. do 2 eexists. split; [reflexivity|].
    exists [(lookup, Rejected e)], [].
    split; [reflexivity|]. split; [discriminate|].
    split; [now apply single_lookup_miss|].
    split; [reflexivity|].
    cbn [hit_page page_of]. repeat split.
    intros H. inversion H as [| x l [d Hd] _]. discriminate.
Qed.

End UnnamedUpdate.

(** C5, as stated, fails on revision A in two ways.  For the empty
    path the handler asks the server nothing and reports that the page
    id could not be determined.  When the lookup returns a page whose id
    is 0, the handler sends no update mutation either.  Both argument
    bags pass [isUpdatePageArgs]. *)
Lemma C5_counterexample :
  let empty := JObj [("path", JStr "")] in
  let home := JObj [("path", JStr "home")] in
  let page0 :=
    JObj [("pages",
           JObj [("singleByPath",
                  JObj [("id", JNum 0); ("path", JStr "ja/home");
                        ("title", JStr "Home")])])] in
  let run_empty := run offline [] (RevA.wiki_update_page (rt := sample_runtime) empty) in
  let run_page0 :=
    run (answering page0) [] (RevA.wiki_update_page (rt := sample_runtime) home) in
  let error := "Error updating page: Could not determine page ID" in
  isUpdatePageArgs empty = true /\
  fst run_empty = [] /\
  Str.startsWith (first_text (fulfilled_or (text_result "" false) (snd run_empty)))
    error = true /\
  isUpdatePageArgs home = true /\
  map fst (fst run_page0) = [lookup_by_path "ja/home"] /\
  Str.startsWith (first_text (fulfilled_or (text_result "" false) (snd run_page0)))
    error = true.
Proof. repeat split. Qed.

(** C5, amended. In revision A and in the unnamed revision, an update
    given a non-empty path and no id first looks the path up (revision A:
    the path variations in order, up to the first page found; the unnamed
    revision: the normalized path, once).  If no lookup finds a page, or
    the page found has a falsy id, the handler sends no update mutation
    and returns an error result; after lookups that all resolved without
    a page, it is the not-found text of the path.  If a lookup finds a
    page with a truthy id, the handler sends exactly one update mutation,
    for that id, and nothing after it -- in the unnamed revision, which
    prints the id first, provided the id can be converted to text, and
    otherwise no mutation and an error result. *)
Theorem C5_update_by_path
    (rt : Runtime) (srv : Server) (hist : Trace) (args : value) (p : string) :
  Js.get args "path" = JStr p ->
  p <> "" ->
  Js.has "id" args = false ->
  (exists t result,
      run srv hist (RevA.wiki_update_page args) = (t, Fulfilled result) /\
      resolves_then_updates args (RevA.generatePathVariations p)
        ("Page not found for path: " ++ p) t result /\
      (hit_page t = None ->
       Str.startsWith (first_text result) ("Page not found for path: " ++ p) = true)) /\
  (exists t result,
      run srv hist (Unnamed.wiki_update_page args) = (t, Fulfilled result) /\
      resolves_prints_updates args [Unnamed.normalizePath p]
        ("Page not found for path: " ++ Unnamed.normalizePath p) t result).
Proof.
  intros Hpath Hp Hno. split.
  - exact (A_update_by_path srv hist args Hpath Hp Hno).
  - exact (U_update_by_path srv hist args Hpath Hp Hno).
Qed.

Lemma C5_update_by_path_witness :
  exists t result,
    run offline [] (Unnamed.wiki_update_page (rt := sample_runtime)
                      (JObj [("path", JStr "home")])) = (t, Fulfilled result) /\
    resolves_prints_updates (JObj [("path", JStr "home")]) [Unnamed.normalizePath "home"]
      ("Page not found for path: " ++ Unnamed.normalizePath "home") t result.
Proof.
  refine (proj2 (C5_update_by_path sample_runtime offline []
                   (JObj [("path", JStr "home")]) (p := "home") _ _ _));
    [reflexivity | discriminate | reflexivity].
Defined.

(* ------------------------------------------------------------------ *)
(** * Creation with a single variant *)

Section SingleAttempt.

Context {rt : Runtime}.
Variable srv : Server.

Lemma says_multiple (text failed : string) :
  Str.includes failed "after multiple attempts" = true ->
  Str.startsWith text failed = true ->
  Str.includes text "after multiple attempts" = true.
Proof.
  intros I S. destruct (StrFacts.startsWith_inv _ _ S) as [rest ->].
  now apply StrFacts.includes_app_l.
Qed.

Lemma A_single_create (hist : Trace) (args : value) (p : string) :
  Js.get args "path" = JStr p ->
  isCreatePageArgs args = true ->
  Str.startsWith p "/" = true ->
  RevA.hasLangPrefix (RevA.normalizePath p) = true ->
  exists o result,
    run srv hist (RevA.wiki_create_page args) =
      ([(A_create_request args (RevA.normalizePath p), o)], Fulfilled result) /\
    (A_create_hit o = false ->
     isError result = true /\
     Str.includes (first_text result) "after multiple attempts" = true).
Proof.
  intros Hpath V S L.
  destruct (A_create_run srv hist _ Hpath V) as (t & result & E & A & H).
  rewrite (VariationFacts.single_variation p S L) in A.
  assert (T : exists o, t = [(A_create_request args (RevA.normalizePath p), o)]).
  { inversion A as [| v rest o Ho | v rest o t' Ho A']; subst.
    - now exists o.
    - inversion A'. now exists o. }
  destruct T as [o ->]. exists o, result. split; [exact E|].
  intros Ho. destruct H as [[_ Hit] | (_ & Err & St)].
  - inversion Hit as [x l Hx | x l Hx]; subst; cbn [snd] in *.
    + congruence.
    + inversion Hx.
  - split; [exact Err|].
    eapply says_multiple; [|exact St]. reflexivity.
Qed.

Lemma C_single_create (hist : Trace) (args : value) (p : string) :
  Js.get args "path" = JStr p ->
  isCreatePageArgs args = true ->
  Str.startsWith p "/" = true ->
  let req := mkReq CREATE_PAGE_MUTATION (requestParams (RevC.normalizePath p) args) in
  exists result,
    run srv hist (RevC.wiki_create_page args) =
      ([(req, srv hist req)], Fulfilled result) /\
    (C_create_hit (srv hist req) = false ->
     isError result = true /\
     Str.includes (first_text result) "after multiple attempts" = true).
Proof.
  intros Hpath V S req.
  unfold RevC.wiki_create_page, RevC.create_attempt. rewrite V, Hpath.
  cbn [negb string_receiver bind]. rewrite S. cbn [negb].
  rewrite run_try_catch_bind, run_try_catch_bind, run_request. fold req.
  assert (M : forall dbg,
             Str.includes
               (first_text
                  (text_result (RevC.create_failed_text ++ Str.nl ++ Str.nl ++ dbg) true))
               "after multiple attempts" = true).
  { intros dbg. cbn [first_text text_result content text].
    apply StrFacts.includes_app_l. reflexivity. }
  destruct (srv hist req) as [data | e]; cbn [C_create_hit].
  - destruct (found data "create") eqn:F; cbn [andb].
    + destruct (Js.truthy (Js.get (payload data "create") "responseResult") &&
                negb (Js.truthy (Js.get (Js.get (payload data "create")
                                           "responseResult") "succeeded"))) eqn:G;
        cbn [negb andb].
      * cbn. eexists. split; [reflexivity|]. intros _. split; [reflexivity | apply M].
      * destruct (Js.truthy (Js.get (payload data "create") "page")) eqn:Pg.
        -- rewrite page_details_run.
           destruct (details_printable (Js.get (payload data "create") "page")).
           ++ cbn. eexists. split; [reflexivity|]. discriminate.
           ++ cbn. eexists. split; [reflexivity|]. intros _.
              split; [reflexivity | apply M].
        -- cbn. eexists. split; [reflexivity|]. intros _.
           split; [reflexivity | apply M].
    + cbn. eexists. split; [reflexivity|]. intros _. split; [reflexivity | apply M].
  - cbn. eexists. split; [reflexivity|]. intros _. split; [reflexivity | apply M].
Qed.

End SingleAttempt.

(** C6, on the code. When the path has a leading slash (and, in
    revision A, a language segment after it) the create handler sends a
    single mutation; if that one fails, the error text still says
    "after multiple attempts". *)
Theorem C6_single_attempt_says_multiple
    (rt : Runtime) (srv : Server) (hist : Trace) (args : value) (p : string) :
  Js.get args "path" = JStr p ->
  isCreatePageArgs args = true ->
  Str.startsWith p "/" = true ->
  (RevA.hasLangPrefix (RevA.normalizePath p) = true ->
   exists o result,
     run srv hist (RevA.wiki_create_page args) =
       ([(A_create_request args (RevA.normalizePath p), o)], Fulfilled result) /\
     (A_create_hit o = false ->
      isError result = true /\
      Str.includes (first_text result) "after multiple attempts" = true)) /\
  (exists o result,
     run srv hist (RevC.wiki_create_page args) =
       ([(mkReq CREATE_PAGE_MUTATION (requestParams (RevC.normalizePath p) args), o)],
        Fulfilled result) /\
     (C_create_hit o = false ->
      isError result = true /\
      Str.includes (first_text result) "after multiple attempts" = true)).
Proof.
  intros Hpath V S. split.
  - intros L. exact (A_single_create srv hist args Hpath V S L).
  - destruct (C_single_create srv hist args Hpath V S) as (result & E & H).
    exists (srv hist (mkReq CREATE_PAGE_MUTATION
                        (requestParams (RevC.normalizePath p) args))), result.
    split; [exact E | exact H].
Qed.

Lemma C6_single_attempt_says_multiple_witness :
  let args := JObj [("path", JStr "/ja/home"); ("title", JStr "T");
                    ("content", JStr "C")] in
  exists o result,
    run offline [] (RevA.wiki_create_page (rt := sample_runtime) args) =
      ([(A_create_request (rt := sample_runtime) args "ja/home", o)],
       Fulfilled result) /\
    (A_create_hit o = false ->
     isError result = true /\
     Str.includes (first_text result) "after multiple attempts" = true).
Proof.
  intros args.
  refine (proj1 (C6_single_attempt_says_multiple sample_runtime offline [] args
                   (p := "/ja/home") _ _ _) _); reflexivity.
Defined.

(* ------------------------------------------------------------------ *)
(** * Calls the dispatcher answers without a request *)

Section DispatchEdges.

Context {rt : Runtime}.
Variables l g c u : value -> Prog ToolCallResult.
Variable srv : Server.

Lemma dispatch_no_arguments (hist : Trace) (tool : string) (args : value) :
  Js.truthy args = false ->
  run srv hist (dispatch l g c u (mkParams tool args)) =
    ([], Fulfilled (text_result "Error: No arguments provided" true)).
Proof.
  intros T. unfold dispatch, dispatch_body. cbn [arguments name]. now rewrite T.
Qed.

Lemma dispatch_unknown (hist : Trace) (tool : string) (args : value) :
  Js.truthy args = true ->
  tool <> "wiki_list_pages" -> tool <> "wiki_get_page" ->
  tool <> "wiki_create_page" -> tool <> "wiki_update_page" ->
  run srv hist (dispatch l g c u (mkParams tool args)) =
    ([], Fulfilled (text_result ("Unknown tool: " ++ tool) true)).
Proof.
  intros T N1 N2 N3 N4. unfold dispatch, dispatch_body. cbn [arguments name].
  rewrite T. cbn [negb].
  apply String.eqb_neq in N1, N2, N3, N4. now rewrite N1, N2, N3, N4.
Qed.

End DispatchEdges.

(** X1. Without an argument bag (a missing, [null] or otherwise falsy
    [arguments]) the CallTool handler of every revision asks the server
    nothing and answers "Error: No arguments provided", flagged as an
    error, whatever the tool name. *)
Theorem X1_no_arguments
    (rt : Runtime) (srv : Server) (hist : Trace) (tool : string) (args : value) :
  Js.truthy args = false ->
  let answer := ([], Fulfilled (text_result "Error: No arguments provided" true)) in
  run srv hist (RevA.CallTool (mkParams tool args)) = answer /\
  run srv hist (RevB.CallTool (mkParams tool args)) = answer /\
  run srv hist (RevC.CallTool (mkParams tool args)) = answer /\
  run srv hist (Unnamed.CallTool (mkParams tool args)) = answer.
Proof.
  intros T answer. repeat split; now apply dispatch_no_arguments.
Qed.

Lemma X1_no_arguments_witness :
  run offline [] (RevA.CallTool (rt := sample_runtime)
                    (mkParams "wiki_list_pages" JUndefined)) =
    ([], Fulfilled (text_result "Error: No arguments provided" true)).
Proof.
  exact (proj1 (X1_no_arguments sample_runtime offline [] "wiki_list_pages"
                  JUndefined eq_refl)).
Defined.

(** X2. A tool name that is none of the four, with an argument bag, is
    answered "Unknown tool: <name>", flagged as an error, without a
    request; the match on the name is exact. *)
Theorem X2_unknown_tool
    (rt : Runtime) (srv : Server) (hist : Trace) (tool : string) (args : value) :
  Js.truthy args = true ->
  tool <> "wiki_list_pages" -> tool <> "wiki_get_page" ->
  tool <> "wiki_create_page" -> tool <> "wiki_update_page" ->
  let answer := ([], Fulfilled (text_result ("Unknown tool: " ++ tool) true)) in
  run srv hist (RevA.CallTool (mkParams tool args)) = answer /\
  run srv hist (RevB.CallTool (mkParams tool args)) = answer /\
  run srv hist (RevC.CallTool (mkParams tool args)) = answer /\
  run srv hist (Unnamed.CallTool (mkParams tool args)) = answer.
Proof.
  intros T N1 N2 N3 N4 answer. repeat split; now apply dispatch_unknown.
Qed.

Lemma X2_unknown_tool_witness :
  run offline [] (Unnamed.CallTool (rt := sample_runtime)
                    (mkParams "Wiki_Get_Page" (JObj [("id", JNum 1)]))) =
    ([], Fulfilled (text_result "Unknown tool: Wiki_Get_Page" true)).
Proof.
  refine (proj2 (proj2 (proj2
            (X2_unknown_tool sample_runtime offline [] (tool := "Wiki_Get_Page")
               (JObj [("id", JNum 1)]) eq_refl _ _ _ _)))); discriminate.
Defined.

(** X3. A get or update call whose argument bag fails the validator
    (no numeric [id] and no string [path], or no object at all) makes no
    request and is answered with an error text by the catch-all:
    "Error: Invalid arguments for <tool>" when the bag is truthy, and
    "Error: No arguments provided" when it is falsy, every falsy bag
    being invalid. *)
Theorem X3_invalid_get_update_arguments
    (rt : Runtime) (srv : Server) (hist : Trace) (args : value) :
  isGetPageArgs args = false ->
  let answer tool :=
    ([], Fulfilled
           (text_result
              (if Js.truthy args
               then "Error: Invalid arguments for " ++ tool
               else "Error: No arguments provided") true)) in
  run srv hist (RevA.CallTool (mkParams "wiki_get_page" args)) = answer "wiki_get_page" /\
  run srv hist (RevB.CallTool (mkParams "wiki_get_page" args)) = answer "wiki_get_page" /\
  run srv hist (RevC.CallTool (mkParams "wiki_get_page" args)) = answer "wiki_get_page" /\
  run srv hist (Unnamed.CallTool (mkParams "wiki_get_page" args)) =
    answer "wiki_get_page" /\
  run srv hist (RevA.CallTool (mkParams "wiki_update_page" args)) =
    answer "wiki_update_page" /\
  run srv hist (RevB.CallTool (mkParams "wiki_update_page" args)) =
    answer "wiki_update_page" /\
  run srv hist (RevC.CallTool (mkParams "wiki_update_page" args)) =
    answer "wiki_update_page" /\
  run srv hist (Unnamed.CallTool (mkParams "wiki_update_page" args)) =
    answer "wiki_update_page".
Proof.
  intros V answer. unfold answer.
  assert (V' : isUpdatePageArgs args = false) by exact V.
  destruct (Js.truthy args) eqn:T.
  - repeat split;
      unfold RevA.CallTool, RevB.CallTool, RevC.CallTool, Unnamed.CallTool,
        dispatch, dispatch_body;
      cbn [arguments name String.eqb Ascii.eqb Bool.eqb];
      rewrite T; cbn [negb];
      unfold RevA.wiki_get_page, RevB.wiki_get_page, RevC.wiki_get_page,
        Unnamed.wiki_get_page, RevA.wiki_update_page, RevB.wiki_update_page,
        RevC.wiki_update_page, Unnamed.wiki_update_page;
      rewrite ?V, ?V'; reflexivity.
  - repeat split; now apply dispatch_no_arguments.
Qed.

(** An object without an id or a path, and [null]. *)
Lemma X3_invalid_get_update_arguments_witness :
  run offline [] (RevA.CallTool (rt := sample_runtime)
                    (mkParams "wiki_get_page" (JObj [("title", JStr "Home")]))) =
    ([], Fulfilled (text_result "Error: Invalid arguments for wiki_get_page" true)) /\
  run offline [] (RevC.CallTool (rt := sample_runtime)
                    (mkParams "wiki_update_page" JNull)) =
    ([], Fulfilled (text_result "Error: No arguments provided" true)).
Proof.
  split.
  - exact (proj1 (X3_invalid_get_update_arguments sample_runtime offline []
                    (JObj [("title", JStr "Home")]) eq_refl)).
  - exact (proj1 (proj2 (proj2 (proj2 (proj2 (proj2 (proj2
             (X3_invalid_get_update_arguments sample_runtime offline []
                JNull eq_refl)))))))).
Defined.

(** X4. A create call whose argument bag fails [isCreatePageArgs] (no
    string [path], [title] or [content]), and a list call whose bag
    fails [isListPagesArgs] (not an object), make no request and are
    answered by the catch-all: "Error: Invalid arguments for <tool>"
    when the bag is truthy, "Error: No arguments provided" when it is
    falsy. *)
Theorem X4_invalid_create_list_arguments
    (rt : Runtime) (srv : Server) (hist : Trace) (args : value) :
  let answer tool :=
    ([], Fulfilled
           (text_result
              (if Js.truthy args
               then "Error: Invalid arguments for " ++ tool
               else "Error: No arguments provided") true)) in
  (isCreatePageArgs args = false ->
   run srv hist (RevA.CallTool (mkParams "wiki_create_page" args)) =
     answer "wiki_create_page" /\
   run srv hist (RevB.CallTool (mkParams "wiki_create_page" args)) =
     answer "wiki_create_page" /\
   run srv hist (RevC.CallTool (mkParams "wiki_create_page" args)) =
     answer "wiki_create_page" /\
   run srv hist (Unnamed.CallTool (mkParams "wiki_create_page" args)) =
     answer "wiki_create_page") /\
  (isListPagesArgs args = false ->
   run srv hist (RevA.CallTool (mkParams "wiki_list_pages" args)) =
     answer "wiki_list_pages" /\
   run srv hist (RevB.CallTool (mkParams "wiki_list_pages" args)) =
     answer "wiki_list_pages" /\
   run srv hist (RevC.CallTool (mkParams "wiki_list_pages" args)) =
     answer "wiki_list_pages" /\
   run srv hist (Unnamed.CallTool (mkParams "wiki_list_pages" args)) =
     answer "wiki_list_pages").
Proof.
  intros answer. unfold answer.
  destruct (Js.truthy args) eqn:T.
  - split; intros V; repeat split;
      unfold RevA.CallTool, RevB.CallTool, RevC.CallTool, Unnamed.CallTool,
        dispatch, dispatch_body;
      cbn [arguments name String.eqb Ascii.eqb Bool.eqb];
      rewrite T; cbn [negb];
      unfold RevA.wiki_create_page, RevB.wiki_create_page, RevC.wiki_create_page,
        Unnamed.wiki_create_page, wiki_list_pages;
      rewrite V; reflexivity.
  - split; intros V; repeat split; now apply dispatch_no_arguments.
Qed.

(** A bag without content, and a list call with a number for a bag. *)
Lemma X4_invalid_create_list_arguments_witness :
  run offline [] (Unnamed.CallTool (rt := sample_runtime)
                    (mkParams "wiki_create_page"
                       (JObj [("path", JStr "a"); ("title", JStr "T")]))) =
    ([], Fulfilled (text_result "Error: Invalid arguments for wiki_create_page" true)) /\
  run offline [] (RevB.CallTool (rt := sample_runtime)
                    (mkParams "wiki_list_pages" (JNum 3))) =
    ([], Fulfilled (text_result "Error: Invalid arguments for wiki_list_pages" true)).
Proof.
  split.
  - refine (proj2 (proj2 (proj2 (proj1
              (X4_invalid_create_list_arguments sample_runtime offline []
                 (JObj [("path", JStr "a"); ("title", JStr "T")])) _))));
      reflexivity.
  - refine (proj1 (proj2 (proj2
              (X4_invalid_create_list_arguments sample_runtime offline []
                 (JNum 3)) _)));
      reflexivity.
Defined.

(* ------------------------------------------------------------------ *)
(** * The list of path variations *)

Module VariationLists.
Import RevA.

Lemma append_cancel (a b n : string) : a ++ n = b ++ n -> a = b.
Proof.
  revert b. induction a as [|x a IH]; intros [|y b] E; simpl in E.
  - reflexivity.
  - exfalso. apply (f_equal String.length) in E. simpl in E.
    rewrite VariationFacts.length_append in E. lia.
  - exfalso. apply (f_equal String.length) in E. simpl in E.
    rewrite VariationFacts.length_append in E. lia.
  - injection E as -> E. f_equal. now apply IH.
Qed.

Lemma eqb_prefixes (a b n : string) : a <> b -> String.eqb (a ++ n) (b ++ n) = false.
Proof.
  intros N. apply String.eqb_neq. intros E. apply N. exact (append_cancel _ _ _ E).
Qed.

Lemma eqb_prefix_none (a n : string) : a <> "" -> String.eqb (a ++ n) n = false.
Proof. intros N. now apply (@eqb_prefixes a "" n). Qed.

Lemma unslashed (p : string) : Str.startsWith p "/" = false -> normalizePath p = p.
Proof. intros S. unfold normalizePath. now rewrite S. Qed.

Lemma slashed (p : string) :
  Str.startsWith p "/" = true -> p = "/" ++ normalizePath p.
Proof.
  intros S. unfold normalizePath. rewrite S.
  destruct p as [|c p]; [discriminate|]. cbn [Str.startsWith] in S.
  apply andb_true_iff in S. destruct S as [S _].
  apply Ascii.eqb_eq in S. now subst c.
Qed.

(** The list, case by case. *)
Lemma variations_cases (p : string) :
  let n := normalizePath p in
  generatePathVariations p =
    match hasLangPrefix n, Str.startsWith p "/" with
    | true, true => [n]
    | true, false => [n; "/" ++ n]
    | false, true => ["ja/" ++ n; "/ja/" ++ n; n; "en/" ++ n; "/en/" ++ n]
    | false, false =>
        ["ja/" ++ n; "/ja/" ++ n; n; "/" ++ n; "en/" ++ n; "/en/" ++ n]
    end.
Proof.
  intros n. unfold generatePathVariations. fold n.
  destruct (hasLangPrefix n) eqn:L; destruct (Str.startsWith p "/") eqn:S;
    cbn [negb andb].
  - now rewrite VariationFacts.mem_single.
  - rewrite VariationFacts.mem_single. cbn [negb].
    unfold n. rewrite (unslashed p S).
    unfold Str.mem. cbn [existsb].
    now rewrite (@eqb_prefix_none "/" p) by discriminate.
  - now rewrite VariationFacts.mem_ja.
  - rewrite VariationFacts.mem_ja. cbn [negb app].
    unfold n. rewrite (unslashed p S).
    unfold Str.mem. cbn [existsb].
    rewrite (@eqb_prefixes "/" "ja/" p), (@eqb_prefixes "/" "/ja/" p),
      (@eqb_prefix_none "/" p) by discriminate.
    reflexivity.
Qed.

Lemma prefix_none (a n : string) : a ++ n = n -> a = "".
Proof. intros E. now apply (append_cancel a "" n). Qed.

Lemma none_prefix (a n : string) : n = a ++ n -> a = "".
Proof. intros E. symmetry in E. now apply prefix_none in E. Qed.

(** Two entries of a list of prefixed paths are equal: impossible. *)
Ltac clash :=
  match goal with
  | H : _ ++ ?n = _ ++ ?n |- _ => apply append_cancel in H; discriminate H
  | H : _ ++ ?n = ?n |- _ => apply prefix_none in H; discriminate H
  | H : ?n = _ ++ ?n |- _ => apply none_prefix in H; discriminate H
  end.

Ltac not_in :=
  let H := fresh "H" in
  cbn [In]; intros H; repeat (destruct H as [H | H]; [clash |]); destruct H.

Ltac distinct := repeat (constructor; [not_in |]); constructor.

Lemma variations_distinct (p : string) : NoDup (generatePathVariations p).
Proof.
  rewrite variations_cases.
  destruct (hasLangPrefix _), (Str.startsWith p "/"); distinct.
Qed.

Lemma variations_length (p : string) :
  1 <= length (generatePathVariations p) <= 6.
Proof.
  rewrite variations_cases.
  destruct (hasLangPrefix _), (Str.startsWith p "/"); cbn [length]; lia.
Qed.

Lemma variations_prefixed (p : string) :
  Forall (fun v => exists a, In a variation_prefixes /\ v = a ++ normalizePath p)
         (generatePathVariations p).
Proof.
  rewrite variations_cases. unfold variation_prefixes.
  destruct (hasLangPrefix _), (Str.startsWith p "/");
    repeat (constructor;
            [first [ exists ""; split; [cbn [In]; tauto | reflexivity]
                   | exists "/"; split; [cbn [In]; tauto | reflexivity]
                   | exists "ja/"; split; [cbn [In]; tauto | reflexivity]
                   | exists "/ja/"; split; [cbn [In]; tauto | reflexivity]
                   | exists "en/"; split; [cbn [In]; tauto | reflexivity]
                   | exists "/en/"; split; [cbn [In]; tauto | reflexivity] ]|]);
    constructor.
Qed.

Lemma slashed_not_tried (p : string) :
  Str.startsWith p "/" = true -> ~ In p (generatePathVariations p).
Proof.
  intros S. rewrite variations_cases, S.
  pose proof (slashed p S) as E.
  set (n := normalizePath p) in *. clearbody n. subst p.
  destruct (hasLangPrefix n); not_in.
Qed.

End VariationLists.

(** X5. [generatePathVariations] never lists a path twice, and lists
    between one and six paths. *)
Theorem X5_variations_distinct_and_bounded (p : string) :
  NoDup (RevA.generatePathVariations p) /\
  1 <= length (RevA.generatePathVariations p) <= 6.
Proof.
  split; [apply VariationLists.variations_distinct
         | apply VariationLists.variations_length].
Qed.

(** X6. Every variation is the normalized path behind one of the
    prefixes "", "/", "ja/", "/ja/", "en/" and "/en/": the path itself is
    never altered. *)
Theorem X6_variations_keep_the_path (p : string) :
  Forall (fun v => exists a, In a variation_prefixes /\ v = a ++ RevA.normalizePath p)
         (RevA.generatePathVariations p).
Proof. apply VariationLists.variations_prefixed. Qed.

(** X7. A path given with a leading slash is not one of its own
    variations: revision A never asks the server for it as it was given. *)
Theorem X7_slashed_path_is_not_a_variation (p : string) :
  Str.startsWith p "/" = true -> ~ In p (RevA.generatePathVariations p).
Proof. apply VariationLists.slashed_not_tried. Qed.

Lemma X7_slashed_path_is_not_a_variation_witness :
  ~ In "/docs" (RevA.generatePathVariations "/docs").
Proof. exact (X7_slashed_path_is_not_a_variation "/docs" eq_refl). Defined.

(* ------------------------------------------------------------------ *)
(** * What a run of attempts looks like *)

Section AttemptFacts.

Variable mk : string -> GqlRequest.
Variable hit : Outcome -> bool.

Lemma Attempts_length (vars : list string) (t : Trace) :
  Attempts mk hit vars t -> length t <= length vars.
Proof. induction 1; cbn [length]; lia. Qed.

Lemma Attempts_incl (vars : list string) (t : Trace) (r : GqlRequest) :
  Attempts mk hit vars t -> In r (map fst t) -> In r (map mk vars).
Proof.
  induction 1 as [| v rest o H | v rest o t H A IH]; cbn [map In fst].
  - tauto.
  - intros [E | []]. now left.
  - intros [E | I]; [now left | right; now apply IH].
Qed.

Lemma Attempts_distinct (vars : list string) (t : Trace) :
  Attempts mk hit vars t -> NoDup (map mk vars) -> NoDup (map fst t).
Proof.
  induction 1 as [| v rest o H | v rest o t H A IH]; cbn [map fst]; intros N.
  - constructor.
  - constructor; [intros [] | constructor].
  - inversion N as [| x l Nx Nl]; subst. constructor; [|now apply IH].
    intros I. apply Nx. eapply Attempts_incl; eassumption.
Qed.

(** Nothing is attempted after a hit. *)
Lemma Attempts_hit_last (vars : list string) (t : Trace) :
  Attempts mk hit vars t ->
  forall earlier x later,
    t = (earlier ++ x :: later)%list -> hit (snd x) = true -> later = [].
Proof.
  induction 1 as [| v rest o H | v rest o t H A IH]; intros earlier x later E Hx.
  - destruct earlier; discriminate.
  - destruct earlier as [| y earlier]; cbn [app] in E.
    + now injection E as _ <-.
    + injection E as _ E. destruct earlier; discriminate.
  - destruct earlier as [| y earlier]; cbn [app] in E.
    + injection E as <- _. cbn [snd] in Hx. congruence.
    + injection E as _ E. eapply IH; eassumption.
Qed.

Lemma map_distinct (vars : list string) :
  (forall a b, mk a = mk b -> a = b) -> NoDup vars -> NoDup (map mk vars).
Proof.
  intros Inj. induction 1 as [| v rest Nv _ IH]; cbn [map]; constructor; [|exact IH].
  intros I. apply in_map_iff in I. destruct I as (w & E & Iw).
  apply Inj in E. now subst w.
Qed.

End AttemptFacts.

Section GetByPathA.

Context {rt : Runtime}.
Variable srv : Server.

Lemma lookup_by_path_inj (a b : string) : lookup_by_path a = lookup_by_path b -> a = b.
Proof. now intros [= ->]. Qed.

End GetByPathA.

(** X8. In revision A, a get by a non-empty path (no truthy id) looks
    up the entries of [generatePathVariations], in order and up to the
    first page found: between one and six lookups by path, never two for
    the same path.  When no lookup finds a page the call is fulfilled
    with an error that names the path as it was given.  When one does,
    the call is fulfilled with that page, as a heading with the title
    and then the content -- unless the title or the content cannot be
    converted to text, and then the branch throws the engine's TypeError
    to the catch-all, the result being built outside the [try]. *)
Theorem X8_get_by_path_lookups_and_result
    (rt : Runtime) (srv : Server) (hist : Trace) (args : value) (p : string) :
  Js.get args "path" = JStr p ->
  p <> "" ->
  Js.truthy (Js.get args "id") = false ->
  exists t s,
    run srv hist (RevA.wiki_get_page args) = (t, s) /\
    Attempts lookup_by_path page_hit (RevA.generatePathVariations p) t /\
    1 <= length t <= 6 /\
    NoDup (map fst t) /\
    match hit_page t with
    | Some page =>
        if page_printable page
        then
          exists debug,
            s = Fulfilled
                  (text_result
                     ("# " ++ to_string (Js.get page "title") ++ Str.nl ++ Str.nl ++
                      to_string (Js.get page "content") ++ Str.nl ++ Str.nl ++ debug)
                     false)
        else s = Threw (TypeError cannot_convert)
    | None =>
        exists debug,
          s = Fulfilled
                (text_result
                   ("Page not found for path: " ++ p ++ Str.nl ++ Str.nl ++ debug) true)
    end.
Proof.
  intros Hpath Hp Hid.
  destruct (A_get_by_path_run srv hist _ Hpath Hp Hid) as (t & s & E & A & R).
  exists t, s. split; [exact E|]. split; [exact A|].
  pose proof (VariationLists.variations_length p) as [_ L6].
  pose proof (Attempts_length A) as L.
  pose proof (Attempts_nonempty A (variations_nonempty p)) as Ne.
  split; [|split; [|exact R]].
  - destruct t; [congruence | cbn [length] in *; lia].
  - apply (Attempts_distinct A).
    apply map_distinct; [exact lookup_by_path_inj|].
    apply VariationLists.variations_distinct.
Qed.

(** A page whose title is an object with a [toString] property of its
    own, found at the first lookup. *)
Lemma X8_get_by_path_lookups_and_result_witness :
  let page := JObj [("title", JObj [("toString", JNum 1)]); ("content", JStr "C")] in
  let data := JObj [("pages", JObj [("singleByPath", page)])] in
  run (answering data) [] (RevA.wiki_get_page (rt := sample_runtime)
                             (JObj [("path", JStr "en/guide")])) =
    ([(lookup_by_path "en/guide", Resolved data)],
     Threw (TypeError (rt := sample_runtime) cannot_convert)).
Proof.
  intros page data.
  destruct (X8_get_by_path_lookups_and_result sample_runtime (answering data) []
              (JObj [("path", JStr "en/guide")]) (p := "en/guide")
              eq_refl ltac:(discriminate) eq_refl)
    as (t & s & E & _ & _ & _ & R).
  injection E as <- <-. cbn in R. subst. reflexivity.
Defined.

(** X9. In revision A, a create call with valid arguments is always
    fulfilled, after create mutations for the entries of
    [generatePathVariations], in order and up to the first response the
    loop returns on -- one that reports success with a page whose
    title, id and path can be printed: between one and six mutations,
    never two for the same path and none after that response.  The
    result is free of the error flag exactly when there was one. *)
Theorem X9_create_attempts
    (rt : Runtime) (srv : Server) (hist : Trace) (args : value) (p : string) :
  Js.get args "path" = JStr p ->
  isCreatePageArgs args = true ->
  exists t result,
    run srv hist (RevA.wiki_create_page args) = (t, Fulfilled result) /\
    Attempts (A_create_request args) A_create_hit (RevA.generatePathVariations p) t /\
    1 <= length t <= 6 /\
    NoDup (map fst t) /\
    (forall earlier x later,
        t = (earlier ++ x :: later)%list -> A_create_hit (snd x) = true ->
        later = []) /\
    (isError result = false <-> Exists (fun x => A_create_hit (snd x) = true) t).
Proof.
  intros Hpath V.
  destruct (A_create_run srv hist _ Hpath V) as (t & result & E & A & R).
  exists t, result. split; [exact E|]. split; [exact A|].
  pose proof (VariationLists.variations_length p) as [_ L6].
  pose proof (Attempts_length A) as L.
  pose proof (Attempts_nonempty A (variations_nonempty p)) as Ne.
  repeat split.
  - destruct t; [congruence | cbn [length]; lia].
  - lia.
  - apply (Attempts_distinct A).
    apply map_distinct; [|apply VariationLists.variations_distinct].
    intros a b. unfold A_create_request, RevA.baseParams. cbn [Js.set_field String.eqb Ascii.eqb Bool.eqb].
    now intros [= ->].
  - exact (Attempts_hit_last A).
  - intros F. destruct R as [[_ X] | (_ & Err & _)]; [exact X | congruence].
  - intros X. destruct R as [[F _] | (M & _ & _)]; [exact F|].
    apply Exists_exists in X. destruct X as (x & Ix & Hx).
    rewrite Forall_forall in M. specialize (M _ Ix). congruence.
Qed.

(** A server that reports every creation a success, with a page whose
    title cannot be printed. *)
Lemma X9_create_attempts_witness :
  let args := JObj [("path", JStr "notes"); ("title", JStr "T"); ("content", JStr "C")] in
  let created :=
    JObj [("pages",
           JObj [("create",
                  JObj [("responseResult", JObj [("succeeded", JBool true)]);
                        ("page", JObj [("id", JNum 1); ("path", JStr "notes");
                                       ("title", JObj [("toString", JNum 1)])])])])] in
  exists t result,
    run (answering created) [] (RevA.wiki_create_page (rt := sample_runtime) args) =
      (t, Fulfilled result) /\
    Attempts (A_create_request (rt := sample_runtime) args) A_create_hit
      (RevA.generatePathVariations "notes") t /\
    1 <= length t <= 6 /\
    NoDup (map fst t) /\
    (forall earlier x later,
        t = (earlier ++ x :: later)%list -> A_create_hit (snd x) = true ->
        later = []) /\
    (isError result = false <-> Exists (fun x => A_create_hit (snd x) = true) t).
Proof.
  intros args created.
  refine (X9_create_attempts sample_runtime (answering created) [] args
            (p := "notes") _ _);
    reflexivity.
Defined.

(* ------------------------------------------------------------------ *)
(** * Getting a page by id *)

(** X10. Whenever the [id] argument is truthy (a number other than 0,
    but also a non-empty string or an object beside a valid path),
    revisions A, B and C make exactly one request, the lookup by that
    id, and never look at the path.  A rejected request is reported as
    a fetch error with the transport's message.  A response with a page
    gives the page as a heading and its content, and one without gives
    the error that names the id; both texts are built after the [try],
    so when the title, the content or the id cannot be converted to
    text the branch throws the engine's TypeError instead. *)
Theorem X10_get_by_id_result
    (rt : Runtime) (srv : Server) (hist : Trace) (args : value) :
  isGetPageArgs args = true ->
  Js.truthy (Js.get args "id") = true ->
  let id := Js.get args "id" in
  let lookup := mkReq GET_PAGE_BY_ID_QUERY [("id", id)] in
  forall handler,
    handler = RevA.wiki_get_page \/ handler = RevB.wiki_get_page \/
    handler = RevC.wiki_get_page ->
    exists s,
      run srv hist (handler args) = ([(lookup, srv hist lookup)], s) /\
      match srv hist lookup with
      | Resolved data =>
          if found data "single"
          then
            if page_printable (payload data "single")
            then
              exists debug,
                s = Fulfilled
                      (text_result
                         ("# " ++ to_string (Js.get (payload data "single") "title") ++
                          Str.nl ++ Str.nl ++
                          to_string (Js.get (payload data "single") "content") ++
                          Str.nl ++ Str.nl ++ debug) false)
            else s = Threw (TypeError cannot_convert)
          else
            if Js.printable id
            then
              exists debug,
                s = Fulfilled
                      (text_result
                         ("Page not found for ID: " ++ to_string id ++
                          Str.nl ++ Str.nl ++ debug) true)
            else s = Threw (TypeError cannot_convert)
      | Rejected e =>
          exists debug,
            s = Fulfilled
                  (text_result
                     ("Error fetching page: " ++ error_text e ++
                      Str.nl ++ Str.nl ++ debug) true)
      end.
Proof.
  intros V T id lookup handler H.
  assert (G : run srv hist (handler args) =
              run srv hist
                (r <- try_catch
                        (pd <- RevA.get_by_id id;; Ret (inr pd))
                        (fun error =>
                           Ret (inl (text_result
                                       ("Error fetching page: " ++ error_text error ++
                                        Str.nl ++ Str.nl ++
                                        debugLog "GET PAGE ERROR" (error_report error))
                                       true)));;
                 match r with
                 | inl result => Ret result
                 | inr (page, debugInfo) => page_result args page debugInfo
                 end)).
  { destruct H as [-> | [-> | ->]];
      unfold RevA.wiki_get_page, RevB.wiki_get_page, RevC.wiki_get_page;
      rewrite V, T; reflexivity. }
  rewrite G. clear G. unfold RevA.get_by_id.
  rewrite run_bind, run_try_catch, run_bind, run_bind, run_request.
  fold lookup. destruct (srv hist lookup) as [data | e].
  - destruct (found data "single") eqn:F.
    + assert (Tp : Js.truthy (payload data "single") = true).
      { unfold found in F. apply andb_true_iff in F. now destruct F. }
      cbn [run bind try_catch app fst snd]. rewrite page_result_run, Tp.
      destruct (page_printable (payload data "single")); cbn [run app];
        eexists; (split; [reflexivity|]); [eexists; reflexivity | reflexivity].
    + cbn [run bind try_catch app fst snd]. rewrite page_result_run.
      cbn [Js.truthy]. rewrite T. unfold id.
      destruct (Js.printable (Js.get args "id")); cbn [run app];
        eexists; (split; [reflexivity|]); [eexists; reflexivity | reflexivity].
  - cbn. eexists. split; [reflexivity|]. eexists. reflexivity.
Qed.

(** An id that is an object, valid beside a string path; no page. *)
Lemma X10_get_by_id_result_witness :
  let id := JObj [("toString", JStr "x")] in
  let args := JObj [("id", id); ("path", JStr "home")] in
  let lookup := mkReq GET_PAGE_BY_ID_QUERY [("id", id)] in
  run (answering (JObj [])) [] (RevC.wiki_get_page (rt := sample_runtime) args) =
    ([(lookup, Resolved (JObj []))],
     Threw (TypeError (rt := sample_runtime) cannot_convert)).
Proof.
  intros id args lookup.
  destruct (@X10_get_by_id_result sample_runtime (answering (JObj [])) [] args
              eq_refl eq_refl _ (or_intror (or_intror eq_refl))) as (s & E & R).
  cbn in R. subst s. exact E.
Defined.

Ltac edge :=
  cbn; eexists; (split; [reflexivity |]);
  repeat split; intros; try congruence; try reflexivity;
  try match goal with
      | H : _ = true |- _ => rewrite ?andb_false_r in H; discriminate
      end.

(** X11. The unnamed revision, for a truthy [id], also makes exactly
    the one lookup by id, but reads the response unguarded: a rejected
    request gives the transport's message, and a response without
    [pages] is reported as the engine's TypeError and not as a missing
    page.  A response whose [pages] has no page gives the error naming
    the id, and a page is shown as a heading and its content, with
    nothing appended; these two texts are built after the [try], and
    the branch throws where the id, the title or the content cannot be
    converted to text. *)
Theorem X11_unnamed_get_by_id
    (rt : Runtime) (srv : Server) (hist : Trace) (args : value) :
  isGetPageArgs args = true ->
  Js.truthy (Js.get args "id") = true ->
  let id := Js.get args "id" in
  let lookup := mkReq GET_PAGE_BY_ID_QUERY [("id", id)] in
  exists s,
    run srv hist (Unnamed.wiki_get_page args) = ([(lookup, srv hist lookup)], s) /\
    match srv hist lookup with
    | Resolved data =>
        (found data "single" = true ->
         s = if page_printable (payload data "single")
             then
               Fulfilled
                 (text_result
                    ("# " ++ to_string (Js.get (payload data "single") "title") ++
                     Str.nl ++ Str.nl ++
                     to_string (Js.get (payload data "single") "content")) false)
             else Threw (TypeError cannot_convert)) /\
        (data <> JUndefined -> data <> JNull ->
         Js.get data "pages" <> JUndefined -> Js.get data "pages" <> JNull ->
         Js.truthy (payload data "single") = false ->
         s = if Js.printable id
             then Fulfilled (text_result ("Page not found for ID: " ++ to_string id) true)
             else Threw (TypeError cannot_convert)) /\
        (data <> JUndefined -> data <> JNull ->
         Js.get data "pages" = JUndefined ->
         s = Fulfilled
               (text_result
                  "Error fetching page: Cannot read properties of undefined (reading 'single')"
                  true))
    | Rejected e =>
        s = Fulfilled (text_result ("Error fetching page: " ++ error_text e) true)
    end.
Proof.
  intros V T id lookup.
  unfold Unnamed.wiki_get_page. rewrite V, T. fold id.
  cbn [negb]. rewrite run_bind, run_try_catch, run_bind, run_bind, run_request.
  fold lookup. destruct (srv hist lookup) as [data | e].
  - unfold found, payload, page_printable, ToString.
    destruct (Js.printable id);
      (destruct data as [| | b | n | s | items | fields]; try solve [edge]);
      cbn [Js.truthy andb member bind run fst snd];
      (destruct (Js.get (JObj fields) "pages") as [| | b | n | s | items | pages] eqn:P;
       try solve [edge]);
      cbn [Js.truthy andb member bind run fst snd try_catch];
      (destruct (Js.truthy (Js.get (JObj pages) "single")) eqn:F;
       [destruct (Js.printable (Js.get (Js.get (JObj pages) "single") "title"));
        [destruct (Js.printable (Js.get (Js.get (JObj pages) "single") "content"))|]
       |]); edge.
  - cbn. eexists. split; reflexivity.
Qed.

Lemma X11_unnamed_get_by_id_witness :
  let args := JObj [("id", JNum 7)] in
  let lookup := mkReq GET_PAGE_BY_ID_QUERY [("id", JNum 7)] in
  run (answering (JObj [])) [] (Unnamed.wiki_get_page (rt := sample_runtime) args) =
    ([(lookup, Resolved (JObj []))],
     Fulfilled
       (text_result
          "Error fetching page: Cannot read properties of undefined (reading 'single')"
          true)).
Proof.
  intros args lookup.
  destruct (@X11_unnamed_get_by_id sample_runtime (answering (JObj [])) [] args
              eq_refl eq_refl) as (s & R & _ & _ & E).
  rewrite R. f_equal. apply E; [discriminate | discriminate | reflexivity].
Defined.

(* ------------------------------------------------------------------ *)
(** * Creating a page in revisions B, C and the unnamed one *)

Section CreateFacts.

Context {rt : Runtime}.
Variable srv : Server.

(** One attempt of revision C: one mutation, and a [return] exactly on
    a hit. *)
Lemma C_create_attempt_run (tag title : string) (args : value) (path dbg : string)
    (hist : Trace) :
  let req := create_request args path in
  exists r,
    run srv hist (RevC.create_attempt tag title (requestParams path args) dbg) =
      ([(req, srv hist req)], Fulfilled r) /\
    match r with
    | inl result => C_create_hit (srv hist req) = true /\ isError result = false
    | inr _ => C_create_hit (srv hist req) = false
    end.
Proof.
  intros req. unfold RevC.create_attempt.
  rewrite run_try_catch_bind, run_request. fold (create_request args path). fold req.
  destruct (srv hist req) as [data | e]; cbn [C_create_hit].
  - destruct (found data "create"); cbn [andb].
    + destruct (Js.truthy (Js.get (payload data "create") "responseResult") &&
                negb (Js.truthy (Js.get (Js.get (payload data "create")
                                           "responseResult") "succeeded")));
        cbn [negb andb].
      * cbn. eexists. split; reflexivity.
      * destruct (Js.truthy (Js.get (payload data "create") "page")); cbn [andb].
        -- rewrite page_details_run.
           destruct (details_printable (Js.get (payload data "create") "page")).
           ++ cbn. eexists. split; [reflexivity|]. split; reflexivity.
           ++ cbn. eexists. split; reflexivity.
        -- cbn. eexists. split; reflexivity.
    + cbn. eexists. split; reflexivity.
  - cbn. eexists. split; reflexivity.
Qed.

Lemma C_create_run (hist : Trace) (args : value) (p : string) :
  Js.get args "path" = JStr p ->
  isCreatePageArgs args = true ->
  exists t result,
    run srv hist (RevC.wiki_create_page args) = (t, Fulfilled result) /\
    Attempts (create_request args) C_create_hit (C_create_paths p) t /\
    (isError result = false /\ Exists (fun x => C_create_hit (snd x) = true) t \/
     isError result = true /\ Forall (fun x => C_create_hit (snd x) = false) t /\
     Str.startsWith (first_text result) RevC.create_failed_text = true).
Proof.
  intros Hpath V.
  assert (M : forall dbg,
             Str.startsWith
               (first_text
                  (text_result (RevC.create_failed_text ++ Str.nl ++ Str.nl ++ dbg) true))
               RevC.create_failed_text = true).
  { intros dbg. cbn [first_text text_result content text].
    apply StrFacts.startsWith_app. }
  unfold RevC.wiki_create_page, C_create_paths. rewrite V, Hpath.
  cbn [negb string_receiver bind].
  rewrite run_try_catch_bind.
  match goal with
  | |- context [run srv hist (RevC.create_attempt ?tag ?title (requestParams ?path args) ?d)] =>
      destruct (C_create_attempt_run tag title args path d hist) as (r & E & H)
  end.
  rewrite E. destruct r as [result | dbg].
  - destruct H as [Hit Ok]. cbn [try_catch run]. rewrite app_nil_r.
    do 2 eexists. split; [reflexivity|]. split.
    + destruct (Str.startsWith p "/"); now apply Attempts_hit.
    + left. split; [exact Ok|]. now constructor.
  - destruct (Str.startsWith p "/") eqn:S; cbn [negb bind try_catch run].
    + rewrite app_nil_r. do 2 eexists. split; [reflexivity|]. split.
      * apply Attempts_miss; [exact H | constructor].
      * right. split; [reflexivity|]. split; [|apply M].
        constructor; [exact H | constructor].
    + cbn [requestParams Js.set_field String.eqb Ascii.eqb Bool.eqb].
      rewrite run_try_catch_bind.
      match goal with
      | |- context [run srv ?h (RevC.create_attempt ?tag ?title ?params ?d)] =>
          destruct (C_create_attempt_run tag title args ("/" ++ p) d h) as (r2 & E2 & H2)
      end.
      unfold requestParams in E2. rewrite E2. destruct r2 as [result | dbg2].
      * destruct H2 as [Hit Ok]. cbn [try_catch run]. rewrite app_nil_r.
        do 2 eexists. split; [reflexivity|]. split.
        -- apply Attempts_miss; [exact H | now apply Attempts_hit].
        -- left. split; [exact Ok|]. apply Exists_cons_tl. now constructor.
      * cbn [try_catch run]. rewrite app_nil_r.
        do 2 eexists. split; [reflexivity|]. split.
        -- apply Attempts_miss; [exact H|].
           apply Attempts_miss; [exact H2 | constructor].
        -- right. split; [reflexivity|]. split; [|apply M].
           constructor; [exact H|]. constructor; [exact H2 | constructor].
Qed.

(** The one mutation of revision B and of the unnamed revision. *)
Lemma B_create_run (hist : Trace) (args : value) (p : string) :
  Js.get args "path" = JStr p ->
  isCreatePageArgs args = true ->
  let req := create_request args (RevB.normalizePath p) in
  exists result,
    run srv hist (RevB.wiki_create_page args) = ([(req, srv hist req)], Fulfilled result) /\
    isError result =
      match srv hist req with
      | Resolved data => create_refused data || create_unprintable data
      | Rejected _ => true
      end.
Proof.
  intros Hpath V req.
  unfold RevB.wiki_create_page. rewrite V, Hpath.
  cbn [negb string_receiver bind].
  rewrite run_try_catch_bind, run_request.
  fold (create_request args (RevB.normalizePath p)). fold req.
  destruct (srv hist req) as [data | e]; [|cbn; eexists; split; reflexivity].
  unfold create_refused, create_unprintable.
  destruct (found data "create"); cbn [andb orb];
    [|cbn; eexists; split; reflexivity].
  destruct (Js.truthy (Js.get (payload data "create") "responseResult") &&
            negb (Js.truthy (Js.get (Js.get (payload data "create")
                                       "responseResult") "succeeded")));
    cbn [negb andb orb].
  - unfold ToString.
    destruct (Js.printable _); cbn; eexists; split; reflexivity.
  - destruct (Js.truthy (Js.get (payload data "create") "page")); cbn [andb];
      [|cbn; eexists; split; reflexivity].
    rewrite page_details_run.
    destruct (details_printable (Js.get (payload data "create") "page"));
      cbn; eexists; split; reflexivity.
Qed.

Lemma U_create_run (hist : Trace) (args : value) (p : string) :
  Js.get args "path" = JStr p ->
  isCreatePageArgs args = true ->
  let req := create_request args (Unnamed.normalizePath p) in
  exists result,
    run srv hist (Unnamed.wiki_create_page args) =
      ([(req, srv hist req)], Fulfilled result) /\
    isError result =
      match srv hist req with
      | Resolved data => create_refused data || create_unprintable data
      | Rejected _ => true
      end.
Proof.
  intros Hpath V req.
  unfold Unnamed.wiki_create_page. rewrite V, Hpath.
  cbn [negb string_receiver bind].
  rewrite run_try_catch_bind, run_request.
  fold (create_request args (Unnamed.normalizePath p)). fold req.
  destruct (srv hist req) as [data | e]; [|cbn; eexists; split; reflexivity].
  unfold create_refused, create_unprintable.
  destruct (found data "create"); cbn [andb orb];
    [|cbn; eexists; split; reflexivity].
  destruct (Js.truthy (Js.get (payload data "create") "responseResult") &&
            negb (Js.truthy (Js.get (Js.get (payload data "create")
                                       "responseResult") "succeeded")));
    cbn [negb andb orb].
  - unfold ToString.
    destruct (Js.printable _); cbn; eexists; split; reflexivity.
  - destruct (Js.truthy (Js.get (payload data "create") "page")); cbn [andb];
      [|cbn; eexists; split; reflexivity].
    rewrite page_details_run.
    destruct (details_printable (Js.get (payload data "create") "page"));
      cbn; eexists; split; reflexivity.
Qed.

End CreateFacts.

(** X12. With valid arguments, the create handler of revision B and of
    the unnamed revision sends exactly one create mutation, for the
    path as that revision normalizes it, whatever the server answers.
    The call is fulfilled, and its result is flagged as an error
    exactly when the request was rejected, the response carries a
    [responseResult] whose [succeeded] is falsy, or the response is no
    such refusal and carries a page whose title, id or path cannot be
    converted to text, so that the success text throws into the
    [catch]; a response of any other shape, even one without a page, is
    reported as a success. *)
Theorem X12_create_once
    (rt : Runtime) (srv : Server) (hist : Trace) (args : value) (p : string) :
  Js.get args "path" = JStr p ->
  isCreatePageArgs args = true ->
  (let req := create_request args (RevB.normalizePath p) in
   exists result,
     run srv hist (RevB.wiki_create_page args) =
       ([(req, srv hist req)], Fulfilled result) /\
     isError result =
       match srv hist req with
       | Resolved data => create_refused data || create_unprintable data
       | Rejected _ => true
       end) /\
  (let req := create_request args (Unnamed.normalizePath p) in
   exists result,
     run srv hist (Unnamed.wiki_create_page args) =
       ([(req, srv hist req)], Fulfilled result) /\
     isError result =
       match srv hist req with
       | Resolved data => create_refused data || create_unprintable data
       | Rejected _ => true
       end).
Proof.
  intros Hpath V. split.
  - exact (B_create_run srv hist args Hpath V).
  - exact (U_create_run srv hist args Hpath V).
Qed.

(** An empty response: reported as a success by both. *)
Lemma X12_create_once_witness :
  let args := JObj [("path", JStr "notes"); ("title", JStr "T"); ("content", JStr "C")] in
  exists result,
    run (answering (JObj [])) [] (Unnamed.wiki_create_page (rt := sample_runtime) args) =
      ([(create_request args "/notes", Resolved (JObj []))], Fulfilled result) /\
    isError result = false.
Proof.
  intros args.
  exact (proj2 (@X12_create_once sample_runtime (answering (JObj [])) [] args "notes"
                  eq_refl eq_refl)).
Defined.

(** X13. With valid arguments, the create handler of revision C sends
    its mutations for the normalized path and then, only when the given
    path had no leading slash, for the path with a slash in front; it
    stops at the first response it takes for a success -- one that is
    no refusal and carries a page whose title, id and path can be
    converted to text -- and never sends more than these.  The call is
    fulfilled; the result is no error exactly when one of the responses
    was taken for a success, and the error text is the "after multiple
    attempts" one. *)
Theorem X13_create_retry
    (rt : Runtime) (srv : Server) (hist : Trace) (args : value) (p : string) :
  Js.get args "path" = JStr p ->
  isCreatePageArgs args = true ->
  exists t result,
    run srv hist (RevC.wiki_create_page args) = (t, Fulfilled result) /\
    Attempts (create_request args) C_create_hit (C_create_paths p) t /\
    1 <= length t <= 2 /\
    (isError result = false <-> Exists (fun x => C_create_hit (snd x) = true) t) /\
    (isError result = true ->
     Str.startsWith (first_text result) RevC.create_failed_text = true).
Proof.
  intros Hpath V.
  destruct (C_create_run srv hist args Hpath V) as (t & result & E & A & H).
  exists t, result. split; [exact E|]. split; [exact A|]. split.
  - split.
    + destruct t; [|cbn; lia].
      apply Attempts_nonempty in A; [contradiction|].
      unfold C_create_paths. destruct (Str.startsWith p "/"); discriminate.
    + apply Attempts_length in A. unfold C_create_paths in A.
      destruct (Str.startsWith p "/"); cbn in A; lia.
  - destruct H as [[Ok Ex] | (Err & All & Txt)].
    + split; [tauto | congruence].
    + split; [split; [congruence|] | intros _; exact Txt].
      intros Ex. apply Exists_exists in Ex. destruct Ex as (x & Hin & Hx).
      rewrite Forall_forall in All. specialize (All _ Hin). congruence.
Qed.

Lemma X13_create_retry_witness :
  let args := JObj [("path", JStr "notes"); ("title", JStr "T"); ("content", JStr "C")] in
  exists t result,
    run offline [] (RevC.wiki_create_page (rt := sample_runtime) args) =
      (t, Fulfilled result) /\
    Attempts (create_request args) C_create_hit ["notes"; "/notes"] t /\
    1 <= length t <= 2 /\
    (isError result = false <-> Exists (fun x => C_create_hit (snd x) = true) t) /\
    (isError result = true ->
     Str.startsWith (first_text result) RevC.create_failed_text = true).
Proof.
  intros args.
  exact (@X13_create_retry sample_runtime offline [] args "notes" eq_refl eq_refl).
Defined.

(* ------------------------------------------------------------------ *)
(** * Updating a page by id *)

Section UpdateById.

Context {rt : Runtime}.
Variable srv : Server.

(** A refusal whose message is truthy and neither a string nor an
    array: [message.includes] is not a function. *)
Lemma update_outcome_not_a_function (data : value) (dbg : string) (hist : Trace) :
  update_refused data = true ->
  let message := Js.get (update_responseResult data) "message" in
  Js.truthy message = true ->
  (forall s, message <> JStr s) ->
  (forall items, message <> JArr items) ->
  run srv hist (try_catch (update_outcome data dbg)
                  (fun error => Ret (update_failed error))) =
    ([], Fulfilled
           (update_failed
              (TypeError "result.responseResult.message.includes is not a function"))).
Proof.
  unfold update_refused, update_responseResult, update_outcome.
  intros R. cbv zeta. intros Tm Ns Na.
  apply andb_true_iff in R. destruct R as [R Rs].
  apply andb_true_iff in R. destruct R as [F Rr].
  apply negb_true_iff in Rs. rewrite F, Rr, Rs, Tm.
  destruct (Js.get (Js.get (payload data "update") "responseResult") "message")
    as [| | b | n | s | items | fields]; try discriminate; try reflexivity.
  - now destruct (Ns s).
  - now destruct (Na items).
Qed.

(** What revision B and the unnamed revision make of an update
    response: no rule on the message. *)
Lemma B_update_outcome_run (data : value) (dbg : string) (hist : Trace) :
  exists result,
    run srv hist (try_catch (RevB.update_outcome data dbg)
                    (fun error => Ret (update_failed error)))
      = ([], Fulfilled result) /\
    isError result = update_refused data || update_unprintable data.
Proof.
  unfold RevB.update_outcome, update_refused, update_unprintable,
    update_responseResult.
  destruct (found data "update"); cbn [andb orb];
    [|eexists; split; reflexivity].
  destruct (Js.truthy (Js.get (payload data "update") "responseResult") &&
            negb (Js.truthy (Js.get (Js.get (payload data "update")
                                       "responseResult") "succeeded")));
    cbn [negb andb orb].
  - unfold ToString. destruct (Js.printable _); eexists; split; reflexivity.
  - destruct (Js.truthy (Js.get (payload data "update") "page")); cbn [andb];
      [|eexists; split; reflexivity].
    rewrite page_details_run.
    destruct (details_printable (Js.get (payload data "update") "page"));
      eexists; split; reflexivity.
Qed.

End UpdateById.

(** X14. When the [id] argument is truthy, the update handler of
    revisions A and C makes exactly one request, the update mutation
    for that id, and never looks the path up; the call is fulfilled.  A
    rejected request gives the error of the handler's [catch].  A
    refusal is flagged unless the rule on its message makes it a
    success, and a truthy message that is neither a string nor an array
    ends in the [catch], with the engine's complaint about [includes]
    as the error.  Any other response is reported as a success, whatever
    its shape -- unless it reports success with a page whose title, id
    or path cannot be printed, which the [catch] turns into an error. *)
Theorem X14_update_by_id
    (rt : Runtime) (srv : Server) (hist : Trace) (args : value) :
  isUpdatePageArgs args = true ->
  Js.truthy (Js.get args "id") = true ->
  let req := update_request (Js.get args "id") args in
  forall handler,
    handler = RevA.wiki_update_page \/ handler = RevC.wiki_update_page ->
    exists result,
      run srv hist (handler args) = ([(req, srv hist req)], Fulfilled result) /\
      match srv hist req with
      | Rejected e => result = update_failed e
      | Resolved data =>
          isError result = update_flag data /\
          (update_refused data = true ->
           let message := Js.get (update_responseResult data) "message" in
           Js.truthy message = true ->
           (forall s, message <> JStr s) ->
           (forall items, message <> JArr items) ->
           result =
             update_failed
               (TypeError "result.responseResult.message.includes is not a function"))
      end.
Proof.
  intros V T req handler H.
  destruct (update_by_id_run srv args hist T) as (result & E & F).
  fold req in E, F.
  assert (G : run srv hist (handler args) =
              run srv hist
                (try_catch (update_with_id args (Js.get args "id") "")
                   (fun error => Ret (update_failed error)))).
  { destruct H as [-> | ->]; [apply A_update_by_id | apply C_update_by_id];
      assumption. }
  exists result. rewrite G. split; [exact E|].
  destruct (srv hist req) as [data | e] eqn:O; [|exact F].
  split; [exact F|]. intros R message Tm Ns Na.
  unfold update_with_id in E. rewrite T in E.
  cbn [negb bind request try_catch run] in E.
  fold (update_request (Js.get args "id") args) in E. fold req in E.
  rewrite O in E. cbn [bind try_catch] in E.
  rewrite (update_outcome_not_a_function srv data _ _ R Tm Ns Na) in E.
  now injection E as <-.
Qed.

(** A refusal whose message is a number. *)
Lemma X14_update_by_id_witness :
  let args := JObj [("id", JNum 3); ("content", JStr "C")] in
  let data :=
    JObj [("pages",
           JObj [("update",
                  JObj [("responseResult",
                         JObj [("succeeded", JBool false);
                               ("message", JNum 500)])])])] in
  exists result,
    run (answering data) [] (RevC.wiki_update_page (rt := sample_runtime) args) =
      ([(update_request (JNum 3) args, Resolved data)], Fulfilled result) /\
    result =
      update_failed (rt := sample_runtime)
        (TypeError (rt := sample_runtime)
           "result.responseResult.message.includes is not a function").
Proof.
  intros args data.
  destruct (@X14_update_by_id sample_runtime (answering data) [] args
              eq_refl eq_refl _ (or_intror eq_refl)) as (result & E & _ & H).
  exists result. split; [exact E|].
  apply H; [reflexivity | reflexivity | discriminate | discriminate].
Defined.

(** X15. When the [id] argument is truthy, the update handler of
    revision B also makes exactly the one update mutation, but knows no
    rule on the message: the result is flagged as an error exactly when
    the request was rejected, the response is a refusal, whatever its
    [message] says, or the response carries a page whose details cannot
    be printed.  The unnamed revision does the same after it has printed
    the id in a template: an id that cannot be converted to text ends
    the call before any request, with the engine's TypeError as the
    error text. *)
Theorem X15_update_by_id_plain
    (rt : Runtime) (srv : Server) (hist : Trace) (args : value) :
  isUpdatePageArgs args = true ->
  Js.truthy (Js.get args "id") = true ->
  let req := update_request (Js.get args "id") args in
  let flag :=
    match srv hist req with
    | Resolved data => update_refused data || update_unprintable data
    | Rejected _ => true
    end in
  (exists result,
      run srv hist (RevB.wiki_update_page args) =
        ([(req, srv hist req)], Fulfilled result) /\
      isError result = flag) /\
  (if Js.printable (Js.get args "id")
   then
     exists result,
       run srv hist (Unnamed.wiki_update_page args) =
         ([(req, srv hist req)], Fulfilled result) /\
       isError result = flag
   else
     run srv hist (Unnamed.wiki_update_page args) =
       ([], Fulfilled (text_result ("Error updating page: " ++ cannot_convert) true))).
Proof.
  intros V T req flag. unfold flag. split.
  - unfold RevB.wiki_update_page, RevB.resolve_page_id.
    rewrite V, T. cbn [negb andb bind]. rewrite T. cbn [negb].
    cbn [bind request try_catch run]. fold (update_request (Js.get args "id") args).
    fold req. destruct (srv hist req) as [data | e]; cbn [bind try_catch];
      [|cbn; eexists; split; reflexivity].
    match goal with
    | |- context [run srv ?h (try_catch (RevB.update_outcome data ?d) _)] =>
        destruct (B_update_outcome_run srv data d h) as (result & E & Q)
    end.
    rewrite E. exists result. split; [reflexivity | exact Q].
  - unfold Unnamed.wiki_update_page, Unnamed.resolve_page_id.
    rewrite V, T. cbn [negb andb bind]. rewrite T. cbn [negb].
    destruct (Js.printable (Js.get args "id")) eqn:Pi;
      unfold ToString at 1; rewrite Pi; [|reflexivity].
    cbn [bind request try_catch run]. fold (update_request (Js.get args "id") args).
    fold req. destruct (srv hist req) as [data | e]; cbn [bind try_catch];
      [|cbn; eexists; split; reflexivity].
    unfold update_refused, update_unprintable, update_responseResult.
    destruct (found data "update"); cbn [andb orb];
      [|cbn; eexists; split; reflexivity].
    destruct (Js.truthy (Js.get (payload data "update") "responseResult") &&
              negb (Js.truthy (Js.get (Js.get (payload data "update")
                                         "responseResult") "succeeded")));
      cbn [negb andb orb].
    + unfold ToString. destruct (Js.printable (Js.or _ _));
        cbn; eexists; split; reflexivity.
    + destruct (Js.truthy (Js.get (payload data "update") "page")); cbn [andb];
        [|cbn; eexists; split; reflexivity].
      rewrite page_details_run.
      destruct (details_printable (Js.get (payload data "update") "page"));
        cbn; eexists; split; reflexivity.
Qed.

(** A refusal that carries the signature of revisions A and C, and an
    id that is an object with a [toString] property of its own, valid
    beside a string path. *)
Lemma X15_update_by_id_plain_witness :
  let args := JObj [("id", JNum 3); ("content", JStr "C")] in
  let data :=
    JObj [("pages",
           JObj [("update",
                  JObj [("responseResult",
                         JObj [("succeeded", JBool false);
                               ("message", JStr quirk_signature)])])])] in
  let odd := JObj [("id", JObj [("toString", JNum 1)]); ("path", JStr "home")] in
  (exists result,
      run (answering data) [] (RevB.wiki_update_page (rt := sample_runtime) args) =
        ([(update_request (JNum 3) args, Resolved data)], Fulfilled result) /\
      isError result = true) /\
  run (answering data) [] (Unnamed.wiki_update_page (rt := sample_runtime) odd) =
    ([], Fulfilled (text_result ("Error updating page: " ++ cannot_convert) true)).
Proof.
  intros args data odd. split.
  - exact (proj1 (@X15_update_by_id_plain sample_runtime (answering data) [] args
                    eq_refl eq_refl)).
  - exact (proj2 (@X15_update_by_id_plain sample_runtime (answering data) [] odd
                    eq_refl eq_refl)).
Defined.

(** X16. Arguments that pass validation but whose [id] and [path] are
    both falsy (an id of 0, an empty path, or both) make no request in
    any revision: the get handler answers that either one must be
    provided, the update handler that the page id could not be
    determined, each as an error of its own [catch]. *)
Theorem X16_nothing_to_look_up
    (rt : Runtime) (srv : Server) (hist : Trace) (args : value) :
  isGetPageArgs args = true ->
  Js.truthy (Js.get args "id") = false ->
  Js.truthy (Js.get args "path") = false ->
  (forall handler,
      In handler [RevA.wiki_get_page; RevB.wiki_get_page; RevC.wiki_get_page;
                  Unnamed.wiki_get_page] ->
      exists result,
        run srv hist (handler args) = ([], Fulfilled result) /\
        isError result = true /\
        Str.startsWith (first_text result)
          "Error fetching page: Either id or path must be provided" = true) /\
  (forall handler,
      In handler [RevA.wiki_update_page; RevB.wiki_update_page;
                  RevC.wiki_update_page; Unnamed.wiki_update_page] ->
      exists result,
        run srv hist (handler args) = ([], Fulfilled result) /\
        isError result = true /\
        Str.startsWith (first_text result)
          "Error updating page: Could not determine page ID" = true).
Proof.
  intros V Tid Tpath.
  assert (V' : isUpdatePageArgs args = true) by exact V.
  split; intros handler H; cbn [In] in H;
    repeat (destruct H as [<- | H]); try destruct H.
  - unfold RevA.wiki_get_page. rewrite V, Tid, Tpath.
    eexists. split; [reflexivity|]. split; reflexivity.
  - unfold RevB.wiki_get_page. rewrite V, Tid, Tpath.
    eexists. split; [reflexivity|]. split; reflexivity.
  - unfold RevC.wiki_get_page. rewrite V, Tid, Tpath.
    eexists. split; [reflexivity|]. split; reflexivity.
  - unfold Unnamed.wiki_get_page. rewrite V, Tid, Tpath.
    eexists. split; [reflexivity|]. split; reflexivity.
  - unfold RevA.wiki_update_page, RevA.resolve_page_id, update_with_id.
    rewrite V', Tid, Tpath. cbn [negb andb bind]. rewrite Tid.
    eexists. split; [reflexivity|]. split; reflexivity.
  - unfold RevB.wiki_update_page, RevB.resolve_page_id.
    rewrite V', Tid, Tpath. cbn [negb andb bind]. rewrite Tid.
    eexists. split; [reflexivity|]. split; reflexivity.
  - unfold RevC.wiki_update_page, RevC.resolve_page_id, update_with_id.
    rewrite V', Tid, Tpath. cbn [negb andb bind]. rewrite Tid.
    eexists. split; [reflexivity|]. split; reflexivity.
  - unfold Unnamed.wiki_update_page, Unnamed.resolve_page_id.
    rewrite V', Tid, Tpath. cbn [negb andb bind]. rewrite Tid.
    eexists. split; [reflexivity|]. split; reflexivity.
Qed.

Lemma X16_nothing_to_look_up_witness :
  let args := JObj [("id", JNum 0); ("path", JStr "")] in
  exists result,
    run offline [] (RevB.wiki_update_page (rt := sample_runtime) args) =
      ([], Fulfilled result) /\
    isError result = true /\
    Str.startsWith (first_text result)
      "Error updating page: Could not determine page ID" = true.
Proof.
  intros args.
  apply (proj2 (@X16_nothing_to_look_up sample_runtime offline [] args
                  eq_refl eq_refl eq_refl)).
  cbn [In]. right. left. reflexivity.
Defined.

(* ------------------------------------------------------------------ *)
(** * The list handler when the listing fails *)

Section ListFailures.

Context {rt : Runtime}.
Variables g c u : value -> Prog ToolCallResult.
Variable srv : Server.

(** A program that asks the server nothing leaves no exchange. *)
Lemma silent_run {A} (p : Prog A) (hist : Trace) :
  OnlyAsks (fun _ => False) p -> fst (run srv hist p) = [].
Proof.
  intros Hp. pose proof (OnlyAsks_run srv hist Hp) as F.
  destruct (fst (run srv hist p)) as [|x t]; [reflexivity|].
  inversion F as [|? ? Hx _]. destruct Hx.
Qed.

Lemma map_entries_silent (items : list value) :
  OnlyAsks (fun _ => False) (map_entries items).
Proof.
  induction items as [|page rest IH]; cbn [map_entries]; [constructor|].
  apply OnlyAsks_bind.
  - unfold page_entry, member. only_asks.
  - intros e. apply OnlyAsks_bind; [exact IH | intros es; constructor].
Qed.

(** What the handler does with the response, once it is there. *)
Lemma listing_silent (data : value) :
  OnlyAsks (fun _ => False)
    (typedData_pages <- member data "pages";;
     pages <- member typedData_pages "list";;
     lines <- pages_map pages;;
     Ret (text_result
            (if nonempty pages
             then String.concat (Str.nl ++ Str.nl) lines
             else "No pages found") false)).
Proof.
  apply OnlyAsks_bind; [unfold member; only_asks|]. intros pages_.
  apply OnlyAsks_bind; [unfold member; only_asks|]. intros pages.
  apply OnlyAsks_bind; [|intros; constructor].
  unfold pages_map. destruct pages; try constructor. apply map_entries_silent.
Qed.

Lemma dispatch_list_run (hist : Trace) (args : value) :
  is_object args = true ->
  let req := list_request args in
  exists result,
    run srv hist (dispatch wiki_list_pages g c u (mkParams "wiki_list_pages" args)) =
      ([(req, srv hist req)], Fulfilled result) /\
    match srv hist req with
    | Rejected e => result = text_result ("Error: " ++ error_text e) true
    | Resolved data =>
        (data <> JUndefined -> data <> JNull -> Js.get data "pages" = JUndefined ->
         result =
           text_result "Error: Cannot read properties of undefined (reading 'list')"
             true) /\
        (forall fields, Js.get data "pages" = JObj fields ->
                        payload data "list" = JUndefined ->
                        result = text_result ("Error: " ++ quirk_signature) true) /\
        (payload data "list" = JArr [] ->
         result = text_result "No pages found" false)
    end.
Proof.
  intros Hargs req.
  assert (T : Js.truthy args = true).
  { destruct args; try discriminate; reflexivity. }
  unfold dispatch.
  rewrite (proj1 (dispatch_routes wiki_list_pages g c u args T)).
  unfold wiki_list_pages, isListPagesArgs. rewrite Hargs. cbn [negb].
  rewrite run_try_catch_bind, run_request. fold (list_request args). fold req.
  destruct (srv hist req) as [data | e]; [|cbn; eexists; split; reflexivity].
  rewrite run_try_catch.
  match goal with
  | |- context [run srv ?h ?p] =>
      pose proof (@silent_run _ p h (listing_silent data)) as Q;
      destruct (run srv h p) as [t s] eqn:E
  end.
  cbn [fst] in Q. subst t.
  assert (Hs : exists result,
             (let (t', res) :=
                match s with
                | Fulfilled a => ([], Fulfilled a)
                | Threw e0 =>
                    let '(t', res) :=
                      run srv ((hist ++ [(req, Resolved data)]) ++ [])%list
                        (Ret (dispatch_catch e0)) in
                    (([] ++ t')%list, res)
                end in
              (([(req, Resolved data)] ++ t')%list, res)) =
             ([(req, Resolved data)], Fulfilled result) /\
             result = match s with
                      | Fulfilled a => a
                      | Threw e0 => dispatch_catch e0
                      end).
  { destruct s as [a | e0]; cbn; eexists; split; reflexivity. }
  destruct Hs as (result & R & Rs). exists result. split; [exact R|].
  subst result. unfold payload. repeat split.
  - intros N1 N2 P. revert E.
    destruct data; try congruence; cbn [member bind]; rewrite P;
      cbn; intros [= <-]; reflexivity.
  - intros fields P L. revert E.
    destruct data; try discriminate. cbn [member bind]. rewrite P.
    cbn [member bind]. rewrite P in L. rewrite L.
    cbn. intros [= <-]. reflexivity.
  - intros L. revert E.
    destruct data as [| | | | | | top]; try discriminate. cbn [member bind].
    destruct (Js.get (JObj top) "pages") eqn:P; try discriminate.
    cbn [member bind]. rewrite L. cbn. intros [= <-]. reflexivity.
Qed.

End ListFailures.

(** X17. For an argument bag that is an object, [wiki_list_pages]
    makes exactly one request in every revision, the listing with its
    defaults filled in, whatever the server answers.  The branch has no
    [catch] of its own: a rejected request comes back from the
    catch-all as "Error: " and the transport's message, a response
    without [pages] or without [pages.list] as "Error: " and the
    engine's TypeError -- for a missing list, the very message the
    update handler of revisions A and C treats as a success -- and an
    empty list gives "No pages found". *)
Theorem X17_list_failures
    (rt : Runtime) (srv : Server) (hist : Trace) (args : value) :
  is_object args = true ->
  let req := list_request args in
  forall handler,
    In handler [RevA.CallTool; RevB.CallTool; RevC.CallTool; Unnamed.CallTool] ->
    exists result,
      run srv hist (handler (mkParams "wiki_list_pages" args)) =
        ([(req, srv hist req)], Fulfilled result) /\
      match srv hist req with
      | Rejected e => result = text_result ("Error: " ++ error_text e) true
      | Resolved data =>
          (data <> JUndefined -> data <> JNull -> Js.get data "pages" = JUndefined ->
           result =
             text_result "Error: Cannot read properties of undefined (reading 'list')"
               true) /\
          (forall fields, Js.get data "pages" = JObj fields ->
                          payload data "list" = JUndefined ->
                          result = text_result ("Error: " ++ quirk_signature) true) /\
          (payload data "list" = JArr [] ->
           result = text_result "No pages found" false)
      end.
Proof.
  intros Hargs req handler H. cbn [In] in H.
  repeat (destruct H as [<- | H]); try destruct H;
    apply dispatch_list_run; exact Hargs.
Qed.

Lemma X17_list_failures_witness :
  let data := JObj [("pages", JObj [])] in
  exists result,
    run (answering data) [] (RevA.CallTool (rt := sample_runtime)
                               (mkParams "wiki_list_pages" (JObj []))) =
      ([(mkReq LIST_PAGES_QUERY [("orderBy", JStr "TITLE"); ("limit", JNum 10)],
         Resolved data)],
       Fulfilled result) /\
    result =
      text_result "Error: Cannot read properties of undefined (reading 'map')" true.
Proof.
  intros data.
  destruct (@X17_list_failures sample_runtime (answering data) [] (JObj []) eq_refl
              _ (or_introl eq_refl)) as (result & E & _ & H & _).
  exists result. split; [exact E|].
  exact (H [] eq_refl eq_refl).
Defined.

(* ------------------------------------------------------------------ *)
(** * The handlers of revisions B and C return text results *)

Section ResolvesBC.

Context {rt : Runtime}.

Lemma B_get_text (args : value) : AllRets text_only (RevB.wiki_get_page args).
Proof.
  unfold RevB.wiki_get_page.
  destruct (negb _); [constructor|].
  eapply AllRets_bind_with with (Q := inl_text).
  - apply AllRets_try_catch; [|intros; all_rets].
    apply AllRets_bind. intros pd. all_rets.
  - intros [result | [page dbg]] H; all_rets.
Qed.

Lemma B_create_text (args : value) : AllRets text_only (RevB.wiki_create_page args).
Proof. unfold RevB.wiki_create_page. all_rets. Qed.

Lemma B_update_text (args : value) : AllRets text_only (RevB.wiki_update_page args).
Proof.
  unfold RevB.wiki_update_page.
  destruct (negb _); [constructor|].
  apply AllRets_try_catch; [|intros; all_rets; unfold update_failed; auto].
  eapply AllRets_bind_with with (Q := inl_text).
  - unfold RevB.resolve_page_id. all_rets.
  - intros [result | [pageId dbg]] H; [now constructor|].
    unfold RevB.update_outcome. all_rets.
Qed.

Lemma C_get_text (args : value) : AllRets text_only (RevC.wiki_get_page args).
Proof.
  unfold RevC.wiki_get_page.
  destruct (negb _); [constructor|].
  eapply AllRets_bind_with with (Q := inl_text).
  - apply AllRets_try_catch; [|intros; all_rets].
    apply AllRets_bind. intros pd. all_rets.
  - intros [result | [page dbg]] H; all_rets.
Qed.

Lemma C_create_attempt_text (tag title : string) (params : list (string * value))
    (dbg : string) :
  AllRets inl_text (RevC.create_attempt tag title params dbg).
Proof. unfold RevC.create_attempt. all_rets. Qed.

Lemma C_create_text (args : value) : AllRets text_only (RevC.wiki_create_page args).
Proof.
  unfold RevC.wiki_create_page.
  destruct (negb _); [constructor|].
  apply AllRets_try_catch; [|intros; all_rets].
  apply AllRets_bind. intros originalPath.
  eapply AllRets_bind_with; [apply C_create_attempt_text|].
  intros [result | dbg] H; [now constructor|].
  eapply AllRets_bind_with with (Q := inl_text).
  - destruct (negb _); [apply C_create_attempt_text | now constructor].
  - intros [result | dbg2] H2; [now constructor | all_rets].
Qed.

Lemma C_update_text (args : value) : AllRets text_only (RevC.wiki_update_page args).
Proof.
  unfold RevC.wiki_update_page.
  destruct (negb _); [constructor|].
  apply AllRets_try_catch; [|intros; all_rets; unfold update_failed; auto].
  eapply AllRets_bind_with with (Q := inl_text).
  - unfold RevC.resolve_page_id. all_rets.
  - intros [result | [pageId dbg]] H; [now constructor | apply update_with_id_text].
Qed.

End ResolvesBC.

(** X18. The CallTool handler of revisions B and C, too, is fulfilled
    for every tool name, every argument bag and every server, with a
    result whose content starts with a text block; whatever its [try]
    block throws becomes the text result of the catch-all, flagged as an
    error, after the same exchanges. *)
Theorem X18_call_tool_resolves_in_B_and_C
    (rt : Runtime) (srv : Server) (hist : Trace) (params : CallToolParams) :
  (exists t result block rest,
      run srv hist (RevB.CallTool params) = (t, Fulfilled result) /\
      content result = block :: rest /\ type_ block = "text") /\
  (forall t e,
      run srv hist (RevB.CallTool_try params) = (t, Threw e) ->
      run srv hist (RevB.CallTool params) =
        (t, Fulfilled (text_result ("Error: " ++ error_text e) true))) /\
  (exists t result block rest,
      run srv hist (RevC.CallTool params) = (t, Fulfilled result) /\
      content result = block :: rest /\ type_ block = "text") /\
  (forall t e,
      run srv hist (RevC.CallTool_try params) = (t, Threw e) ->
      run srv hist (RevC.CallTool params) =
        (t, Fulfilled (text_result ("Error: " ++ error_text e) true))).
Proof.
  repeat split.
  - destruct (dispatch_resolves wiki_list_pages RevB.wiki_get_page
                RevB.wiki_create_page RevB.wiki_update_page
                list_pages_text B_get_text B_create_text B_update_text
                srv hist params) as (t & result & E & (txt & err & ->)).
    now exists t, (text_result txt err), (mkBlock "text" txt), [].
  - intros t e E. now apply dispatch_converts.
  - destruct (dispatch_resolves wiki_list_pages RevC.wiki_get_page
                RevC.wiki_create_page RevC.wiki_update_page
                list_pages_text C_get_text C_create_text C_update_text
                srv hist params) as (t & result & E & (txt & err & ->)).
    now exists t, (text_result txt err), (mkBlock "text" txt), [].
  - intros t e E. now apply dispatch_converts.
Qed.

(** An update without an id or a path, server unreachable. *)
Lemma X18_call_tool_resolves_in_B_and_C_witness :
  exists t result block rest,
    run offline [] (RevC.CallTool (rt := sample_runtime)
                      (mkParams "wiki_update_page" (JObj [("title", JStr "T")])))
      = (t, Fulfilled result) /\
    content result = block :: rest /\ type_ block = "text".
Proof.
  exact (proj1 (proj2 (proj2
           (X18_call_tool_resolves_in_B_and_C sample_runtime offline []
              (mkParams "wiki_update_page" (JObj [("title", JStr "T")])))))).
Defined.

(* ------------------------------------------------------------------ *)
(** * Getting a page by path in revision C *)

Section GetByPathC.

Context {rt : Runtime}.
Variable srv : Server.

Ltac logged :=
  repeat first
    [ progress unfold page_hit
    | progress unfold page_of
    | progress cbn [bind try_catch run request lbind llift log lret ltry lrun
                    negb fst snd hit_page orb app] ].

(** The end of a branch in which a lookup found the page [pg]. *)
Ltac found_leaf Tp :=
  rewrite page_result_run, Tp;
  match goal with
  | |- context [page_printable ?pg] =>
      let Pp := fresh "Pp" in
      destruct (page_printable pg) eqn:Pp; logged;
      eexists; (split; [reflexivity|]); [eexists; reflexivity | reflexivity]
  end.

(** The end of a branch in which no lookup found a page. *)
Ltac missed_leaf Tid Hpath :=
  rewrite page_result_run; cbn [Js.truthy]; rewrite Tid, ?Hpath;
  cbn [Js.printable]; logged;
  eexists; (split; [reflexivity|]); eexists; reflexivity.

Lemma C_get_by_path_run (hist : Trace) (args : value) (p : string) :
  isGetPageArgs args = true ->
  Js.truthy (Js.get args "id") = false ->
  Js.get args "path" = JStr p ->
  p <> "" ->
  exists s,
    run srv hist (RevC.wiki_get_page args) = (C_get_lookups srv hist p, s) /\
    match hit_page (C_get_lookups srv hist p) with
    | Some page =>
        if page_printable page
        then
          exists debug,
            s = Fulfilled
                  (text_result
                     ("# " ++ to_string (Js.get page "title") ++ Str.nl ++ Str.nl ++
                      to_string (Js.get page "content") ++ Str.nl ++ Str.nl ++ debug)
                     false)
        else s = Threw (TypeError cannot_convert)
    | None =>
        exists debug,
          s = Fulfilled
                (text_result
                   ("Page not found for path: " ++ p ++ Str.nl ++ Str.nl ++ debug) true)
    end.
Proof.
  intros V Tid Hpath Hp.
  assert (T : Js.truthy (JStr p) = true) by now apply truthy_string.
  unfold RevC.wiki_get_page, RevC.get_by_path, RevC.get_try, RevC.get_catch,
    C_get_lookups.
  rewrite V, Tid, Hpath, T. cbn [negb string_receiver bind].
  unfold lrun, ltry, lbind, llift, log, lret.
  cbn [bind try_catch request run].
  fold (lookup_by_path (RevC.normalizePath p)).
  set (first := lookup_by_path (RevC.normalizePath p)).
  destruct (srv hist first) as [data | e] eqn:O1; logged.
  - destruct (found data "singleByPath") eqn:F; logged.
    + assert (Tp : Js.truthy (payload data "singleByPath") = true).
      { unfold found in F. apply andb_true_iff in F. now destruct F. }
      rewrite ?F. logged. found_leaf Tp.
    + destruct (Str.startsWith p "/") eqn:S; logged.
      * rewrite ?F. logged. missed_leaf Tid Hpath.
      * fold (lookup_by_path ("/" ++ p)).
        set (second := lookup_by_path ("/" ++ p)).
        destruct (srv (hist ++ [(first, Resolved data)])%list second)
          as [data2 | e2] eqn:O2; logged.
        -- destruct (found data2 "singleByPath") eqn:F2; logged.
           ++ assert (Tp : Js.truthy (payload data2 "singleByPath") = true).
              { unfold found in F2. apply andb_true_iff in F2. now destruct F2. }
              rewrite ?F, ?F2. logged. found_leaf Tp.
           ++ rewrite ?F, ?F2. logged. missed_leaf Tid Hpath.
        -- rewrite ?S. logged. fold second.
           rewrite <- ?app_assoc. cbn [app].
           destruct (srv (hist ++ [(first, Resolved data); (second, Rejected e2)])%list
                       second) as [data3 | e3] eqn:O3; logged.
           ++ destruct (found data3 "singleByPath") eqn:F3; logged.
              ** assert (Tp : Js.truthy (payload data3 "singleByPath") = true).
                 { unfold found in F3. apply andb_true_iff in F3. now destruct F3. }
                 rewrite ?F, ?F3. logged. found_leaf Tp.
              ** rewrite ?F, ?F3. logged. missed_leaf Tid Hpath.
           ++ rewrite ?F. logged. missed_leaf Tid Hpath.
  - destruct (Str.startsWith p "/") eqn:S; logged.
    + missed_leaf Tid Hpath.
    + fold (lookup_by_path ("/" ++ p)).
      set (second := lookup_by_path ("/" ++ p)).
      destruct (srv (hist ++ [(first, Rejected e)])%list second)
        as [data2 | e2] eqn:O2; logged.
      * destruct (found data2 "singleByPath") eqn:F2; logged.
        -- assert (Tp : Js.truthy (payload data2 "singleByPath") = true).
           { unfold found in F2. apply andb_true_iff in F2. now destruct F2. }
           rewrite ?F2. logged. found_leaf Tp.
        -- rewrite ?F2. logged. missed_leaf Tid Hpath.
      * missed_leaf Tid Hpath.
Qed.

End GetByPathC.

(** X19. In revision C, a get by path (no truthy [id], a non-empty
    [path]) makes at most three lookups: the normalized path; then,
    only for a path given without a leading slash and not found that
    way, the path with a slash in front; and that same lookup a second
    time when the first one resolved and the second was rejected.  A
    rejected lookup is never reported as such: when no lookup found a
    page the call is fulfilled with the error that no page was found
    for the path as given.  When one did, the call is fulfilled with
    that page -- unless its title or content cannot be converted to
    text, and then the branch throws the engine's TypeError, the result
    being built outside the [try]. *)
Theorem X19_get_by_path_retries
    (rt : Runtime) (srv : Server) (hist : Trace) (args : value) (p : string) :
  isGetPageArgs args = true ->
  Js.truthy (Js.get args "id") = false ->
  Js.get args "path" = JStr p ->
  p <> "" ->
  exists s,
    run srv hist (RevC.wiki_get_page args) = (C_get_lookups srv hist p, s) /\
    match hit_page (C_get_lookups srv hist p) with
    | Some page =>
        if page_printable page
        then
          exists debug,
            s = Fulfilled
                  (text_result
                     ("# " ++ to_string (Js.get page "title") ++ Str.nl ++ Str.nl ++
                      to_string (Js.get page "content") ++ Str.nl ++ Str.nl ++ debug)
                     false)
        else s = Threw (TypeError cannot_convert)
    | None =>
        exists debug,
          s = Fulfilled
                (text_result
                   ("Page not found for path: " ++ p ++ Str.nl ++ Str.nl ++ debug) true)
    end /\
    1 <= length (C_get_lookups srv hist p) <= 3 /\
    (Str.startsWith p "/" = true -> length (C_get_lookups srv hist p) = 1).
Proof.
  intros V Tid Hpath Hp.
  destruct (C_get_by_path_run srv hist args V Tid Hpath Hp) as (s & E & H).
  exists s. split; [exact E|]. split; [exact H|].
  unfold C_get_lookups. split.
  - destruct (page_hit _ || Str.startsWith p "/"); [cbn; lia|].
    destruct (srv hist _); destruct (srv (hist ++ _)%list _); cbn; lia.
  - intros ->. now rewrite orb_true_r.
Qed.

(** A server that answers the first request of a call with an empty
    response and rejects the later ones. *)
Lemma X19_get_by_path_retries_witness :
  let down := Rejected (ErrorObj "TypeError" "fetch failed" "") in
  let srv : Server :=
    fun hist _ => match hist with [] => Resolved (JObj []) | _ => down end in
  exists debug,
    run srv [] (RevC.wiki_get_page (rt := sample_runtime) (JObj [("path", JStr "home")])) =
      ([(lookup_by_path "home", Resolved (JObj []));
        (lookup_by_path "/home", down);
        (lookup_by_path "/home", down)],
       Fulfilled
         (text_result
            ("Page not found for path: " ++ "home" ++ Str.nl ++ Str.nl ++ debug) true)).
Proof.
  intros down srv.
  destruct (@X19_get_by_path_retries sample_runtime srv []
              (JObj [("path", JStr "home")]) "home" eq_refl eq_refl eq_refl)
    as (s & E & H & _); [discriminate|].
  cbn in H. destruct H as (debug & ->). exists debug. exact E.
Defined.

(* ------------------------------------------------------------------ *)
(** * Updating a page by path in revisions B and C *)

Section UpdateByPathBC.

Context {rt : Runtime}.
Variable srv : Server.

Ltac crunch :=
  cbn;
  repeat first
    [ run_step; cbn
    | progress unfold page_details, ToString; cbn
    | match goal with
      | |- context [if ?c then _ else _] => destruct c; cbn
      end ].

Lemma B_update_by_path (hist : Trace) (args : value) (p : string) :
  Js.get args "path" = JStr p ->
  p <> "" ->
  Js.has "id" args = false ->
  exists t result,
    run srv hist (RevB.wiki_update_page args) = (t, Fulfilled result) /\
    resolves_then_updates args [RevB.normalizePath p]
      ("Page not found for path: " ++ RevB.normalizePath p) t result.
Proof.
  intros Hpath Hp Hno.
  unfold RevB.wiki_update_page, RevB.resolve_page_id, RevB.update_outcome.
  rewrite (string_path_valid _ Hpath), (get_absent _ _ Hno), Hpath, (truthy_string Hp).
  cbn [negb andb Js.truthy string_receiver bind].
  rewrite run_try_catch_bind, run_bind, run_request.
  fold (lookup_by_path (RevB.normalizePath p)).
  set (lookup := lookup_by_path (RevB.normalizePath p)).
  destruct (srv hist lookup) as [data | e] eqn:O.
  - destruct (found data "singleByPath") eqn:F; cbn [run app].
    + destruct (Js.truthy (Js.get (payload data "singleByPath") "id")) eqn:T;
        cbn [negb].
      * rewrite run_try_catch_bind, run_request.
        fold (update_request (Js.get (payload data "singleByPath") "id") args).
        set (upd := update_request (Js.get (payload data "singleByPath") "id") args).
        destruct (srv (hist ++ [(lookup, Resolved data)])%list upd) as [d | e2];
          crunch;
          (do 2 eexists; split; [reflexivity|];
           eexists [(lookup, Resolved data)], [(upd, _)];
           split; [reflexivity|]; split; [discriminate|];
           split; [apply Attempts_hit; now apply page_hit_found|];
           split; [reflexivity|];
           cbn [hit_page page_of]; rewrite F, T; now eexists).
      * cbn. do 2 eexists. split; [reflexivity|].
        exists [(lookup, Resolved data)], [].
        split; [reflexivity|]. split; [discriminate|].
        split; [apply Attempts_hit; now apply page_hit_found|].
        split; [reflexivity|].
        cbn [hit_page page_of]. rewrite F, T. now split.
    + cbn [run try_catch bind app fst snd]. do 2 eexists. split; [reflexivity|].
      exists [(lookup, Resolved data)], [].
      split; [reflexivity|]. split; [discriminate|].
      split; [apply single_lookup_miss; now apply page_hit_missing|].
      split; [reflexivity|].
      cbn [hit_page page_of]. rewrite F. repeat split.
      intros _. cbn [first_text text_result content text].
      apply startsWith_app3.
  - cbn. do 2 eexists. split; [reflexivity|].
    exists [(lookup, Rejected e)], [].
    split; [reflexivity|]. split; [discriminate|].
    split; [now apply single_lookup_miss|].
    split; [reflexivity|].
    cbn [hit_page page_of]. repeat split.
    intros H. inversion H as [| x l [d Hd] _]. discriminate.
Qed.

Lemma C_update_by_path (hist : Trace) (args : value) (p : string) :
  Js.get args "path" = JStr p ->
  p <> "" ->
  Js.has "id" args = false ->
  exists t result,
    run srv hist (RevC.wiki_update_page args) = (t, Fulfilled result) /\
    resolves_then_updates args [RevC.normalizePath p]
      ("Page not found for path: " ++ RevC.normalizePath p) t result.
Proof.
  intros Hpath Hp Hno.
  unfold RevC.wiki_update_page, RevC.resolve_page_id, update_with_id, update_outcome.
  rewrite (string_path_valid _ Hpath), (get_absent _ _ Hno), Hpath, (truthy_string Hp).
  cbn [negb andb Js.truthy string_receiver bind].
  rewrite run_try_catch_bind, run_bind, run_request.
  fold (lookup_by_path (RevC.normalizePath p)).
  set (lookup := lookup_by_path (RevC.normalizePath p)).
  destruct (srv hist lookup) as [data | e] eqn:O.
  - destruct (found data "singleByPath") eqn:F; cbn [run app].
    + destruct (Js.truthy (Js.get (payload data "singleByPath") "id")) eqn:T;
        cbn [negb].
      * rewrite run_try_catch_bind, run_request.
        fold (update_request (Js.get (payload data "singleByPath") "id") args).
        set (upd := update_request (Js.get (payload data "singleByPath") "id") args).
        destruct (srv (hist ++ [(lookup, Resolved data)])%list upd) as [d | e2];
          unfold message_includes; crunch;
          (do 2 eexists; split; [reflexivity|];
           eexists [(lookup, Resolved data)], [(upd, _)];
           split; [reflexivity|]; split; [discriminate|];
           split; [apply Attempts_hit; now apply page_hit_found|];
           split; [reflexivity|];
           cbn [hit_page page_of]; rewrite F, T; now eexists).
      * cbn. do 2 eexists. split; [reflexivity|].
        exists [(lookup, Resolved data)], [].
        split; [reflexivity|]. split; [discriminate|].
        split; [apply Attempts_hit; now apply page_hit_found|].
        split; [reflexivity|].
        cbn [hit_page page_of]. rewrite F, T. now split.
    + cbn [run try_catch bind app fst snd]. do 2 eexists. split; [reflexivity|].
      exists [(lookup, Resolved data)], [].
      split; [reflexivity|]. split; [discriminate|].
      split; [apply single_lookup_miss; now apply page_hit_missing|].
      split; [reflexivity|].
      cbn [hit_page page_of]. rewrite F. repeat split.
      intros _. cbn [first_text text_result content text].
      apply startsWith_app3.
  - cbn. do 2 eexists. split; [reflexivity|].
    exists [(lookup, Rejected e)], [].
    split; [reflexivity|]. split; [discriminate|].
    split; [now apply single_lookup_miss|].
    split; [reflexivity|].
    cbn [hit_page page_of]. repeat split.
    intros H. inversion H as [| x l [d Hd] _]. discriminate.
Qed.

End UpdateByPathBC.

(** X20. In revisions B and C, an update by a non-empty path and no
    [id] looks up the normalized path, once; only when that lookup found
    a page with a truthy id does exactly one update mutation follow, for
    the id of that page.  Otherwise no mutation is sent and the result
    is an error -- after a lookup that resolved without a page, the
    not-found text with the normalized path, not the path as given. *)
Theorem X20_update_by_path_single_lookup
    (rt : Runtime) (srv : Server) (hist : Trace) (args : value) (p : string) :
  Js.get args "path" = JStr p ->
  p <> "" ->
  Js.has "id" args = false ->
  (exists t result,
      run srv hist (RevB.wiki_update_page args) = (t, Fulfilled result) /\
      resolves_then_updates args [RevB.normalizePath p]
        ("Page not found for path: " ++ RevB.normalizePath p) t result) /\
  (exists t result,
      run srv hist (RevC.wiki_update_page args) = (t, Fulfilled result) /\
      resolves_then_updates args [RevC.normalizePath p]
        ("Page not found for path: " ++ RevC.normalizePath p) t result).
Proof.
  intros Hpath Hp Hno. split.
  - exact (B_update_by_path srv hist args Hpath Hp Hno).
  - exact (C_update_by_path srv hist args Hpath Hp Hno).
Qed.

Lemma X20_update_by_path_single_lookup_witness :
  let args := JObj [("path", JStr "/docs/a")] in
  let data := JObj [("pages", JObj [])] in
  exists t result,
    run (answering data) [] (RevC.wiki_update_page (rt := sample_runtime) args) =
      (t, Fulfilled result) /\
    resolves_then_updates args ["docs/a"] "Page not found for path: docs/a" t result.
Proof.
  intros args data.
  refine (proj2 (@X20_update_by_path_single_lookup sample_runtime (answering data) []
                   args "/docs/a" _ _ _));
    [reflexivity | discriminate | reflexivity].
Defined.

(* ------------------------------------------------------------------ *)
(** * What reaches the catch-all *)

Lemma NoThrow_bind {A B} (p : Prog A) (f : A -> Prog B) :
  NoThrow p -> (forall a, NoThrow (f a)) -> NoThrow (bind p f).
Proof.
  intros Hp Hf. induction Hp as [a | r k _ IH]; simpl.
  - apply Hf.
  - constructor. exact IH.
Qed.

Section ValidCalls.

Context {rt : Runtime}.
Variable srv : Server.

(** A branch of the shape [if (!valid) throw ...; rest] whose rest
    always returns is fulfilled exactly on valid arguments. *)
Lemma guarded_run {A} (valid : bool) (e : thrown) (rest : Prog A) (hist : Trace) :
  NoThrow rest ->
  valid = true <->
  exists t r, run srv hist (if negb valid then Throw e else rest) = (t, Fulfilled r).
Proof.
  intros N. destruct valid; cbn [negb].
  - split; [intros _; exact (NoThrow_run srv hist N) | reflexivity].
  - split; [discriminate | intros (t & r & E); discriminate].
Qed.

Ltac returns :=
  cbv zeta;
  match goal with
  | |- NoThrow (Ret _) => constructor
  | |- NoThrow (try_catch _ _) => apply NoThrow_try_catch; intros; returns
  | |- NoThrow (bind _ _) => apply NoThrow_bind; [returns | intros; returns]
  | |- NoThrow (if ?c then _ else _) => destruct c; returns
  | |- NoThrow (match ?x with _ => _ end) => destruct x; returns
  end.

Lemma NoThrow_OnlyThrows {A} (e : thrown) (p : Prog A) :
  NoThrow p -> OnlyThrows e p.
Proof.
  intros N. induction N as [a | r k _ IH]; constructor. exact IH.
Qed.

Lemma OnlyThrows_bind {A B} (e : thrown) (p : Prog A) (f : A -> Prog B) :
  OnlyThrows e p -> (forall a, OnlyThrows e (f a)) -> OnlyThrows e (bind p f).
Proof.
  intros Hp Hf. induction Hp as [a | | r k _ IH]; simpl.
  - apply Hf.
  - constructor.
  - constructor. exact IH.
Qed.

Lemma OnlyThrows_run {A} (e : thrown) (p : Prog A) (hist : Trace) :
  OnlyThrows e p ->
  exists t,
    (exists a, run srv hist p = (t, Fulfilled a)) \/ run srv hist p = (t, Threw e).
Proof.
  intros Hp. revert hist.
  induction Hp as [a | | r k _ IH]; intros hist; simpl.
  - exists []. left. now exists a.
  - exists []. now right.
  - destruct (IH (srv hist r) (hist ++ [(r, srv hist r)])%list) as (t & [(a & E) | E]);
      rewrite E; exists ((r, srv hist r) :: t); [left; now exists a | now right].
Qed.

(** A branch of the shape [if (!valid) throw ...; rest] whose rest
    throws nothing but [e'] makes no request on invalid arguments, and
    on valid ones returns or throws [e']. *)
Lemma guarded_settles {A} (valid : bool) (e e' : thrown) (rest : Prog A)
    (hist : Trace) :
  OnlyThrows e' rest ->
  (valid = false ->
   run srv hist (if negb valid then Throw e else rest) = ([], Threw e)) /\
  (valid = true ->
   exists t,
     (exists r, run srv hist (if negb valid then Throw e else rest) = (t, Fulfilled r)) \/
     run srv hist (if negb valid then Throw e else rest) = (t, Threw e')).
Proof.
  intros N. split; intros ->; cbn [negb]; [reflexivity|].
  exact (OnlyThrows_run hist N).
Qed.

Ltac settles :=
  cbv zeta;
  match goal with
  | |- OnlyThrows _ (Ret _) => constructor
  | |- OnlyThrows _ (Throw _) => constructor
  | |- OnlyThrows _ (try_catch _ _) => apply NoThrow_OnlyThrows; returns
  | |- OnlyThrows _ (bind _ _) => apply OnlyThrows_bind; [settles | intros; settles]
  | |- OnlyThrows _ (if ?c then _ else _) => destruct c; settles
  | |- OnlyThrows _ (match ?x with _ => _ end) => destruct x; settles
  | |- OnlyThrows _ _ => progress unfold page_result, ToString; settles
  end.

Lemma get_settles (hist : Trace) (args : value)
    (handler : value -> Prog ToolCallResult) :
  In handler [RevA.wiki_get_page; RevB.wiki_get_page; RevC.wiki_get_page;
              Unnamed.wiki_get_page] ->
  (isGetPageArgs args = false ->
   run srv hist (handler args) =
     ([], Threw (Error "Invalid arguments for wiki_get_page"))) /\
  (isGetPageArgs args = true ->
   exists t,
     (exists r, run srv hist (handler args) = (t, Fulfilled r)) \/
     run srv hist (handler args) = (t, Threw (TypeError cannot_convert))).
Proof.
  intros H. cbn [In] in H.
  repeat (destruct H as [<- | H]); try destruct H;
    apply guarded_settles; settles.
Qed.

Lemma create_fulfilled_iff_valid (hist : Trace) (args : value)
    (handler : value -> Prog ToolCallResult) :
  In handler [RevA.wiki_create_page; RevB.wiki_create_page; RevC.wiki_create_page;
              Unnamed.wiki_create_page] ->
  isCreatePageArgs args = true <->
  exists t r, run srv hist (handler args) = (t, Fulfilled r).
Proof.
  intros H. cbn [In] in H.
  repeat (destruct H as [<- | H]); try destruct H;
    apply guarded_run; returns.
Qed.

Lemma update_fulfilled_iff_valid (hist : Trace) (args : value)
    (handler : value -> Prog ToolCallResult) :
  In handler [RevA.wiki_update_page; RevB.wiki_update_page; RevC.wiki_update_page;
              Unnamed.wiki_update_page] ->
  isUpdatePageArgs args = true <->
  exists t r, run srv hist (handler args) = (t, Fulfilled r).
Proof.
  intros H. cbn [In] in H.
  repeat (destruct H as [<- | H]); try destruct H;
    apply guarded_run; returns.
Qed.

End ValidCalls.

(** X21. In every revision, the create and update branches are
    fulfilled on their own exactly when the arguments pass their
    validator: behind the validation everything, the texts printed
    included, is inside a [try] whose [catch] returns a result.  The get
    branch differs, because it builds its result after the [try]: on
    invalid arguments it throws the validation error without a request,
    as the others do, and on valid ones it either returns or throws the
    engine's TypeError for a value that cannot be converted to text.  So
    besides a missing argument bag and a failing listing, invalid
    arguments and a get result whose text cannot be built are what
    reaches the catch-all of the CallTool handler. *)
Theorem X21_fulfilled_iff_valid
    (rt : Runtime) (srv : Server) (hist : Trace) (args : value)
    (handler : value -> Prog ToolCallResult) :
  (In handler [RevA.wiki_get_page; RevB.wiki_get_page; RevC.wiki_get_page;
               Unnamed.wiki_get_page] ->
   (isGetPageArgs args = false ->
    run srv hist (handler args) =
      ([], Threw (Error "Invalid arguments for wiki_get_page"))) /\
   (isGetPageArgs args = true ->
    exists t,
      (exists r, run srv hist (handler args) = (t, Fulfilled r)) \/
      run srv hist (handler args) = (t, Threw (TypeError cannot_convert)))) /\
  (In handler [RevA.wiki_create_page; RevB.wiki_create_page; RevC.wiki_create_page;
               Unnamed.wiki_create_page] ->
   isCreatePageArgs args = true <->
   exists t r, run srv hist (handler args) = (t, Fulfilled r)) /\
  (In handler [RevA.wiki_update_page; RevB.wiki_update_page; RevC.wiki_update_page;
               Unnamed.wiki_update_page] ->
   isUpdatePageArgs args = true <->
   exists t r, run srv hist (handler args) = (t, Fulfilled r)).
Proof.
  split; [|split].
  - apply get_settles.
  - apply create_fulfilled_iff_valid.
  - apply update_fulfilled_iff_valid.
Qed.

(** A valid create call against a server that cannot be reached. *)
Lemma X21_fulfilled_iff_valid_witness :
  let args := JObj [("path", JStr "a"); ("title", JStr "T"); ("content", JStr "C")] in
  exists t r,
    run offline [] (RevC.wiki_create_page (rt := sample_runtime) args) = (t, Fulfilled r).
Proof.
  intros args.
  apply (proj1 (proj2 (@X21_fulfilled_iff_valid sample_runtime offline [] args
                         RevC.wiki_create_page)));
    [cbn [In]; right; right; left; reflexivity | reflexivity].
Defined.

(* ------------------------------------------------------------------ *)
(** * Getting a page by path with a single lookup *)

(** X22. In revision B and in the unnamed revision, a get by path (no
    truthy [id], a non-empty [path]) makes exactly one lookup, for the
    path as the revision normalizes it.  A rejected lookup is reported
    as a fetch error with the transport's message, unlike in revision
    C; a page found is shown as a heading and its content when its title
    and content can be converted to text, and otherwise the branch
    throws the engine's TypeError, the result being built after the
    [try]; and in revision B a response without a page gives the
    not-found error, which names the path as it was given, not the one
    looked up. *)
Theorem X22_get_by_path_single_lookup
    (rt : Runtime) (srv : Server) (hist : Trace) (args : value) (p : string) :
  isGetPageArgs args = true ->
  Js.truthy (Js.get args "id") = false ->
  Js.get args "path" = JStr p ->
  p <> "" ->
  (let lookup := lookup_by_path (RevB.normalizePath p) in
   exists s,
     run srv hist (RevB.wiki_get_page args) = ([(lookup, srv hist lookup)], s) /\
     match srv hist lookup with
     | Resolved data =>
         if found data "singleByPath"
         then
           if page_printable (payload data "singleByPath")
           then
             exists debug,
               s = Fulfilled
                     (text_result
                        ("# " ++ to_string (Js.get (payload data "singleByPath") "title") ++
                         Str.nl ++ Str.nl ++
                         to_string (Js.get (payload data "singleByPath") "content") ++
                         Str.nl ++ Str.nl ++ debug) false)
           else s = Threw (TypeError cannot_convert)
         else
           exists debug,
             s = Fulfilled
                   (text_result
                      ("Page not found for path: " ++ p ++ Str.nl ++ Str.nl ++ debug)
                      true)
     | Rejected e =>
         exists debug,
           s = Fulfilled
                 (text_result
                    ("Error fetching page: " ++ error_text e ++ Str.nl ++ Str.nl ++ debug)
                    true)
     end) /\
  (let lookup := lookup_by_path (Unnamed.normalizePath p) in
   exists s,
     run srv hist (Unnamed.wiki_get_page args) = ([(lookup, srv hist lookup)], s) /\
     match srv hist lookup with
     | Resolved data =>
         found data "singleByPath" = true ->
         s = if page_printable (payload data "singleByPath")
             then
               Fulfilled
                 (text_result
                    ("# " ++ to_string (Js.get (payload data "singleByPath") "title") ++
                     Str.nl ++ Str.nl ++
                     to_string (Js.get (payload data "singleByPath") "content")) false)
             else Threw (TypeError cannot_convert)
     | Rejected e =>
         s = Fulfilled (text_result ("Error fetching page: " ++ error_text e) true)
     end).
Proof.
  intros V Tid Hpath Hp.
  assert (T : Js.truthy (JStr p) = true) by now apply truthy_string.
  split; intros lookup.
  - unfold RevB.wiki_get_page, RevB.get_by_path.
    rewrite V, Tid, Hpath, T. cbn [negb string_receiver bind].
    rewrite run_bind, run_try_catch, run_bind, run_bind, run_request.
    fold (lookup_by_path (RevB.normalizePath p)). fold lookup.
    destruct (srv hist lookup) as [data | e].
    + destruct (found data "singleByPath") eqn:F.
      * assert (Tp : Js.truthy (payload data "singleByPath") = true).
        { unfold found in F. apply andb_true_iff in F. now destruct F. }
        cbn [run bind try_catch fst snd app]. rewrite page_result_run, Tp.
        destruct (page_printable (payload data "singleByPath"));
          cbn [run fst snd app]; eexists; (split; [reflexivity|]);
          [eexists; reflexivity | reflexivity].
      * cbn [run bind try_catch fst snd app].
        rewrite page_result_run, Tid, Hpath. cbn [Js.truthy Js.printable].
        eexists. split; [reflexivity|]. eexists. reflexivity.
    + cbn. eexists. split; [reflexivity|]. eexists. reflexivity.
  - unfold Unnamed.wiki_get_page.
    rewrite V, Tid, Hpath, T. cbn [negb string_receiver bind].
    rewrite run_bind, run_try_catch, run_bind, run_bind, run_request.
    fold (lookup_by_path (Unnamed.normalizePath p)). fold lookup.
    destruct (srv hist lookup) as [data | e]; [|cbn; eexists; split; reflexivity].
    unfold found, payload, page_printable, ToString.
    destruct data as [| | b | n | s | items | fields]; try solve [edge].
    cbn [Js.truthy andb member bind run fst snd].
    destruct (Js.get (JObj fields) "pages") as [| | b | n | s | items | pages] eqn:P;
      try solve [edge].
    cbn [Js.truthy andb member bind run fst snd try_catch].
    destruct (Js.truthy (Js.get (JObj pages) "singleByPath")) eqn:F;
      [destruct (Js.printable (Js.get (Js.get (JObj pages) "singleByPath") "title"));
       [destruct (Js.printable (Js.get (Js.get (JObj pages) "singleByPath") "content"))|]
      |]; edge.
Qed.

(** A page whose title is an object with its own [toString] entry. *)
Lemma X22_get_by_path_single_lookup_witness :
  let args := JObj [("path", JStr "/docs/a")] in
  let page := JObj [("title", JObj [("toString", JNum 1)]); ("content", JStr "c")] in
  let data := JObj [("pages", JObj [("singleByPath", page)])] in
  run (answering data) [] (RevB.wiki_get_page (rt := sample_runtime) args) =
    ([(lookup_by_path "docs/a", Resolved data)],
     Threw (TypeError (rt := sample_runtime) cannot_convert)).
Proof.
  intros args page data.
  destruct (proj1 (@X22_get_by_path_single_lookup sample_runtime (answering data) []
                     args "/docs/a" eq_refl eq_refl eq_refl
                     ltac:(discriminate)))
    as (s & E & H).
  cbn in H. rewrite H in E. exact E.
Defined.

(* ------------------------------------------------------------------ *)
(** * Normalization across revisions, and the create variables *)

(** X23. Adding the slash, as the unnamed revision does, is idempotent
    and always yields a path with a leading slash; stripping it, as the
    other revisions do, undoes the addition, so both normalizations
    send "/x" and "x" to one key each.  Stripping removes one slash
    only: it is not idempotent on a path with two leading slashes, and
    stripping then adding gives the path back exactly when the path had
    one leading slash. *)
Theorem X23_normalizations_compose (p : string) :
  Unnamed.normalizePath (Unnamed.normalizePath p) = Unnamed.normalizePath p /\
  Str.startsWith (Unnamed.normalizePath p) "/" = true /\
  RevB.normalizePath (Unnamed.normalizePath p) = RevB.normalizePath p /\
  Unnamed.normalizePath ("/" ++ RevB.normalizePath p) = "/" ++ RevB.normalizePath p /\
  RevB.normalizePath ("//" ++ p) = "/" ++ p /\
  RevB.normalizePath (RevB.normalizePath ("//" ++ p)) = p /\
  (Unnamed.normalizePath (RevB.normalizePath p) = p <->
   Str.startsWith p "/" = true /\ Str.startsWith p "//" = false).
Proof.
  assert (L : forall a b : string, a = String "/" b -> a <> b).
  { intros a b E H. apply (f_equal String.length) in E. rewrite H in E.
    cbn in E. lia. }
  assert (C : (exists r, p = String "/" r) \/ Str.startsWith p "/" = false).
  { destruct p as [|c r]; [now right|]. cbn [Str.startsWith].
    destruct (Ascii.eqb_spec "/"%char c) as [<- | N]; [left; now exists r | now right]. }
  assert (E1 : forall r, Str.startsWith (String "/" r) "/" = true) by reflexivity.
  assert (E2 : forall r, Str.startsWith (String "/" r) "//" = Str.startsWith r "/")
    by reflexivity.
  assert (E3 : forall r, Str.substring1 (String "/" r) = r) by reflexivity.
  unfold Unnamed.normalizePath, RevB.normalizePath.
  change ("//" ++ p) with (String "/" (String "/" p)).
  destruct C as [[r ->] | S].
  - rewrite ?E1, ?E2, ?E3. cbv beta iota.
    change ("/" ++ r) with (String "/" r).
    rewrite ?E1, ?E2, ?E3. cbv beta iota.
    repeat split; try reflexivity.
    + destruct (Str.startsWith r "/") eqn:R; [|reflexivity].
      symmetry in H. now apply L in H.
    + intros [_ H]. now rewrite H.
  - rewrite ?S, ?E1, ?E2, ?E3. cbv beta iota.
    change ("/" ++ p) with (String "/" p).
    rewrite ?S, ?E1, ?E2, ?E3. cbv beta iota.
    repeat split; try reflexivity; try discriminate.
    all: try (exfalso; now apply L in H).
    all: intros [H _]; discriminate.
Qed.

(** X24. The create mutation of revision A, which spreads the base
    parameters and puts [path] last, carries the same variables as the
    one of the other revisions, which put [path] first: every variable
    name is bound to the same value in both.  Restoring the slash for
    the second attempt of revision C changes the [path] variable and
    nothing else. *)
Theorem X24_create_variables_agree
    (rt : Runtime) (args : value) (path : string) (k : string) :
  Js.assoc k (variables (A_create_request args path)) =
    Js.assoc k (variables (create_request args path)) /\
  length (variables (A_create_request args path)) =
    length (variables (create_request args path)) /\
  forall other,
    Js.set_field "path" (JStr other) (variables (create_request args path)) =
      variables (create_request args other).
Proof.
  split; [|split; [reflexivity | intros other; reflexivity]].
  unfold A_create_request, create_request, RevA.baseParams, requestParams.
  cbn [variables Js.set_field String.eqb Ascii.eqb Bool.eqb Js.assoc].
  repeat match goal with
         | |- context [String.eqb k ?s] =>
             destruct (String.eqb_spec k s) as [-> | ?]; [reflexivity |]
         end.
  reflexivity.
Qed.
